(** * Zhouyi: calendrical core of the bazi and flying-star calculators

    A shallow embedding of the calculation functions of
    [src/js/bazi.js], [src/js/fengshui-calc.js] and of the later revision
    of the bazi module kept in [src/unnamed/part_003].

    Number model.  A JavaScript number that is an integer by construction
    (years, months, days, indices, Julian day numbers) is a [Z]; the
    remainder operator [%] is [Z.rem] (sign of the dividend).  A number
    that carries a fraction is a binary64 [float] of the standard library,
    whose operations are the IEEE 754 ones JavaScript uses.  [Math.floor]
    is the bridge from the second kind to the first. *)

From Stdlib Require Import ZArith List Bool Lia String Floats Permutation.
Import ListNotations.

Local Open Scope Z_scope.
Set Warnings "-inexact-float".

(** ** JavaScript numbers *)

Module JS.

(** [%] on integers: truncated remainder. *)
Definition rem (a b : Z) : Z := Z.rem a b.

(** The idiom [((a % n) + n) % n]. *)
Definition posmod (a n : Z) : Z := rem (rem a n + n) n.

(** Conversion of an integer to a number; exact below [2^53]. *)
Definition of_Z (z : Z) : float :=
  match z with
  | Z0 => PrimFloat.zero
  | Zpos _ => PrimFloat.of_uint63 (Uint63.of_Z z)
  | Zneg p => PrimFloat.opp (PrimFloat.of_uint63 (Uint63.of_Z (Zpos p)))
  end.

(** The integer [Math.floor] yields, read off the sign, mantissa and
    exponent of the number; [None] for NaN and the infinities, which have
    no integer floor. *)
Definition floorZ (x : float) : option Z :=
  match Prim2SF x with
  | S754_zero _ => Some 0
  | S754_finite s m e => Some (Z.shiftl (if s then Zneg m else Zpos m) e)
  | S754_infinity _ | S754_nan => None
  end.

(** [Math.floor] as a number. *)
Definition Math_floor (x : float) : float :=
  match floorZ x with
  | Some z => if PrimFloat.is_zero x then x else of_Z z
  | None => x
  end.

(** [Math.round]: nearest integer, ties towards plus infinity.  A number
    with a non-negative exponent is an integer already.  The sign of a
    zero result is not kept. *)
Definition roundZ (x : float) : option Z :=
  match Prim2SF x with
  | S754_zero _ => Some 0
  | S754_finite s m e =>
      let v := if s then Zneg m else Zpos m in
      Some (if 0 <=? e then Z.shiftl v e
            else Z.shiftl (2 * v + Z.shiftl 1 (- e)) (e - 1))
  | S754_infinity _ | S754_nan => None
  end.

Definition Math_round (x : float) : float :=
  match roundZ x with
  | Some z => of_Z z
  | None => x
  end.

End JS.

(** ** Shared tables *)

Definition STEMS : list string :=
  ["甲";"乙";"丙";"丁";"戊";"己";"庚";"辛";"壬";"癸"]%string.
Definition BRANCHES : list string :=
  ["子";"丑";"寅";"卯";"辰";"巳";"午";"未";"申";"酉";"戌";"亥"]%string.

(** Array indexing: [None] is [undefined] (index negative or past the end). *)
Definition index {A} (l : list A) (i : Z) : option A :=
  if i <? 0 then None else nth_error l (Z.to_nat i).

(** [Array.prototype.indexOf] on strings. *)
Fixpoint indexOf_from (l : list string) (s : string) (i : Z) : option Z :=
  match l with
  | [] => None
  | x :: r => if String.eqb x s then Some i else indexOf_from r s (i + 1)
  end.
Definition indexOf (l : list string) (s : string) : option Z :=
  indexOf_from l s 0.

(** The 24 solar terms, in the order of [SOLAR_TERMS] / [termNames]. *)
Inductive Term : Type :=
  | XiaoHan | DaHan | LiChun | YuShui | JingZhe | ChunFen
  | QingMing | GuYu | LiXia | XiaoMan | MangZhong | XiaZhi
  | XiaoShu | DaShu | LiQiu | ChuShu | BaiLu | QiuFen
  | HanLu | ShuangJiang | LiDong | XiaoXue | DaXue | DongZhi.

Definition termNames : list Term :=
  [XiaoHan; DaHan; LiChun; YuShui; JingZhe; ChunFen; QingMing; GuYu;
   LiXia; XiaoMan; MangZhong; XiaZhi; XiaoShu; DaShu; LiQiu; ChuShu;
   BaiLu; QiuFen; HanLu; ShuangJiang; LiDong; XiaoXue; DaXue; DongZhi].

(** The key under which the source stores each term. *)
Definition Term_key (t : Term) : string :=
  match t with
  | XiaoHan => "小寒" | DaHan => "大寒" | LiChun => "立春" | YuShui => "雨水"
  | JingZhe => "惊蛰" | ChunFen => "春分" | QingMing => "清明" | GuYu => "谷雨"
  | LiXia => "立夏" | XiaoMan => "小满" | MangZhong => "芒种" | XiaZhi => "夏至"
  | XiaoShu => "小暑" | DaShu => "大暑" | LiQiu => "立秋" | ChuShu => "处暑"
  | BaiLu => "白露" | QiuFen => "秋分" | HanLu => "寒露" | ShuangJiang => "霜降"
  | LiDong => "立冬" | XiaoXue => "小雪" | DaXue => "大雪" | DongZhi => "冬至"
  end%string.

Definition Term_eqb (a b : Term) : bool :=
  String.eqb (Term_key a) (Term_key b).

(** A solar-term timestamp, the object
    [{ month, day, hour, minute, year }] of the source. *)
Record TermDate : Type := mkTermDate {
  td_month : Z; td_day : Z; td_hour : Z; td_minute : Z; td_year : Z }.

(** The object returned by [getSolarTerms]: keys in insertion order. *)
Definition TermTable : Type := list (Term * TermDate).

Fixpoint lookup (tbl : TermTable) (t : Term) : option TermDate :=
  match tbl with
  | [] => None
  | (k, v) :: r => if Term_eqb k t then Some v else lookup r t
  end.

(** Failure propagation for the computations that go through [floorZ]. *)
Definition obind {A B} (o : option A) (k : A -> option B) : option B :=
  match o with Some a => k a | None => None end.
Notation "x <- e ;; k" := (obind e (fun x => k))
  (at level 61, e at next level, right associativity).
Notation "' p <- e ;; k" := (obind e (fun p => k))
  (at level 61, p pattern, e at next level, right associativity).

(** ** The solar-term table ([getSolarTerms], [getNearestSolarTerm])

    These two functions are the same text in [src/js/bazi.js] and in
    [src/unnamed/part_003] (lines 37-199 of both). *)

Module SolarTerms.

(** [base]: the reference date and time of each term in 2000. *)
Definition base : list (Z * Z * Z * Z) :=
  [ (1, 5, 15, 0);   (1, 20, 9, 0);   (2, 4, 3, 14);   (2, 19, 0, 29);
    (3, 5, 23, 29);  (3, 20, 23, 34); (4, 4, 19, 42);  (4, 20, 2, 20);
    (5, 5, 15, 32);  (5, 21, 3, 43);  (6, 5, 12, 32);  (6, 21, 7, 0);
    (7, 7, 5, 5);    (7, 22, 22, 30); (8, 7, 15, 39);  (8, 23, 4, 34);
    (9, 7, 12, 8);   (9, 23, 3, 55);  (10, 8, 9, 21);  (10, 23, 4, 15);
    (11, 7, 2, 20);  (11, 22, 4, 36); (12, 7, 1, 10);  (12, 22, 0, 28) ].

Definition termOffsets : list float :=
  [ 5.59; 20.12; 3.87; 19.83; 5.63; 20.65;
    5.60; 20.88; 6.39; 21.37; 5.96; 21.95;
    7.93; 23.14; 7.50; 23.04; 8.69; 23.42;
    8.64; 23.96; 7.86; 22.60; 7.18; 21.94 ]%float.

Definition isLeap (y : Z) : bool :=
  ((JS.rem y 4 =? 0) && negb (JS.rem y 100 =? 0)) || (JS.rem y 400 =? 0).

Definition monthDays (y : Z) : list Z :=
  [31; if isLeap y then 29 else 28; 31; 30; 31; 30; 31; 31; 30; 31; 30; 31].

(** The loop [while (day > monthDays[month - 1]) { ... }].  Every turn
    takes at least 28 days off [day], so [fuel] turns are enough when
    [fuel] is at least [day]; [carry_month_exits] below shows that the
    loop has then left through its condition.  A comparison with
    [undefined] is false and ends the loop. *)
Fixpoint carry_month (fuel : nat) (md : list Z) (month day : Z) : Z * Z :=
  match fuel with
  | O => (month, day)
  | S fuel' =>
      match index md (month - 1) with
      | Some n =>
          if n <? day then
            let day' := day - n in
            let month' := month + 1 in
            carry_month fuel' md (if 12 <? month' then 1 else month') day'
          else (month, day)
      | None => (month, day)
      end
  end.

(** [getDaysFromNewYear(y, termIndex)], the inner function of
    [getSolarTerms]; the result is [(month, day, hour, minute)]. *)
Definition getDaysFromNewYear (y termIndex : Z) : option (Z * Z * Z * Z) :=
  let y2000 := JS.of_Z (y - 2000) in
  let yearCorrection := (y2000 * 0.0002)%float in
  '(bmonth, bday, bhour, bminute) <- index base termIndex ;;
  let dayOffset := (y2000 * 0.2422 + yearCorrection)%float in
  off <- index termOffsets termIndex ;;
  let dayOffset := (dayOffset + off)%float in
  day <- JS.floorZ (JS.of_Z bday + dayOffset)%float ;;
  let '(month, day) := carry_month (Z.to_nat day) (monthDays y) bmonth day in
  Some (month, day, bhour, bminute).

(** The loop [for (let i = 0; i < 24; i++)] of [getSolarTerms], from
    index [i] on; [names] is the rest of [termNames]. *)
Fixpoint fill_terms (year i : Z) (names : list Term) : option TermTable :=
  match names with
  | [] => Some []
  | t :: names' =>
      '(month, day, hour, minute) <- getDaysFromNewYear year i ;;
      let entry :=
        if 12 <? month
        then mkTermDate (month - 12) day hour minute (year + 1)
        else mkTermDate month day hour minute year in
      rest <- fill_terms year (i + 1) names' ;;
      Some ((t, entry) :: rest)
  end.

Definition getSolarTerms (year : Z) : option TermTable :=
  fill_terms year 0 termNames.

(** The comparable number [year * 10000 + month * 100 + day]. *)
Definition dateNum (year month day : Z) : Z :=
  year * 10000 + month * 100 + day.

(** The object [{ prevTerm, prevDate, nextTerm, nextDate }]; [None] is
    [null]. *)
Record Nearest : Type := mkNearest {
  prevTerm : option Term; prevDate : option TermDate;
  nextTerm : option Term; nextDate : option TermDate }.

(** [a || b] on numbers: [a] unless it is zero. *)
Definition orElse (a b : Z) : Z := if a =? 0 then b else a.

(** First loop of [getNearestSolarTerm]: the last two terms of the
    previous year's table. *)
Fixpoint scan_last (tbl : TermTable) (year dn : Z) (ts : list Term)
    (prev : option (Term * TermDate)) : option (Term * TermDate) :=
  match ts with
  | [] => prev
  | t :: ts' =>
      match lookup tbl t with
      | Some td =>
          let tdNum := dateNum (orElse (td_year td) (year - 1))
                               (td_month td) (td_day td) in
          scan_last tbl year dn ts'
            (if tdNum <=? dn then Some (t, td) else prev)
      | None => scan_last tbl year dn ts' prev
      end
  end.

(** Second loop: the terms of the year in table order, up to the first
    one after the date, where the loop breaks. *)
Fixpoint scan_year (tbl : TermTable) (dn : Z) (ts : list Term)
    (prev : option (Term * TermDate))
    : option (Term * TermDate) * option (Term * TermDate) :=
  match ts with
  | [] => (prev, None)
  | t :: ts' =>
      match lookup tbl t with
      | None => scan_year tbl dn ts' prev
      | Some td =>
          let tdNum := dateNum (td_year td) (td_month td) (td_day td) in
          if tdNum <=? dn then scan_year tbl dn ts' (Some (t, td))
          else (prev, Some (t, td))
      end
  end.

(** Third loop: the first of the given terms that the next year's table
    holds. *)
Fixpoint scan_first (tbl : TermTable) (ts : list Term)
    : option (Term * TermDate) :=
  match ts with
  | [] => None
  | t :: ts' =>
      match lookup tbl t with
      | Some td => Some (t, td)
      | None => scan_first tbl ts'
      end
  end.

Definition getNearestSolarTerm (year month day : Z) : option Nearest :=
  terms <- getSolarTerms year ;;
  let dn := dateNum year month day in
  prevYearTerms <- getSolarTerms (year - 1) ;;
  let prev0 := scan_last prevYearTerms year dn [DaXue; DongZhi] None in
  let '(prev, next) := scan_year terms dn termNames prev0 in
  next <- match next with
          | Some n => Some (Some n)
          | None =>
              nextYearTerms <- getSolarTerms (year + 1) ;;
              Some (scan_first nextYearTerms [XiaoHan; DaHan])
          end ;;
  Some (mkNearest (option_map fst prev) (option_map snd prev)
                  (option_map fst next) (option_map snd next)).

End SolarTerms.


(** ** [src/js/bazi.js] *)

Module Bazi.
Import SolarTerms.

Definition STEM_ELEMENTS : list string :=
  ["木";"木";"火";"火";"土";"土";"金";"金";"水";"水"]%string.
Definition BRANCH_ELEMENTS : list string :=
  ["水";"土";"木";"木";"土";"火";"火";"土";"金";"金";"土";"水"]%string.
Definition ZODIAC : list string :=
  ["鼠";"牛";"虎";"兔";"龙";"蛇";"马";"羊";"猴";"鸡";"狗";"猪"]%string.
Definition STEM_YIN_YANG : list string :=
  ["阳";"阴";"阳";"阴";"阳";"阴";"阳";"阴";"阳";"阴"]%string.

(** The [if ... else if ...] chain of [getMonthFromSolarTerm] that turns
    [prevTerm] into [monthIndex]; the last [else] takes
    [Math.floor((month - 1) / 2)], a halving that binary64 does exactly. *)
Definition monthIndex_of (prevTerm : option Term) (month : Z) : Z :=
  match prevTerm with
  | Some LiChun => 0 | Some JingZhe => 1 | Some QingMing => 2
  | Some LiXia => 3 | Some MangZhong => 4 | Some XiaoShu => 5
  | Some LiQiu => 6 | Some BaiLu => 7 | Some HanLu => 8
  | Some LiDong => 9 | Some DaXue => 10 | Some XiaoHan => 11
  | Some YuShui | Some ChunFen => 0
  | Some GuYu => 1
  | Some XiaoMan => 3
  | Some XiaZhi => 4
  | Some DaShu => 5
  | Some ChuShu => 6
  | Some QiuFen => 7
  | Some ShuangJiang => 8
  | Some XiaoXue => 9
  | Some DongZhi => 10
  | Some DaHan => 11
  | None => (month - 1) / 2
  end.

Definition monthBranchNames : list string :=
  ["寅";"卯";"辰";"巳";"午";"未";"申";"酉";"戌";"亥";"子";"丑"]%string.

Record MonthInfo : Type := mkMonthInfo {
  monthStem : option string; monthBranch : option string;
  monthStemIdx : Z; monthBranchIdx : Z; termName : string }.

Definition getMonthFromSolarTerm (year month day hour minute : Z)
    : option MonthInfo :=
  near <- getNearestSolarTerm year month day ;;
  let monthIndex := monthIndex_of (prevTerm near) month in
  let yearStemIdx := JS.posmod (year - 4) 10 in
  monthStemBase <- index [2; 4; 6; 8; 0; 2; 4; 6; 8; 0] yearStemIdx ;;
  let monthStemIdx := JS.rem (monthStemBase + monthIndex) 10 in
  let monthBranchIdx := JS.rem (monthIndex + 2) 12 in
  Some (mkMonthInfo (index STEMS monthStemIdx)
                    (index monthBranchNames monthBranchIdx)
                    monthStemIdx monthBranchIdx
                    (match prevTerm near with
                     | Some t => Term_key t
                     | None => "未知"%string
                     end)).

Record YearInfo : Type := mkYearInfo {
  yearStem : option string; yearBranch : option string;
  yearStemIdx : Z; yearBranchIdx : Z;
  zodiac : option string; actualYear : Z }.

Definition getYearSimplified (year : Z) : YearInfo :=
  let yearStemIdx := JS.posmod (year - 4) 10 in
  let yearBranchIdx := JS.posmod (year - 4) 12 in
  mkYearInfo (index STEMS yearStemIdx) (index BRANCHES yearBranchIdx)
             yearStemIdx yearBranchIdx (index ZODIAC yearBranchIdx) year.

Definition getYearFromSolarTerm (year month day : Z) : option YearInfo :=
  terms <- getSolarTerms year ;;
  match lookup terms LiChun with
  | None => Some (getYearSimplified year)
  | Some lichun =>
      let birthDate := dateNum year month day in
      let lichunDate :=
        dateNum (td_year lichun) (td_month lichun) (td_day lichun) in
      let actualYear := if birthDate <? lichunDate then year - 1 else year in
      let yearStemIdx := JS.posmod (actualYear - 4) 10 in
      let yearBranchIdx := JS.posmod (actualYear - 4) 12 in
      Some (mkYearInfo (index STEMS yearStemIdx)
                       (index BRANCHES yearBranchIdx)
                       yearStemIdx yearBranchIdx
                       (index ZODIAC yearBranchIdx) actualYear)
  end.

(** [getJulianDay(year, month, day)]: the Julian date at 0h of a
    Gregorian day, a number ending in [.5].  The four integer summands
    are added in [Z]; the sum is far below [2^53], where binary64 adds
    integers exactly. *)
Definition getJulianDay (year month day : Z) : option float :=
  let '(year, month) :=
    if month <=? 2 then (year - 1, month + 12) else (year, month) in
  A <- JS.floorZ (JS.of_Z year / 100)%float ;;
  A4 <- JS.floorZ (JS.of_Z A / 4)%float ;;
  let B := 2 - A + A4 in
  d1 <- JS.floorZ (365.25 * JS.of_Z (year + 4716))%float ;;
  d2 <- JS.floorZ (30.6001 * JS.of_Z (month + 1))%float ;;
  Some (JS.of_Z (d1 + d2 + day + B) - 1524.5)%float.

(** The day pillar of [calcBaziPillars] (its lines 589-591): the floor of
    the Julian date and the two offsets. *)
Definition dayStemBranch (year month day : Z) : option (Z * Z) :=
  jdf <- getJulianDay year month day ;;
  jd <- JS.floorZ jdf ;;
  let dayStemIdx := JS.posmod (jd + 49) 10 in
  let dayBranchIdx := JS.posmod (jd + 1) 12 in
  Some (dayStemIdx, dayBranchIdx).

(** The object [calcDaYunPrecise] returns; a field the source leaves
    out of one of its two returns is [None] there. *)
Record DaYunCalc : Type := mkDaYunCalc {
  startAge : float; direction : string;
  daysToNext : option float; daysFromPrev : option float;
  dy_prevTerm : option Term; dy_nextTerm : option Term;
  details : option string }.

(** One of the four pillars; a name read past the end of its table is
    [undefined], here [None]. *)
Record Pillar : Type := mkPillar {
  label : string; stem : option string; branch : option string;
  stemEle : option string; branchEle : option string;
  stemYY : option string }.

(** One of the eight luck pillars. *)
Record DaYun : Type := mkDaYun {
  age : float; ageEnd : float;
  dy_stem : option string; dy_branch : option string;
  dy_stemEle : option string; dy_branchEle : option string }.

(** The result of [calcBaziPillars].  Of the source's object the four
    pillars, the luck pillars and the onset data are kept; the element
    tally, the spirits and the na-yin names, which no property here
    reads, are left out. *)
Record Chart : Type := mkChart {
  pillars : list Pillar; daYun : list DaYun;
  info_zodiac : option string; info_startAge : float;
  info_daYunForward : bool; info_daYunCalc : DaYunCalc }.

Section WithDate.

(** [Date_ms y m d h min] is the time value, in milliseconds, of
    [new Date(y, m, d, h, min)]: local time of the host, month counted
    from 0.  It depends on the host's time zone and is left open. *)
Variable Date_ms : Z -> Z -> Z -> Z -> Z -> Z.

Definition msPerDay : float := 86400000%float.

(** The two clamps and the final [Math.floor] of [calcDaYunPrecise]. *)
Definition clampAge (startAge : float) : float :=
  let startAge := if (startAge <? 1)%float then 1%float else startAge in
  let startAge := if (20 <? startAge)%float then 20%float else startAge in
  JS.Math_floor startAge.

Definition calcDaYunPrecise
    (year month day hour minute : Z) (gender : string) (yearStemIdx : Z)
    : option DaYunCalc :=
  near <- getNearestSolarTerm year month day ;;
  match prevDate near, nextDate near with
  | Some prevDate, Some nextDate =>
      let birthDate := Date_ms year (month - 1) day hour minute in
      let nextDateTime :=
        Date_ms (orElse (td_year nextDate) year) (td_month nextDate - 1)
                (td_day nextDate) (td_hour nextDate) (td_minute nextDate) in
      let daysToNext := (JS.of_Z (nextDateTime - birthDate) / msPerDay)%float in
      let daysToNext :=
        if (daysToNext <? 0)%float then (daysToNext + 365)%float
        else daysToNext in
      let prevDateTime :=
        Date_ms (orElse (td_year prevDate) year) (td_month prevDate - 1)
                (td_day prevDate) (td_hour prevDate) (td_minute prevDate) in
      let daysFromPrev := (JS.of_Z (birthDate - prevDateTime) / msPerDay)%float in
      let daysFromPrev :=
        if (daysFromPrev <? 0)%float then (daysFromPrev + 365)%float
        else daysFromPrev in
      let isYangYear := JS.rem yearStemIdx 2 =? 0 in
      let isMale := String.eqb gender "m" in
      let forward := (isYangYear && isMale) || (negb isYangYear && negb isMale) in
      let '(startAge, direction) :=
        if forward
        then ((JS.Math_round (daysToNext / 3 * 10) / 10)%float, "顺行"%string)
        else ((JS.Math_round (daysFromPrev / 3 * 10) / 10)%float, "逆行"%string) in
      Some (mkDaYunCalc (clampAge startAge) direction
                        (Some (JS.Math_round daysToNext))
                        (Some (JS.Math_round daysFromPrev))
                        (prevTerm near) (nextTerm near) None)
  | _, _ =>
      Some (mkDaYunCalc 3%float "顺行"%string None None None None
                        (Some "节气计算异常"%string))
  end.

(** The loop that builds the eight luck pillars, from turn [i] on. *)
Fixpoint daYun_from (n : nat) (i : Z) (startAge : float) (forward : bool)
    (monthStemIdx monthBranchIdx : Z) : list DaYun :=
  match n with
  | O => []
  | S n' =>
      let offset := if forward then i + 1 else - (i + 1) in
      let dyIdx := JS.rem (monthStemIdx + offset + 100) 10 in
      let dyBIdx := JS.rem (monthBranchIdx + offset + 120) 12 in
      mkDaYun (startAge + JS.of_Z (i * 10))%float
              (startAge + JS.of_Z (i * 10) + 9)%float
              (index STEMS dyIdx) (index BRANCHES dyBIdx)
              (index STEM_ELEMENTS dyIdx) (index BRANCH_ELEMENTS dyBIdx)
      :: daYun_from n' (i + 1) startAge forward monthStemIdx monthBranchIdx
  end.

Definition calcBaziPillars (year month day hour : Z) (gender : string)
    : option Chart :=
  yearInfo <- getYearFromSolarTerm year month day ;;
  let yearStemIdx := yearStemIdx yearInfo in
  let yearBranchIdx := yearBranchIdx yearInfo in
  monthInfo <- getMonthFromSolarTerm year month day 0 0 ;;
  let monthStemIdx := monthStemIdx monthInfo in
  let monthBranchIdx := monthBranchIdx monthInfo in
  '(dayStemIdx, dayBranchIdx) <- dayStemBranch year month day ;;
  hourBase <- index [0; 2; 4; 6; 8] (JS.rem dayStemIdx 5) ;;
  let hourStemIdx := JS.rem (hourBase + hour) 10 in
  let pillars :=
    [ mkPillar "年柱" (yearStem yearInfo) (yearBranch yearInfo)
        (index STEM_ELEMENTS yearStemIdx) (index BRANCH_ELEMENTS yearBranchIdx)
        (index STEM_YIN_YANG yearStemIdx);
      mkPillar "月柱" (monthStem monthInfo) (monthBranch monthInfo)
        (index STEM_ELEMENTS monthStemIdx)
        (index BRANCH_ELEMENTS monthBranchIdx)
        (index STEM_YIN_YANG monthStemIdx);
      mkPillar "日柱（日主）" (index STEMS dayStemIdx) (index BRANCHES dayBranchIdx)
        (index STEM_ELEMENTS dayStemIdx) (index BRANCH_ELEMENTS dayBranchIdx)
        (index STEM_YIN_YANG dayStemIdx);
      mkPillar "时柱" (index STEMS hourStemIdx) (index BRANCHES hour)
        (index STEM_ELEMENTS hourStemIdx) (index BRANCH_ELEMENTS hour)
        (index STEM_YIN_YANG hourStemIdx) ]%string in
  daYunCalc <- calcDaYunPrecise year month day 0 0 gender yearStemIdx ;;
  let startAge := startAge daYunCalc in
  let daYunForward := String.eqb (direction daYunCalc) "顺行" in
  Some (mkChart pillars
          (daYun_from 8 0 startAge daYunForward monthStemIdx monthBranchIdx)
          (zodiac yearInfo) startAge daYunForward daYunCalc).

(** The form the entry point reads.  [parseInt] of the year field is a
    number or NaN ([None]); its test [!year] is true of NaN and of 0.
    The other fields are taken as the integers typed in. *)
Record Form : Type := mkForm {
  birthYear : option Z; birthMonth : Z; birthDay : Z; birthHour : Z;
  gender_field : string }.

(** What [calcBazi] does: either the [alert] and the early [return], or
    the chart handed to [renderBazi]. *)
Inductive Outcome : Type :=
  | Alert (msg : string)
  | Render (result : Chart).

(** The test [!year || year < 1900 || year > 2100]. *)
Definition yearRejected (y : option Z) : bool :=
  match y with
  | None => true
  | Some y => (y =? 0) || (y <? 1900) || (2100 <? y)
  end.

Definition calcBazi (f : Form) : option Outcome :=
  if yearRejected (birthYear f)
  then Some (Alert "请输入有效年份（1900-2100）")
  else
    match birthYear f with
    | Some year =>
        result <- calcBaziPillars year (birthMonth f) (birthDay f)
                                  (birthHour f) (gender_field f) ;;
        Some (Render result)
    | None => None
    end.

End WithDate.

End Bazi.

(** ** [src/unnamed/part_003]: the later revision of the bazi module

    Its [getSolarTerms], [getNearestSolarTerm], [getYearFromSolarTerm]
    and [calcDaYunPrecise] are the text of [src/js/bazi.js]; the
    definitions above stand for them.  What differs is below. *)

Module Part3.
Import SolarTerms.

(** *** The revision built on the astronomical solver (lines 529-730) *)

Module Jieqi.

Section WithSolver.

(** [calcSolarTerm year termIndex] solves for the solar longitude with
    [Math.sin] and a Newton iteration; its value is left open here. *)
Variable calcSolarTerm : Z -> Z -> TermDate.

Definition JIEQI_INDEXES : list Z := [2; 4; 6; 8; 10; 12; 14; 16; 18; 20; 22; 0].

(** [getJieqi(year)]: eleven terms of the year and the minor cold of the
    next; the cache holds what the pure computation gives. *)
Definition getJieqi (year : Z) : list TermDate :=
  map (calcSolarTerm year) (firstn 11 JIEQI_INDEXES)
  ++ match index JIEQI_INDEXES 11 with
     | Some i => [calcSolarTerm (year + 1) i]
     | None => []
     end.

Definition JIEQI_BRANCH : list Z := [2; 3; 4; 5; 6; 7; 8; 9; 10; 11; 0; 1].

(** The loop of [getMonthBranchIdx] over the terms from index [i] on.
    [hour] is [None] when the argument is [undefined]. *)
Fixpoint lastPassed (ts : list TermDate) (i : Z) (month day : Z)
    (hour : option Z) (lastIdx : Z) : Z :=
  match ts with
  | [] => lastIdx
  | t :: ts' =>
      let isAfter :=
        (td_month t <? month)
        || ((month =? td_month t) && (td_day t <? day))
        || ((month =? td_month t) && (day =? td_day t)
            && match hour with
               | Some h => td_hour t * 60 + td_minute t <=? h * 60
               | None => false
               end) in
      if isAfter then lastPassed ts' (i + 1) month day hour i else lastIdx
  end.

(** [None]: [terms[0]] is [undefined] and reading its month throws. *)
Definition getMonthBranchIdx (year month day : Z) (hour : option Z)
    : option Z :=
  let terms := getJieqi year in
  lichun <- index terms 0 ;;
  if (month <? td_month lichun)
     || ((month =? td_month lichun) && (day <? td_day lichun))
  then index JIEQI_BRANCH 11
  else index JIEQI_BRANCH (lastPassed (firstn 12 terms) 0 month day hour 0).

Definition HOUR_START : list Z := [23; 1; 3; 5; 7; 9; 11; 13; 15; 17; 19; 21].

Record StemBranch : Type := mkStemBranch { stemIdx : Z; branchIdx : Z }.

(** [birthMinute] is [None] when [HOUR_START[hourBranchIdx]] is
    [undefined]: the product is NaN and the comparison with it false. *)
Definition getYearStemBranch (year month day : Z) (hourBranchIdx : option Z)
    : option StemBranch :=
  let terms := getJieqi year in
  lichun <- index terms 0 ;;
  let birthMinute :=
    match hourBranchIdx with
    | Some h => option_map (fun s => s * 60) (index HOUR_START h)
    | None => Some 0
    end in
  let lichunMinute := td_hour lichun * 60 + td_minute lichun in
  let bornBefore :=
    (month <? td_month lichun)
    || ((month =? td_month lichun) && (day <? td_day lichun))
    || ((month =? td_month lichun) && (day =? td_day lichun)
        && match hourBranchIdx, birthMinute with
           | Some _, Some bm => bm <? lichunMinute
           | _, _ => false
           end) in
  let y := if bornBefore then year - 1 else year in
  Some (mkStemBranch (JS.posmod (y - 4) 10) (JS.posmod (y - 4) 12)).

Definition getMonthStemBranch (yearStemIdx year month day : Z)
    (hourBranchIdx : option Z) : option StemBranch :=
  branchIdx <- getMonthBranchIdx year month day hourBranchIdx ;;
  base <- index [2; 4; 6; 8; 0] (JS.rem yearStemIdx 5) ;;
  let offset := JS.rem (branchIdx - 2 + 12) 12 in
  Some (mkStemBranch (JS.rem (base + offset) 10) branchIdx).

End WithSolver.

Definition getDayStemBranch (year month day : Z) : option StemBranch :=
  let '(y, m) :=
    if month <=? 2 then (year - 1, month + 12) else (year, month) in
  A <- JS.floorZ (JS.of_Z y / 100)%float ;;
  A4 <- JS.floorZ (JS.of_Z A / 4)%float ;;
  let B := 2 - A + A4 in
  d1 <- JS.floorZ (365.25 * JS.of_Z (y + 4716))%float ;;
  d2 <- JS.floorZ (30.6001 * JS.of_Z (m + 1))%float ;;
  let JD := d1 + d2 + day + B - 1524 in
  let base := 2451551 in
  Some (mkStemBranch (JS.posmod (JD - base) 10) (JS.posmod (JD - base) 12)).

Definition getHourStemBranch (dayStemIdx hourBranchIdx : Z)
    : option StemBranch :=
  base <- index [0; 2; 4; 6; 8] (JS.rem dayStemIdx 5) ;;
  Some (mkStemBranch (JS.rem (base + hourBranchIdx) 10) hourBranchIdx).

Record Pillar : Type := mkPillar {
  label : string; p_stemIdx : Z; p_branchIdx : Z;
  stem : option string; branch : option string;
  stemEle : option string; branchEle : option string }.

Definition decorate (label : string) (sb : StemBranch) : Pillar :=
  mkPillar label (stemIdx sb) (branchIdx sb)
    (index STEMS (stemIdx sb)) (index BRANCHES (branchIdx sb))
    (index Bazi.STEM_ELEMENTS (stemIdx sb))
    (index Bazi.BRANCH_ELEMENTS (branchIdx sb)).

(** [calcBaziPillars] of lines 712-730. *)
Definition calcBaziPillars (calcSolarTerm : Z -> Z -> TermDate)
    (year month day hourBranchIdx : Z) (gender : string)
    : option (list Pillar) :=
  yr <- getYearStemBranch calcSolarTerm year month day (Some hourBranchIdx) ;;
  mo <- getMonthStemBranch calcSolarTerm (stemIdx yr) year month day
                           (Some hourBranchIdx) ;;
  da <- getDayStemBranch year month day ;;
  hr <- getHourStemBranch (stemIdx da) hourBranchIdx ;;
  Some [ decorate "年柱" yr; decorate "月柱" mo;
         decorate "日柱" da; decorate "时柱" hr ]%string.

End Jieqi.

(** *** The revision in effect (lines 210-270 and 1167-2024) *)

(** As in [bazi.js] but for [monthBranchIdx], here the month index
    itself. *)
Definition getMonthFromSolarTerm (year month day hour minute : Z)
    : option Bazi.MonthInfo :=
  near <- getNearestSolarTerm year month day ;;
  let monthIndex := Bazi.monthIndex_of (prevTerm near) month in
  let yearStemIdx := JS.posmod (year - 4) 10 in
  monthStemBase <- index [2; 4; 6; 8; 0; 2; 4; 6; 8; 0] yearStemIdx ;;
  let monthStemIdx := JS.rem (monthStemBase + monthIndex) 10 in
  let monthBranchIdx := monthIndex in
  Some (Bazi.mkMonthInfo (index STEMS monthStemIdx)
                         (index Bazi.monthBranchNames monthBranchIdx)
                         monthStemIdx monthBranchIdx
                         (match prevTerm near with
                          | Some t => Term_key t
                          | None => "未知"%string
                          end)).

(** [getJulianDay] of line 1167, "[返回整数]": every quotient is floored
    at once. *)
Definition getJulianDay (year month day : Z) : option Z :=
  a <- JS.floorZ (JS.of_Z (14 - month) / 12)%float ;;
  let y2 := year + 4800 - a in
  let m2 := month + 12 * a - 3 in
  q1 <- JS.floorZ (JS.of_Z (153 * m2 + 2) / 5)%float ;;
  q2 <- JS.floorZ (JS.of_Z y2 / 4)%float ;;
  q3 <- JS.floorZ (JS.of_Z y2 / 100)%float ;;
  q4 <- JS.floorZ (JS.of_Z y2 / 400)%float ;;
  Some (day + q1 + 365 * y2 + q2 - q3 + q4 - 32045).

(** The day pillar of the [calcBaziPillars] in effect (its lines
    1201-1203). *)
Definition dayStemBranch (year month day : Z) : option (Z * Z) :=
  jd <- getJulianDay year month day ;;
  let dayStemIdx := JS.posmod (jd + 49) 10 in
  let dayBranchIdx := JS.posmod (jd + 1) 12 in
  Some (dayStemIdx, dayBranchIdx).

Section WithDate.

Variable Date_ms : Z -> Z -> Z -> Z -> Z -> Z.

(** [calcBaziPillars] of line 1183, the declaration that is in effect
    in the file. *)
Definition calcBaziPillars (year month day hour : Z) (gender : string)
    : option Bazi.Chart :=
  yearInfo <- Bazi.getYearFromSolarTerm year month day ;;
  let yearStemIdx := Bazi.yearStemIdx yearInfo in
  let yearBranchIdx := Bazi.yearBranchIdx yearInfo in
  let actualYear := Bazi.actualYear yearInfo in
  monthInfo <- getMonthFromSolarTerm actualYear month day 0 0 ;;
  let monthStemIdx := Bazi.monthStemIdx monthInfo in
  let monthBranchIdx := Bazi.monthBranchIdx monthInfo in
  '(dayStemIdx, dayBranchIdx) <- dayStemBranch year month day ;;
  hourBase <- index [0; 2; 4; 6; 8] (JS.rem dayStemIdx 5) ;;
  let hourStemIdx := JS.rem (hourBase + hour) 10 in
  let pillars :=
    [ Bazi.mkPillar "年柱" (Bazi.yearStem yearInfo) (Bazi.yearBranch yearInfo)
        (index Bazi.STEM_ELEMENTS yearStemIdx)
        (index Bazi.BRANCH_ELEMENTS yearBranchIdx)
        (index Bazi.STEM_YIN_YANG yearStemIdx);
      Bazi.mkPillar "月柱" (Bazi.monthStem monthInfo) (Bazi.monthBranch monthInfo)
        (index Bazi.STEM_ELEMENTS monthStemIdx)
        (index Bazi.BRANCH_ELEMENTS monthBranchIdx)
        (index Bazi.STEM_YIN_YANG monthStemIdx);
      Bazi.mkPillar "日柱（日主）" (index STEMS dayStemIdx)
        (index BRANCHES dayBranchIdx)
        (index Bazi.STEM_ELEMENTS dayStemIdx)
        (index Bazi.BRANCH_ELEMENTS dayBranchIdx)
        (index Bazi.STEM_YIN_YANG dayStemIdx);
      Bazi.mkPillar "时柱" (index STEMS hourStemIdx) (index BRANCHES hour)
        (index Bazi.STEM_ELEMENTS hourStemIdx)
        (index Bazi.BRANCH_ELEMENTS hour)
        (index Bazi.STEM_YIN_YANG hourStemIdx) ]%string in
  daYunCalc <- Bazi.calcDaYunPrecise Date_ms year month day 0 0 gender
                                     yearStemIdx ;;
  let startAge := Bazi.startAge daYunCalc in
  let daYunForward := String.eqb (Bazi.direction daYunCalc) "顺行" in
  Some (Bazi.mkChart pillars
          (Bazi.daYun_from 8 0 startAge daYunForward monthStemIdx monthBranchIdx)
          (Bazi.zodiac yearInfo) startAge daYunForward daYunCalc).

(** [lunarNewYear]: the solar month and day of each lunar new year. *)
Definition lunarNewYear : list (Z * (Z * Z)) :=
  [
    (1900, (1, 21)); (1901, (2, 19)); (1902, (2, 8)); (1903, (1, 29)); (1904, (2, 15));
    (1905, (2, 4)); (1906, (1, 25)); (1907, (2, 13)); (1908, (2, 2)); (1909, (1, 22));
    (1910, (2, 10)); (1911, (1, 30)); (1912, (2, 18)); (1913, (2, 6)); (1914, (1, 26));
    (1915, (2, 14)); (1916, (2, 3)); (1917, (1, 23)); (1918, (2, 11)); (1919, (2, 1));
    (1920, (1, 21)); (1921, (2, 8)); (1922, (1, 28)); (1923, (2, 16)); (1924, (2, 5));
    (1925, (1, 24)); (1926, (2, 13)); (1927, (2, 2)); (1928, (1, 23)); (1929, (2, 10));
    (1930, (1, 30)); (1931, (2, 17)); (1932, (2, 6)); (1933, (1, 26)); (1934, (2, 14));
    (1935, (2, 4)); (1936, (1, 24)); (1937, (2, 11)); (1938, (2, 1)); (1939, (1, 21));
    (1940, (2, 9)); (1941, (1, 29)); (1942, (2, 15)); (1943, (2, 5)); (1944, (1, 25));
    (1945, (2, 13)); (1946, (2, 2)); (1947, (1, 22)); (1948, (2, 10)); (1949, (1, 29));
    (1950, (2, 17)); (1951, (2, 6)); (1952, (1, 27)); (1953, (2, 14)); (1954, (2, 3));
    (1955, (1, 24)); (1956, (2, 12)); (1957, (2, 1)); (1958, (1, 21)); (1959, (2, 8));
    (1960, (1, 28)); (1961, (2, 15)); (1962, (2, 5)); (1963, (1, 25)); (1964, (2, 13));
    (1965, (2, 2)); (1966, (1, 21)); (1967, (2, 9)); (1968, (1, 30)); (1969, (2, 17));
    (1970, (2, 6)); (1971, (1, 27)); (1972, (2, 15)); (1973, (2, 3)); (1974, (1, 23));
    (1975, (2, 11)); (1976, (1, 31)); (1977, (2, 18)); (1978, (2, 7)); (1979, (1, 27));
    (1980, (2, 16)); (1981, (2, 5)); (1982, (1, 25)); (1983, (2, 13)); (1984, (2, 2));
    (1985, (1, 21)); (1986, (2, 9)); (1987, (1, 29)); (1988, (2, 17)); (1989, (2, 6));
    (1990, (1, 27)); (1991, (2, 15)); (1992, (2, 4)); (1993, (1, 23)); (1994, (2, 10));
    (1995, (1, 31)); (1996, (2, 19)); (1997, (2, 7)); (1998, (1, 28)); (1999, (2, 16));
    (2000, (2, 5)); (2001, (1, 24)); (2002, (2, 12)); (2003, (2, 1)); (2004, (1, 22));
    (2005, (2, 9)); (2006, (1, 29)); (2007, (2, 18)); (2008, (2, 7)); (2009, (1, 26));
    (2010, (2, 14)); (2011, (2, 3)); (2012, (1, 23)); (2013, (2, 10)); (2014, (1, 31));
    (2015, (2, 19)); (2016, (2, 8)); (2017, (1, 28)); (2018, (2, 16)); (2019, (2, 5));
    (2020, (1, 25)); (2021, (2, 12)); (2022, (2, 1)); (2023, (1, 22)); (2024, (2, 10));
    (2025, (1, 29)); (2026, (2, 17)); (2027, (2, 6)); (2028, (1, 26)); (2029, (2, 13));
    (2030, (2, 3)); (2031, (1, 23)); (2032, (2, 11)); (2033, (1, 31)); (2034, (2, 19));
    (2035, (2, 8)); (2036, (1, 28)); (2037, (2, 15)); (2038, (2, 4)); (2039, (1, 24));
    (2040, (2, 12)); (2041, (2, 1)); (2042, (1, 22)); (2043, (2, 10)); (2044, (1, 30));
    (2045, (2, 17)); (2046, (2, 6)); (2047, (1, 26)); (2048, (2, 13)); (2049, (2, 2));
    (2050, (1, 22)) ].

Fixpoint assoc (l : list (Z * (Z * Z))) (k : Z) : option (Z * Z) :=
  match l with
  | [] => None
  | (k', v) :: r => if k' =? k then Some v else assoc r k
  end.

Definition getMonthDays (y m : Z) : Z :=
  if (m =? 1) || (m =? 3) || (m =? 5) || (m =? 7) || (m =? 8)
     || (m =? 10) || (m =? 12)
  then 30 else 29.

(** [for (let i = 1; i < lunarMonth; i++) solarDay += ...], from [i] on
    for [n] turns. *)
Fixpoint addMonths (n : nat) (lunarYear i solarDay : Z) : Z :=
  match n with
  | O => solarDay
  | S n' => addMonths n' lunarYear (i + 1) (solarDay + getMonthDays lunarYear i)
  end.

(** [while (solarDay > 28) { ... }]; each turn that does not break takes
    at least 28 days off. *)
Fixpoint carry_solar (fuel : nat) (lunarYear solarMonth solarDay : Z)
    : Z * Z * Z :=
  match fuel with
  | O => (lunarYear, solarMonth, solarDay)
  | S fuel' =>
      if 28 <? solarDay then
        let daysInMonth :=
          if solarMonth =? 2 then 28
          else if (solarMonth =? 4) || (solarMonth =? 6) || (solarMonth =? 9)
                  || (solarMonth =? 11) then 30
          else 31 in
        if daysInMonth <? solarDay then
          let solarDay := solarDay - daysInMonth in
          let solarMonth := solarMonth + 1 in
          if 12 <? solarMonth
          then carry_solar fuel' (lunarYear + 1) 1 solarDay
          else carry_solar fuel' lunarYear solarMonth solarDay
        else (lunarYear, solarMonth, solarDay)
      else (lunarYear, solarMonth, solarDay)
  end.

Definition lunarToSolar (lunarYear lunarMonth lunarDay : Z) : Z * Z * Z :=
  let '(solarMonth, solarDay) :=
    match assoc lunarNewYear lunarYear with
    | Some ny => ny
    | None => (1, 21)
    end in
  let solarDay :=
    addMonths (Z.to_nat (lunarMonth - 1)) lunarYear 1 solarDay in
  let solarDay := solarDay + (lunarDay - 1) in
  carry_solar (Z.to_nat solarDay) lunarYear solarMonth solarDay.

Record Form : Type := mkForm {
  calendarType : string;
  birthYear : option Z; birthMonth : Z; birthDay : Z; birthHour : Z;
  gender_field : string }.

Definition calcBazi (f : Form) : option Bazi.Outcome :=
  if Bazi.yearRejected (birthYear f)
  then Some (Bazi.Alert "请输入有效年份（1900-2100）")
  else
    match birthYear f with
    | Some year =>
        let '(solarYear, solarMonth, solarDay) :=
          if String.eqb (calendarType f) "lunar"
          then lunarToSolar year (birthMonth f) (birthDay f)
          else (year, birthMonth f, birthDay f) in
        result <- calcBaziPillars solarYear solarMonth solarDay
                                  (birthHour f) (gender_field f) ;;
        Some (Bazi.Render result)
    | None => None
    end.

End WithDate.

End Part3.

(** ** [src/js/fengshui-calc.js]: the annual flying stars *)

Module Fengshui.

(** An entry of the palace array; of the star's attributes spread into
    it ([...FLYING_STARS[star]]) only the name is kept. *)
Record Palace : Type := mkPalace {
  position : string; row : Z; col : Z; star : Z; name : option string }.

Definition FLYING_STARS : list (Z * string) :=
  [ (1, "一白贪狼"); (2, "二黑巨门"); (3, "三碧禄存"); (4, "四绿文昌");
    (5, "五黄廉贞"); (6, "六白武曲"); (7, "七赤破军"); (8, "八白左辅");
    (9, "九紫右弼") ]%string.

Fixpoint starName (l : list (Z * string)) (k : Z) : option string :=
  match l with
  | [] => None
  | (k', v) :: r => if k' =? k then Some v else starName r k
  end.

Definition positions : list (string * Z * Z) :=
  [ ("坎", 2, 1); ("坤", 3, 0); ("震", 3, 1); ("巽", 3, 2);
    ("乾", 0, 2); ("兑", 0, 1); ("艮", 0, 0); ("离", 1, 2) ]%string.

(** The loop [for (let i = 0; i < 8; i++)], over the positions left. *)
Fixpoint fly (ps : list (string * Z * Z)) (currentStar : Z) : list Palace :=
  match ps with
  | [] => []
  | (pos, r, c) :: ps' =>
      let currentStar := if 9 <=? currentStar then 1 else currentStar + 1 in
      mkPalace pos r c currentStar (starName FLYING_STARS currentStar)
      :: fly ps' currentStar
  end.

Definition calcFlyingStars (year : Z) : list Palace :=
  let centerStar :=
    if 2024 <=? year then 9
    else if 2004 <=? year then 8
    else 7 in
  mkPalace "中宫" 1 1 centerStar (starName FLYING_STARS centerStar)
  :: fly positions centerStar.

End Fengshui.


(** ** JavaScript objects, arrays and strings *)

Module JSObj.

(** An object literal is the list of its entries in source order; none
    of the literals below repeats a key.  [get o k] is the read [o[k]],
    [None] being [undefined].  The keys read are names of stems, branches
    and elements, or the name an undefined key converts to; the members
    an object inherits from its prototype are not part of the model. *)
Fixpoint get {V} (o : list (string * V)) (k : string) : option V :=
  match o with
  | [] => None
  | (k', v) :: r => if String.eqb k' k then Some v else get r k
  end.

(** The string a value that may be [undefined] converts to, as a
    property name and as an operand of [+]. *)
Definition toString (v : option string) : string :=
  match v with
  | Some s => s
  | None => "undefined"%string
  end.

Definition getU {V} (o : list (string * V)) (k : option string) : option V :=
  get o (toString k).

(** The read [o[k]] of an object whose keys are integers. *)
Fixpoint getZ {V} (o : list (Z * V)) (k : Z) : option V :=
  match o with
  | [] => None
  | (k', v) :: r => if k' =? k then Some v else getZ r k
  end.

(** [===] on values that are strings or [undefined]. *)
Definition eqU (a b : option string) : bool :=
  match a, b with
  | Some x, Some y => String.eqb x y
  | None, None => true
  | _, _ => false
  end.

(** [Array.prototype.includes]. *)
Definition includes (l : list (option string)) (x : option string) : bool :=
  existsb (eqU x) l.

(** Truthiness of a string: every string but the empty one. *)
Definition truthy (s : string) : bool :=
  match s with
  | EmptyString => false
  | String _ _ => true
  end.

(** Truthiness of a value that is a string or [undefined]. *)
Definition truthyU (v : option string) : bool :=
  match v with
  | Some s => truthy s
  | None => false
  end.

(** [l.indexOf(x)], with the source's [-1] for a value not found. *)
Definition indexOfU (l : list string) (x : option string) : Z :=
  match x with
  | Some s => match indexOf l s with Some i => i | None => -1 end
  | None => -1
  end.

(** A string literal of the source is kept as its UTF-8 bytes, while
    JavaScript counts UTF-16 code units.  [units] cuts a string into its
    characters (a lead byte and the continuation bytes [10xxxxxx] that
    follow it); every character of the tables lies in the basic plane
    and is one code unit. *)
Definition is_continuation (a : Ascii.ascii) : bool :=
  let n := Z.of_nat (Ascii.nat_of_ascii a) in (128 <=? n) && (n <? 192).

Fixpoint units (s : string) : list string :=
  match s with
  | EmptyString => []
  | String c r =>
      match r with
      | String c' _ =>
          if is_continuation c'
          then match units r with
               | u :: us => String c u :: us
               | [] => [String c EmptyString]
               end
          else String c EmptyString :: units r
      | EmptyString => [String c EmptyString]
      end
  end.

(** [s.slice(a, b)] for [0 <= a <= b]. *)
Definition slice (s : string) (a b : nat) : string :=
  String.concat EmptyString (firstn (b - a) (skipn a (units s))).

(** [s.split('(')[0]]: the text before the first parenthesis, the
    character of code 40. *)
Fixpoint before_paren (s : string) : string :=
  match s with
  | EmptyString => EmptyString
  | String c r =>
      if (Ascii.nat_of_ascii c =? 40)%nat then EmptyString
      else String c (before_paren r)
  end.

End JSObj.

(** ** [src/js/bazi.js]: element tally, na-yin, spirits, twelve stages

    Lines 401-551 of [src/js/bazi.js]; [src/unnamed/part_003] has the
    same text at its lines 952-1162, and its [calcBaziPillars] of line
    1183 the same tally. *)

Module BaziInfo.
Import JSObj.

(** *** The element tally of [calcBaziPillars]

    A count is [None] where the source holds NaN, which is what
    [elemCount[k]++] stores under a key that was not there. *)
Fixpoint bump (o : list (string * option Z)) (k : string)
    : list (string * option Z) :=
  match o with
  | [] => [(k, None)]
  | (k', v) :: r =>
      if String.eqb k' k then (k', option_map Z.succ v) :: r
      else (k', v) :: bump r k
  end.

Definition elemCount (pillars : list Bazi.Pillar) : list (string * option Z) :=
  fold_left
    (fun o p => bump (bump o (toString (Bazi.stemEle p)))
                     (toString (Bazi.branchEle p)))
    pillars
    [ ("木", Some 0); ("火", Some 0); ("土", Some 0); ("金", Some 0);
      ("水", Some 0) ]%string.

(** [Object.entries(o).sort(cmp)]: the sort is stable, so with a
    consistent comparator its result is the one an insertion of the
    entries from the right gives.  With NaN among the counts the
    comparator is not consistent and the order is up to the engine:
    [None]. *)
Fixpoint counts (o : list (string * option Z)) : option (list (string * Z)) :=
  match o with
  | [] => Some []
  | (k, Some n) :: r => r' <- counts r ;; Some ((k, n) :: r')
  | (_, None) :: _ => None
  end.

Fixpoint insert_by (cmp : Z -> Z -> Z) (x : string * Z)
    (l : list (string * Z)) : list (string * Z) :=
  match l with
  | [] => [x]
  | y :: r =>
      if cmp (snd x) (snd y) <=? 0 then x :: y :: r
      else y :: insert_by cmp x r
  end.

Definition sort_by (cmp : Z -> Z -> Z) (l : list (string * Z))
    : list (string * Z) :=
  fold_right (insert_by cmp) [] l.

(** [Object.entries(elemCount).sort((a, b) => b[1] - a[1])[0][0]]. *)
Definition maxEle (o : list (string * option Z)) : option string :=
  es <- counts o ;;
  match sort_by (fun a b => b - a) es with
  | (k, _) :: _ => Some k
  | [] => None
  end.

(** [Object.entries(elemCount).sort((a, b) => a[1] - b[1])[0][0]]. *)
Definition minEle (o : list (string * option Z)) : option string :=
  es <- counts o ;;
  match sort_by (fun a b => a - b) es with
  | (k, _) :: _ => Some k
  | [] => None
  end.

(** *** Na-yin *)

Definition NAYIN_60 : list (string * string) :=
  [ ("甲子乙丑", "海中金"); ("丙寅丁卯", "炉中火"); ("戊辰己巳", "大林木");
    ("庚午辛未", "路旁土"); ("壬申癸酉", "剑锋金"); ("甲戌乙亥", "山头火");
    ("丙子丁丑", "涧下水"); ("戊寅己卯", "城头土"); ("庚辰辛巳", "白蜡金");
    ("壬午癸未", "杨柳木"); ("甲申乙酉", "泉中水"); ("丙戌丁亥", "屋上土");
    ("戊子己丑", "霹雳火"); ("庚寅辛卯", "松柏木"); ("壬辰癸巳", "长流水");
    ("甲午乙未", "沙中金"); ("丙申丁酉", "山下火"); ("戊戌己亥", "平地木");
    ("庚子辛丑", "壁上土"); ("壬寅癸卯", "金箔金"); ("甲辰乙巳", "覆灯火");
    ("丙午丁未", "天河水"); ("戊申己酉", "大驿土"); ("庚戌辛亥", "钗钏金");
    ("壬子癸丑", "桑柏木"); ("甲寅乙卯", "大溪水"); ("丙辰丁巳", "沙中土");
    ("戊午己未", "天上火"); ("庚申辛酉", "石榴木"); ("壬戌癸亥", "大海水") ]%string.

(** The loop of [getNayin] over [Object.entries(NAYIN_60)]. *)
Fixpoint getNayin_from (entries : list (string * string)) (pair : string)
    : string :=
  match entries with
  | [] => "—"%string
  | (key, val) :: r =>
      if String.eqb (slice key 0 2) pair || String.eqb (slice key 2 4) pair
      then val
      else getNayin_from r pair
  end.

Definition getNayin (stem branch : option string) : string :=
  getNayin_from NAYIN_60 (toString stem ++ toString branch).

(** *** Spirits *)

Definition TIANYI : list (string * list string) :=
  [ ("甲", ["丑"; "未"]); ("戊", ["丑"; "未"]);
    ("乙", ["子"; "申"]); ("己", ["子"; "申"]);
    ("丙", ["亥"; "酉"]); ("庚", ["亥"; "酉"]);
    ("丁", ["亥"; "酉"]); ("辛", ["寅"; "午"]);
    ("壬", ["卯"; "巳"]); ("癸", ["卯"; "巳"]) ]%string.

Definition YIMA : list (string * string) :=
  [ ("申", "寅"); ("子", "寅"); ("辰", "寅");
    ("寅", "申"); ("午", "申"); ("戌", "申");
    ("亥", "巳"); ("卯", "巳"); ("未", "巳");
    ("巳", "亥"); ("酉", "亥"); ("丑", "亥") ]%string.

Definition TAOHUA : list (string * string) :=
  [ ("申", "酉"); ("子", "酉"); ("辰", "酉");
    ("寅", "卯"); ("午", "卯"); ("戌", "卯");
    ("亥", "子"); ("卯", "子"); ("未", "子");
    ("巳", "午"); ("酉", "午"); ("丑", "午") ]%string.

Definition WENCHANG : list (string * string) :=
  [ ("甲", "巳"); ("乙", "午"); ("丙", "申"); ("丁", "酉");
    ("戊", "申"); ("己", "酉"); ("庚", "亥"); ("辛", "子");
    ("壬", "寅"); ("癸", "卯") ]%string.

(** The two tables [calcShensha] declares in its body. *)
Definition HUAGAI : list (string * string) :=
  [ ("辰", "戌"); ("巳", "亥"); ("午", "子"); ("未", "丑"); ("申", "寅");
    ("酉", "卯"); ("戌", "辰"); ("亥", "巳"); ("子", "午"); ("丑", "未") ]%string.

Definition YANGROU : list (string * string) :=
  [ ("甲", "卯"); ("乙", "寅"); ("丙", "午"); ("丁", "巳"); ("戊", "午");
    ("己", "巳"); ("庚", "酉"); ("辛", "申"); ("壬", "子"); ("癸", "亥") ]%string.

(** An entry of the list [calcShensha] returns. *)
Record Spirit : Type := mkSpirit {
  sp_name : string; sp_type : string; sp_desc : string }.

(** The pattern [const x = TABLE[key]; if (x && branches.includes(x))
    result.push(entry)]. *)
Definition push_if (table : list (string * string)) (key : option string)
    (branches : list (option string)) (entry : Spirit)
    (result : list Spirit) : list Spirit :=
  match getU table key with
  | Some x =>
      if truthy x && includes branches (Some x) then result ++ [entry]
      else result
  | None => result
  end.

(** [calcShensha(pillars)]; [None] is the TypeError of reading a field
    of a pillar that is not there. *)
Definition calcShensha (pillars : list Bazi.Pillar) : option (list Spirit) :=
  p0 <- nth_error pillars 0 ;;
  p1 <- nth_error pillars 1 ;;
  p2 <- nth_error pillars 2 ;;
  p3 <- nth_error pillars 3 ;;
  let result := [] in
  let branches :=
    [Bazi.branch p0; Bazi.branch p1; Bazi.branch p2; Bazi.branch p3] in
  let dayStem := Bazi.stem p2 in
  let yearBranch := Bazi.branch p0 in
  let result :=
    match getU TIANYI dayStem with
    | Some tianyi =>
        fold_left
          (fun result b =>
             if includes branches (Some b)
             then result ++ [mkSpirit "天乙贵人" "吉"
                               "最吉之神煞，逢凶化吉，遇难呈祥"]
             else result)
          tianyi result
    | None => result
    end in
  let result :=
    push_if YIMA yearBranch branches
      (mkSpirit "驿马星" "动" "主奔波迁移，驿马动则出行有利") result in
  let result :=
    push_if TAOHUA yearBranch branches
      (mkSpirit "桃花星" "情" "主桃花运，人缘佳，魅力足") result in
  let result :=
    push_if WENCHANG dayStem branches
      (mkSpirit "文昌星" "吉" "主聪明才智，文章学业") result in
  let result :=
    push_if HUAGAI yearBranch branches
      (mkSpirit "华盖星" "艺" "主孤独与才艺，适合艺术宗教") result in
  let result :=
    push_if YANGROU dayStem branches
      (mkSpirit "羊刃" "凶" "极旺之神，主刚烈冲动") result in
  Some result.

(** *** The twelve stages *)

Definition CHANGSHENG_ORDER : list string :=
  ["长生"; "沐浴"; "冠带"; "临官"; "帝旺"; "衰"; "病"; "死"; "墓"; "绝"; "胎"; "养"]%string.

Definition CHANGSHENG_START : list (string * Z) :=
  [ ("甲", 11); ("乙", 5); ("丙", 3); ("丁", 9); ("戊", 3);
    ("己", 9); ("庚", 9); ("辛", 11); ("壬", 9); ("癸", 3) ]%string.

(** [getChangseng(stem, branch)]; the result is [None] where the source
    returns [undefined]. *)
Definition getChangseng (stem branch : option string) : option string :=
  match getU CHANGSHENG_START stem with
  | None => Some "—"%string
  | Some startIdx =>
      if startIdx =? 0 then Some "—"%string
      else
        let branchIdx := indexOfU BRANCHES branch in
        if branchIdx =? -1 then Some "—"%string
        else
          let offset := JS.rem (branchIdx - startIdx + 12) 12 in
          index CHANGSHENG_ORDER offset
  end.

End BaziInfo.

(** ** [src/unnamed/part_003]: the detailed chart *)

Module Part3Detail.
Import JSObj.



Definition KONGWANG_MAP : list (string * list string) :=
  [ ("甲子", ["戌"; "亥"]); ("甲寅", ["子"; "丑"]); ("甲辰", ["寅"; "卯"]);
    ("甲午", ["辰"; "巳"]); ("甲申", ["午"; "未"]); ("甲戌", ["申"; "酉"]);
    ("乙丑", ["戌"; "亥"]); ("乙卯", ["子"; "丑"]); ("乙巳", ["寅"; "卯"]);
    ("乙未", ["辰"; "巳"]); ("乙酉", ["午"; "未"]); ("乙亥", ["申"; "酉"]);
    ("丙寅", ["戌"; "亥"]); ("丙子", ["子"; "丑"]); ("丙辰", ["寅"; "卯"]);
    ("丙午", ["辰"; "巳"]); ("丙申", ["午"; "未"]); ("丙戌", ["申"; "酉"]);
    ("丁卯", ["戌"; "亥"]); ("丁丑", ["子"; "丑"]); ("丁巳", ["寅"; "卯"]);
    ("丁未", ["辰"; "巳"]); ("丁酉", ["午"; "未"]); ("丁亥", ["申"; "酉"]);
    ("戊辰", ["戌"; "亥"]); ("戊寅", ["子"; "丑"]); ("戊子", ["寅"; "卯"]);
    ("戊戌", ["辰"; "巳"]); ("戊申", ["午"; "未"]); ("戊午", ["申"; "酉"]);
    ("己巳", ["戌"; "亥"]); ("己卯", ["子"; "丑"]); ("己丑", ["寅"; "卯"]);
    ("己亥", ["辰"; "巳"]); ("己酉", ["午"; "未"]); ("己未", ["申"; "酉"]);
    ("庚申", ["戌"; "亥"]); ("庚午", ["子"; "丑"]); ("庚辰", ["寅"; "卯"]);
    ("庚子", ["辰"; "巳"]); ("庚寅", ["午"; "未"]); ("庚戌", ["申"; "酉"]);
    ("辛酉", ["戌"; "亥"]); ("辛未", ["子"; "丑"]); ("辛巳", ["寅"; "卯"]);
    ("辛亥", ["辰"; "巳"]); ("辛卯", ["午"; "未"]); ("辛丑", ["申"; "酉"]);
    ("壬戌", ["戌"; "亥"]); ("壬申", ["子"; "丑"]); ("壬午", ["寅"; "卯"]);
    ("壬辰", ["辰"; "巳"]); ("壬寅", ["午"; "未"]); ("壬子", ["申"; "酉"]);
    ("癸亥", ["戌"; "亥"]); ("癸酉", ["子"; "丑"]); ("癸未", ["寅"; "卯"]);
    ("癸巳", ["辰"; "巳"]); ("癸卯", ["午"; "未"]); ("癸丑", ["申"; "酉"]) ]%string.

Definition SHISHEN_MAP : list (string * list (string * string)) :=
  [ ("甲",
      [("甲", "比肩"); ("乙", "劫财"); ("丙", "食神"); ("丁", "伤官"); ("戊", "偏财");
       ("己", "正财"); ("庚", "七杀"); ("辛", "正官"); ("壬", "偏印"); ("癸", "正印")]);
    ("乙",
      [("甲", "劫财"); ("乙", "比肩"); ("丙", "伤官"); ("丁", "食神"); ("戊", "正财");
       ("己", "偏财"); ("庚", "正官"); ("辛", "七杀"); ("壬", "正印"); ("癸", "偏印")]);
    ("丙",
      [("甲", "偏印"); ("乙", "正印"); ("丙", "比肩"); ("丁", "劫财"); ("戊", "食神");
       ("己", "伤官"); ("庚", "偏财"); ("辛", "正财"); ("壬", "七杀"); ("癸", "正官")]);
    ("丁",
      [("甲", "正印"); ("乙", "偏印"); ("丙", "劫财"); ("丁", "比肩"); ("戊", "伤官");
       ("己", "食神"); ("庚", "正财"); ("辛", "偏财"); ("壬", "正官"); ("癸", "七杀")]);
    ("戊",
      [("甲", "七杀"); ("乙", "正官"); ("丙", "偏印"); ("丁", "正印"); ("戊", "比肩");
       ("己", "劫财"); ("庚", "食神"); ("辛", "伤官"); ("壬", "偏财"); ("癸", "正财")]);
    ("己",
      [("甲", "正官"); ("乙", "七杀"); ("丙", "正印"); ("丁", "偏印"); ("戊", "劫财");
       ("己", "比肩"); ("庚", "伤官"); ("辛", "食神"); ("壬", "正财"); ("癸", "偏财")]);
    ("庚",
      [("甲", "偏财"); ("乙", "正财"); ("丙", "七杀"); ("丁", "正官"); ("戊", "偏印");
       ("己", "正印"); ("庚", "比肩"); ("辛", "劫财"); ("壬", "伤官"); ("癸", "食神")]);
    ("辛",
      [("甲", "正财"); ("乙", "偏财"); ("丙", "正官"); ("丁", "七杀"); ("戊", "正印");
       ("己", "偏印"); ("庚", "劫财"); ("辛", "比肩"); ("壬", "食神"); ("癸", "伤官")]);
    ("壬",
      [("甲", "食神"); ("乙", "伤官"); ("丙", "偏财"); ("丁", "正财"); ("戊", "七杀");
       ("己", "正官"); ("庚", "偏印"); ("辛", "正印"); ("壬", "比肩"); ("癸", "劫财")]);
    ("癸",
      [("甲", "伤官"); ("乙", "食神"); ("丙", "正财"); ("丁", "偏财"); ("戊", "正官");
       ("己", "七杀"); ("庚", "正印"); ("辛", "偏印"); ("壬", "劫财"); ("癸", "比肩")]) ]%string.





(** [getKongWang(stem, branch)].  [Math.floor(xunshouIdx / 10)] is the
    floored quotient: the dividend is an integer between -60 and 60,
    and binary64 rounds none of these quotients across an integer. *)
Definition getKongWang (stem branch : option string) : list string :=
  let stemIdx := indexOfU STEMS stem in
  let branchIdx := indexOfU BRANCHES branch in
  let xunshouIdx := JS.rem (stemIdx * 12 + branchIdx) 60 in
  let xunshouStemIdx := xunshouIdx / 10 in
  let xunshouBranchIdx := JS.rem (xunshouStemIdx * 10) 12 in
  let xunshou :=
    (toString (index STEMS xunshouStemIdx)
     ++ toString (index BRANCHES xunshouBranchIdx))%string in
  match get KONGWANG_MAP xunshou with
  | Some v => v
  | None => ["—"; "—"]%string
  end.

(** [SHISHEN_MAP[dayStem]?.[targetStem] || '—']. *)
Definition getTenGod (dayStem targetStem : option string) : string :=
  match getU SHISHEN_MAP dayStem with
  | Some row =>
      match getU row targetStem with
      | Some g => if truthy g then g else "—"%string
      | None => "—"%string
      end
  | None => "—"%string
  end.



(** The tables [getPillarShensha] declares in its body. *)
Definition guiRens : list (string * list string) :=
  [ ("甲", ["丑"; "未"]); ("乙", ["子"; "申"]); ("丙", ["亥"; "酉"]);
    ("丁", ["酉"; "未"]); ("戊", ["丑"; "未"]); ("己", ["子"; "申"]);
    ("庚", ["丑"; "未"]); ("辛", ["寅"; "午"]); ("壬", ["卯"; "巳"]);
    ("癸", ["卯"; "巳"]) ]%string.

Definition wenChangs : list (string * string) :=
  [ ("甲", "巳"); ("乙", "午"); ("丙", "申"); ("丁", "酉"); ("戊", "申");
    ("己", "酉"); ("庚", "亥"); ("辛", "子"); ("壬", "寅"); ("癸", "卯") ]%string.

Definition yiMas : list (string * string) :=
  [ ("申", "寅"); ("巳", "亥"); ("寅", "申"); ("亥", "巳") ]%string.

Definition taoHua : list (string * string) :=
  [ ("卯", "子"); ("午", "卯"); ("酉", "午"); ("子", "卯") ]%string.

Definition yangRen : list (string * string) :=
  [ ("甲", "卯"); ("乙", "寅"); ("丙", "午"); ("丁", "巳"); ("戊", "午");
    ("己", "巳"); ("庚", "酉"); ("辛", "申"); ("壬", "子"); ("癸", "亥") ]%string.

(** [getPillarShensha(pillar)], on the two fields of the pillar it
    reads; an entry is its name and its type. *)
Definition getPillarShensha (stem branch : option string)
    : list (string * string) :=
  let result := [] in
  let result :=
    match getU guiRens stem with
    | Some l =>
        if includes (map Some l) branch
        then result ++ [("天乙贵人", "吉")]%string
        else result
    | None => result
    end in
  let result :=
    if eqU (getU wenChangs stem) branch
    then result ++ [("文昌", "吉")]%string else result in
  let result :=
    if truthyU (getU yiMas branch)
    then result ++ [("驿马", "动")]%string else result in
  let result :=
    if eqU (getU taoHua branch) branch
    then result ++ [("桃花", "情")]%string else result in
  let result :=
    if includes [Some "辰"; Some "戌"]%string branch
       && includes [Some "辛"; Some "戊"; Some "壬"]%string stem
    then result ++ [("华盖", "艺")]%string else result in
  let result :=
    if eqU (getU yangRen stem) branch
    then result ++ [("羊刃", "凶")]%string else result in
  result.

(** An entry of the list [calcShishen] returns. *)
Record Shishen : Type := mkShishen {
  ss_position : option string; ss_stem : option string;
  ss_branch : option string; ss_shishen : option string;
  ss_element : option string }.

Definition positionLabels : list string :=
  ["年柱"; "月柱"; "日柱"; "时柱"]%string.

(** The [forEach] of [calcShishen]; [None] is the TypeError of reading
    an entry of a row of [SHISHEN_MAP] that is not there. *)
Fixpoint calcShishen_from (dayStem : option string)
    (pillars : list Bazi.Pillar) (i : Z) (result : list Shishen)
    : option (list Shishen) :=
  match pillars with
  | [] => Some result
  | p :: r =>
      if i =? 2 then calcShishen_from dayStem r (i + 1) result
      else
        row <- getU SHISHEN_MAP dayStem ;;
        let shishen := getU row (Bazi.stem p) in
        calcShishen_from dayStem r (i + 1)
          (result ++ [mkShishen (index positionLabels i) (Bazi.stem p)
                        (Bazi.branch p) shishen (Bazi.stemEle p)])
  end.

Definition calcShishen (pillars : list Bazi.Pillar) : option (list Shishen) :=
  p2 <- nth_error pillars 2 ;;
  calcShishen_from (Bazi.stem p2) pillars 0 [].



(** An entry of the list [calcXiaoyun] returns. *)
Record Xiaoyun : Type := mkXiaoyun {
  xy_age : Z; xy_stem : option string; xy_branch : option string;
  xy_stemIdx : Z; xy_branchIdx : Z;
  xy_stemEle : option string; xy_branchEle : option string }.

(** The loop [for (let i = 0; i < 8; i++)] of [calcXiaoyun], over the
    rounds left. *)
Fixpoint xiaoyun_from (n : nat) (i stemIdx branchIdx : Z) : list Xiaoyun :=
  match n with
  | O => []
  | S n' =>
      let stemIdx := JS.rem (stemIdx - 1 + 10) 10 in
      let branchIdx := JS.rem (branchIdx - 1 + 12) 12 in
      mkXiaoyun (i + 1) (index STEMS stemIdx) (index BRANCHES branchIdx)
        stemIdx branchIdx
        (index Bazi.STEM_ELEMENTS stemIdx)
        (index Bazi.BRANCH_ELEMENTS branchIdx)
      :: xiaoyun_from n' (i + 1) stemIdx branchIdx
  end.

Definition calcXiaoyun (year month day hourBranchIdx : Z)
    : option (list Xiaoyun) :=
  dayPillar <- Part3.Jieqi.getDayStemBranch year month day ;;
  let stemIdx := Part3.Jieqi.stemIdx dayPillar in
  let branchIdx := hourBranchIdx in
  Some (xiaoyun_from 8 0 stemIdx branchIdx).

(** The table [getTaishai] declares in its body. *)
Definition dirs : list (string * string) :=
  [ ("子", "北"); ("丑", "东北"); ("寅", "东北"); ("卯", "东");
    ("辰", "东南"); ("巳", "东南"); ("午", "南"); ("未", "西南");
    ("申", "西南"); ("酉", "西"); ("戌", "西北"); ("亥", "西北") ]%string.

Definition getTaishai (year : Z) : string :=
  let branchIdx := JS.posmod (year - 4) 12 in
  let branch := index BRANCHES branchIdx in
  match getU dirs branch with
  | Some d => if truthy d then d else EmptyString
  | None => EmptyString
  end.

(** The tables [checkRelationship] declares in its body. *)
Definition he : list (string * string) :=
  [ ("子", "丑"); ("丑", "子"); ("寅", "亥"); ("亥", "寅");
    ("卯", "戌"); ("戌", "卯"); ("辰", "酉"); ("酉", "辰");
    ("巳", "申"); ("申", "巳"); ("午", "未"); ("未", "午") ]%string.

Definition xing : list (string * list string) :=
  [ ("寅", ["寅"; "巳"; "申"]); ("巳", ["寅"; "巳"; "申"]); ("申", ["寅"; "巳"; "申"]);
    ("丑", ["丑"; "戌"; "未"]); ("戌", ["丑"; "戌"; "未"]); ("未", ["丑"; "戌"; "未"]);
    ("子", ["子"; "卯"]); ("卯", ["子"; "卯"]); ("辰", ["辰"]);
    ("午", ["午"]); ("酉", ["酉"]); ("亥", ["亥"]) ]%string.

Definition hai : list (string * string) :=
  [ ("子", "未"); ("未", "子"); ("丑", "午"); ("午", "丑");
    ("寅", "巳"); ("巳", "寅"); ("卯", "辰"); ("辰", "卯");
    ("申", "亥"); ("亥", "申"); ("酉", "戌"); ("戌", "酉") ]%string.

Definition po : list (string * string) :=
  [ ("子", "酉"); ("酉", "子"); ("寅", "巳"); ("巳", "寅");
    ("辰", "丑"); ("丑", "辰"); ("午", "未"); ("未", "午");
    ("申", "卯"); ("卯", "申"); ("亥", "戌"); ("戌", "亥") ]%string.

Definition checkRelationship (branch1 branch2 : option string) : string :=
  if negb (truthyU branch1) || negb (truthyU branch2) then EmptyString
  else
    let idx1 := indexOfU BRANCHES branch1 in
    let idx2 := indexOfU BRANCHES branch2 in
    if (idx1 =? -1) || (idx2 =? -1) then EmptyString
    else
      let diff := Z.abs (idx1 - idx2) in
      if eqU (getU he branch1) branch2 then "合"%string
      else if diff =? 6 then "冲"%string
      else if match getU xing branch1 with
              | Some l => includes (map Some l) branch2
                          && negb (eqU branch1 branch2)
              | None => false
              end
           then "刑"%string
      else if eqU (getU hai branch1) branch2 then "害"%string
      else if eqU (getU po branch1) branch2 then "破"%string
      else EmptyString.

End Part3Detail.

(** ** [src/js/fengshui-calc.js]: the life trigram and its directions *)

Module MingZhai.
Import JSObj.

Record GuaInfo : Type := mkGuaInfo {
  gi_name : string; gi_gua : string; gi_type : string;
  gi_element : string; gi_dirs : list string }.

(** The table [calcMingGua] declares in its body; the type of its entry
    5 is a conditional on the gender. *)
Definition guaInfo (gender : string) : list (Z * GuaInfo) :=
  [ (1, mkGuaInfo "坎卦" "☵" "东四命" "水"
           ["北"; "南"; "东南"; "东"]);
    (2, mkGuaInfo "坤卦" "☷" "西四命" "土"
           ["西南"; "东北"; "西北"; "西"]);
    (3, mkGuaInfo "震卦" "☳" "东四命" "木"
           ["东"; "东南"; "北"; "南"]);
    (4, mkGuaInfo "巽卦" "☴" "东四命" "木"
           ["东南"; "东"; "南"; "北"]);
    (5, mkGuaInfo "乾卦" "☰"
           (if String.eqb gender "m" then "西四命" else "西四命") "金"
           ["西北"; "西南"; "西"; "东北"]);
    (6, mkGuaInfo "乾卦" "☰" "西四命" "金"
           ["西北"; "西南"; "西"; "东北"]);
    (7, mkGuaInfo "兑卦" "☱" "西四命" "金"
           ["西"; "西北"; "东北"; "西南"]);
    (8, mkGuaInfo "艮卦" "☶" "西四命" "土"
           ["东北"; "西北"; "西南"; "西"]);
    (9, mkGuaInfo "离卦" "☲" "东四命" "火"
           ["南"; "北"; "东"; "东南"]) ]%string.

(** The object [calcMingGua] returns. *)
Record MingGua : Type := mkMingGua {
  guaNum : Z; gua : string; name : string; type : string;
  element : string; luckyDirs : list string; unluckyDirs : list string }.

(** [calcMingGua(year, gender)]; [None] would be the TypeError of
    reading a field of [guaInfo[5]], were that entry not there. *)
Definition calcMingGua (year : Z) (gender : string) : option MingGua :=
  let lastDigit := JS.rem year 10 in
  let guaNum :=
    if String.eqb gender "m"
    then
      let guaNum := JS.rem (100 - lastDigit) 9 in
      if guaNum =? 0 then 5 else guaNum
    else
      let guaNum := JS.rem (lastDigit + 5) 9 in
      if guaNum =? 0 then 5 else guaNum in
  info <- match getZ (guaInfo gender) guaNum with
          | Some info => Some info
          | None => getZ (guaInfo gender) 5
          end ;;
  Some (mkMingGua guaNum (gi_gua info) (gi_name info) (gi_type info)
          (gi_element info) (firstn 2 (gi_dirs info)) (skipn 2 (gi_dirs info))).

Record Positions : Type := mkPositions {
  lucky : list string; unlucky : list string;
  luckyDetail : list (string * string);
  unluckyDetail : list (string * string) }.

(** The table [calcPositions] declares in its body. *)
Definition positions : list (Z * Positions) :=
  [ (1, mkPositions
        ["伏位(北)"; "天医(西南)"; "生气(东)"; "延年(东南)"]
        ["五鬼(东北)"; "六煞(西)"; "祸害(西北)"; "绝命(南)"]
        [("伏位(北)", "主稳定、休息，适合卧室");
         ("天医(西南)", "主健康、化解疾病");
         ("生气(东)", "主生发、事业，适合大门");
         ("延年(东南)", "主长寿、财运")]
        [("五鬼(东北)", "主阴滞、小人，需用铜化解");
         ("六煞(西)", "主桃花劫、破财");
         ("祸害(西北)", "主口舌、疾病");
         ("绝命(南)", "主血光、意外，最凶")]);
    (2, mkPositions
        ["伏位(西南)"; "天医(北)"; "生气(东北)"; "延年(西)"]
        ["五鬼(东)"; "六煞(东南)"; "祸害(南)"; "绝命(西北)"]
        [("伏位(西南)", "主稳定、坤位利女主人");
         ("天医(北)", "主健康、化解疾病");
         ("生气(东北)", "主生发、子孙运");
         ("延年(西)", "主长寿、财运")]
        [("五鬼(东)", "主阴滞、小人");
         ("六煞(东南)", "主桃花劫");
         ("祸害(南)", "主口舌");
         ("绝命(西北)", "主血光、意外")]);
    (3, mkPositions
        ["伏位(东)"; "天医(西北)"; "生气(东南)"; "延年(北)"]
        ["五鬼(西)"; "六煞(西南)"; "祸害(东北)"; "绝命(南)"]
        [("伏位(东)", "主稳定、长男位");
         ("天医(西北)", "主健康");
         ("生气(东南)", "主生发");
         ("延年(北)", "主长寿")]
        [("五鬼(西)", "主阴滞");
         ("六煞(西南)", "主桃花劫");
         ("祸害(东北)", "主口舌");
         ("绝命(南)", "主血光")]);
    (4, mkPositions
        ["伏位(东南)"; "天医(西)"; "生气(北)"; "延年(东)"]
        ["五鬼(西北)"; "六煞(南)"; "祸害(西南)"; "绝命(东北)"]
        [("伏位(东南)", "主稳定、文昌位");
         ("天医(西)", "主健康");
         ("生气(北)", "主生发");
         ("延年(东)", "主长寿")]
        [("五鬼(西北)", "主阴滞");
         ("六煞(南)", "主桃花劫");
         ("祸害(西南)", "主口舌");
         ("绝命(东北)", "主血光")]);
    (5, mkPositions
        ["伏位(西北)"; "天医(东南)"; "生气(北)"; "延年(西南)"]
        ["五鬼(南)"; "六煞(东北)"; "祸害(东)"; "绝命(西)"]
        [("伏位(西北)", "主稳定");
         ("天医(东南)", "主健康");
         ("生气(北)", "主生发");
         ("延年(西南)", "主长寿")]
        [("五鬼(南)", "主阴滞");
         ("六煞(东北)", "主桃花劫");
         ("祸害(东)", "主口舌");
         ("绝命(西)", "主血光")]);
    (6, mkPositions
        ["伏位(西北)"; "天医(东南)"; "生气(北)"; "延年(西南)"]
        ["五鬼(南)"; "六煞(东北)"; "祸害(东)"; "绝命(西)"]
        [("伏位(西北)", "主稳定、父位");
         ("天医(东南)", "主健康");
         ("生气(北)", "主生发");
         ("延年(西南)", "主长寿")]
        [("五鬼(南)", "主阴滞");
         ("六煞(东北)", "主桃花劫");
         ("祸害(东)", "主口舌");
         ("绝命(西)", "主血光")]);
    (7, mkPositions
        ["伏位(西)"; "天医(东北)"; "生气(西北)"; "延年(西南)"]
        ["五鬼(东南)"; "六煞(东)"; "祸害(北)"; "绝命(南)"]
        [("伏位(西)", "主稳定、少女位");
         ("天医(东北)", "主健康");
         ("生气(西北)", "主生发");
         ("延年(西南)", "主长寿")]
        [("五鬼(东南)", "主阴滞");
         ("六煞(东)", "主桃花劫");
         ("祸害(北)", "主口舌");
         ("绝命(南)", "主血光")]);
    (8, mkPositions
        ["伏位(东北)"; "天医(南)"; "生气(西)"; "延年(西北)"]
        ["五鬼(西南)"; "六煞(北)"; "祸害(东南)"; "绝命(东)"]
        [("伏位(东北)", "主稳定、少男位");
         ("天医(南)", "主健康");
         ("生气(西)", "主生发");
         ("延年(西北)", "主长寿")]
        [("五鬼(西南)", "主阴滞");
         ("六煞(北)", "主桃花劫");
         ("祸害(东南)", "主口舌");
         ("绝命(东)", "主血光")]);
    (9, mkPositions
        ["伏位(南)"; "天医(东北)"; "生气(西)"; "延年(西北)"]
        ["五鬼(西北)"; "六煞(东)"; "祸害(东南)"; "绝命(北)"]
        [("伏位(南)", "主稳定、中女位");
         ("天医(东北)", "主健康");
         ("生气(西)", "主生发");
         ("延年(西北)", "主长寿")]
        [("五鬼(西北)", "主阴滞");
         ("六煞(东)", "主桃花劫");
         ("祸害(东南)", "主口舌");
         ("绝命(北)", "主血光")]) ]%string.

(** [positions[guaNum] || positions[5]]; [None] is [undefined]. *)
Definition calcPositions (guaNum : Z) : option Positions :=
  match getZ positions guaNum with
  | Some p => Some p
  | None => getZ positions 5
  end.

(** [stars.find(s => s.star === 5)?.position || '中宫']. *)
Definition getStarPositionForYear (year : Z) : string :=
  let stars := Fengshui.calcFlyingStars year in
  match find (fun s => Fengshui.star s =? 5) stars with
  | Some s =>
      if truthy (Fengshui.position s) then Fengshui.position s
      else "中宫"%string
  | None => "中宫"%string
  end.

(** What [renderFlyingStars(year)] writes: the cells the double loop
    over the rows and columns 0, 1, 2 finds, in its order, each with its
    [isCurrentYear]; [currentYear] is the year of the host's clock.  The
    markup and the class drawn from the star's luck are left out. *)
Definition renderFlyingStars (year currentYear : Z)
    : list (Fengshui.Palace * bool) :=
  let stars := Fengshui.calcFlyingStars year in
  flat_map
    (fun row =>
       flat_map
         (fun col =>
            match find (fun s => (Fengshui.row s =? row)
                                 && (Fengshui.col s =? col)) stars with
            | Some cell =>
                [(cell, String.eqb (Fengshui.position cell)
                                   (getStarPositionForYear currentYear))]
            | None => []
            end)
         [0; 1; 2])
    [0; 1; 2].

(** What [calcMingZhai] does: the alert, or the result it writes into
    the page, of which the model keeps the data: the trigram, the items
    of the two lists (the name before the parenthesis and the detail,
    [positions.luckyDetail[pos] || '']) and the closing sentence. *)
Inductive Outcome : Type :=
  | Alert (message : string)
  | Render (mingGua : MingGua) (luckyItems unluckyItems : list (string * string))
           (advice : string).

Definition items (l : list string) (detail : list (string * string))
    : list (string * string) :=
  map (fun pos =>
         (before_paren pos,
          match get detail pos with
          | Some d => if truthy d then d else EmptyString
          | None => EmptyString
          end))
      l.

(** [calcMingZhai()], on the fields it reads: [year] is the result of
    [parseInt], [None] for NaN.  The final [None] is a TypeError. *)
Definition calcMingZhai (year : option Z) (gender : string) : option Outcome :=
  match year with
  | None => Some (Alert "请输入有效出生年份"%string)
  | Some year =>
      if (year =? 0) || (year <? 1900) || (2100 <? year)
      then Some (Alert "请输入有效出生年份"%string)
      else
        mingGua <- calcMingGua year gender ;;
        positions <- calcPositions (guaNum mingGua) ;;
        Some (Render mingGua
                (items (lucky positions) (luckyDetail positions))
                (items (unlucky positions) (unluckyDetail positions))
                (if String.eqb (type mingGua) "东四命"
                 then "您属东四命，宜选择震宅、巽宅、坎宅、离宅（坐东/东南/北/南朝）。"
                 else "您属西四命，宜选择乾宅、坤宅、兑宅、艮宅（坐西北/西南/西/东北朝）。")%string)
  end.

End MingZhai.
(** * Vocabulary of the properties *)

(** A host whose local time keeps one fixed offset from UTC: the time
    value of a civil date-time, months past 11 and days past the end of
    the month carried over as [Date] does. *)
Definition days_from_civil (y m d : Z) : Z :=
  let y := y + (m / 12) in
  let m := m mod 12 + 1 in
  let y := if m <=? 2 then y - 1 else y in
  let era := y / 400 in
  let yoe := y - era * 400 in
  let doy := (153 * (if 2 <? m then m - 3 else m + 9) + 2) / 5 + d - 1 in
  let doe := yoe * 365 + yoe / 4 - yoe / 100 + doy in
  era * 146097 + doe - 719468.

Definition Date_fixed (y m d h min : Z) : Z :=
  ((days_from_civil y m d * 24 + h) * 60 + min) * 60000.

(** The integers [lo], [lo + 1], ..., [lo + n - 1]. *)
Definition Zrange (lo : Z) (n : nat) : list Z :=
  map (fun k => lo + Z.of_nat k) (seq 0 n).

(** Chronological order of two timestamps: year, month, day, hour,
    minute. *)
Definition chron_ltb (a b : TermDate) : bool :=
  (td_year a <? td_year b)
  || ((td_year a =? td_year b)
      && ((td_month a <? td_month b)
          || ((td_month a =? td_month b)
              && ((td_day a <? td_day b)
                  || ((td_day a =? td_day b)
                      && ((td_hour a <? td_hour b)
                          || ((td_hour a =? td_hour b)
                              && (td_minute a <? td_minute b)))))))).

(** Each timestamp is strictly before the next. *)
Fixpoint increasing (l : list TermDate) : bool :=
  match l with
  | a :: (b :: _) as r => chron_ltb a b && increasing r
  | _ => true
  end.

(** What goes wrong in a table: it has its 24 entries, none of them
    carries the following year, and the timestamps are out of order. *)
Definition table_disordered (y : Z) : bool :=
  match SolarTerms.getSolarTerms y with
  | Some tbl =>
      (Nat.eqb (List.length tbl) 24)
      && forallb (fun e => td_year (snd e) =? y) tbl
      && negb (increasing (map snd tbl))
  | None => false
  end.




(** The star of the central palace, the first entry of the array. *)
Definition centerStar (year : Z) : option Z :=
  match Fengshui.calcFlyingStars year with
  | p :: _ => if String.eqb (Fengshui.position p) "中宫"
              then Some (Fengshui.star p) else None
  | [] => None
  end.

(** The nine cells of the 3x3 grid that [renderFlyingStars] walks. *)
Definition grid3 : list (Z * Z) :=
  [(0, 0); (0, 1); (0, 2); (1, 0); (1, 1); (1, 2); (2, 0); (2, 1); (2, 2)].

Definition cells (ps : list Fengshui.Palace) : list (Z * Z) :=
  map (fun p => (Fengshui.row p, Fengshui.col p)) ps.

(** The supported domain of the entry point (section 6 of the
    specification). *)
Definition inDomain (year : option Z) (month day hour : Z) : Prop :=
  (exists y, year = Some y /\ 1900 <= y <= 2100)
  /\ 1 <= month <= 12 /\ 1 <= day <= 31 /\ 0 <= hour <= 11.

(** The text of the alert. *)
Definition yearMessage : string := "请输入有效年份（1900-2100）".

(** A year the entry point turns away: NaN, or a number outside
    1900..2100. *)
Definition badYear (year : option Z) : Prop :=
  year = None \/ exists y, year = Some y /\ (y < 1900 \/ 2100 < y).

(** A stem name and a branch name form one of the 60 pairs of the
    cycle: both are in the canonical tables, at indices of one parity. *)
Definition sexagenary (stem branch : option string) : bool :=
  match stem, branch with
  | Some s, Some b =>
      match indexOf STEMS s, indexOf BRANCHES b with
      | Some i, Some j => (i - j) mod 2 =? 0
      | _, _ => false
      end
  | _, _ => false
  end.

(** The same of a pair of indices. *)
Definition sexagenary_idx (i j : Z) : bool :=
  (0 <=? i) && (i <? 10) && (0 <=? j) && (j <? 12) && ((i - j) mod 2 =? 0)
  && sexagenary (index STEMS i) (index BRANCHES j).

(** [f] holds of every integer of [Zrange lo n]. *)
Definition all_in (lo : Z) (n : nat) (f : Z -> bool) : bool :=
  forallb f (Zrange lo n).

(** Checks run over finite ranges. *)
Definition tables_found (y : Z) : bool :=
  match SolarTerms.getSolarTerms y with Some _ => true | None => false end.

(** The three day-pillar computations on a date: each returns one of
    the 60 pairs, the two of the later revision agree, and the pair of
    [bazi.js] is the one before theirs. *)
Definition day_pillars_ok (y m d : Z) : bool :=
  match Bazi.dayStemBranch y m d, Part3.dayStemBranch y m d,
        Part3.Jieqi.getDayStemBranch y m d with
  | Some (s, b), Some (s', b'), Some sb =>
      sexagenary_idx s b
      && sexagenary_idx (Part3.Jieqi.stemIdx sb) (Part3.Jieqi.branchIdx sb)
      && (s' =? (s + 1) mod 10) && (b' =? (b + 1) mod 12)
      && (Part3.Jieqi.stemIdx sb =? s') && (Part3.Jieqi.branchIdx sb =? b')
  | _, _, _ => false
  end.

Definition year_pair_ok (k : Z) : bool :=
  sexagenary_idx (k mod 10) (k mod 12).



Definition hour_ok (ds h : Z) : bool :=
  match index [0; 2; 4; 6; 8] (JS.rem ds 5) with
  | Some base => sexagenary_idx (JS.rem (base + h) 10) h
  | None => false
  end.

(** A number that is not NaN. *)
Definition hasValue (x : float) : Prop := Prim2SF x <> S754_nan.

(** A finite number other than zero. *)
Definition finiteNZ (c : float) : bool :=
  match Prim2SF c with S754_finite _ _ _ => true | _ => false end.

(** The two neighbours every date of a year falls between: the major
    snow of the previous year's table is not after 1 January, and the
    next year's table has its first term. *)
Definition prev_anchor_ok (y : Z) : bool :=
  match SolarTerms.getSolarTerms (y - 1) with
  | Some t =>
      match lookup t DaXue, lookup t DongZhi with
      | Some td, Some _ =>
          SolarTerms.dateNum (SolarTerms.orElse (td_year td) (y - 1))
                             (td_month td) (td_day td)
          <=? SolarTerms.dateNum y 1 1
      | _, _ => false
      end
  | None => false
  end.

Definition next_anchor_ok (y : Z) : bool :=
  match SolarTerms.getSolarTerms (y + 1) with
  | Some t =>
      match SolarTerms.scan_first t [XiaoHan; DaHan] with
      | Some _ => true
      | None => false
      end
  | None => false
  end.


(** ** Vocabulary of the further properties *)

(** A name of one of the tables (not [undefined], and not foreign). *)
Definition isName (tbl : list string) (v : option string) : bool :=
  match v with
  | Some s => match indexOf tbl s with Some _ => true | None => false end
  | None => false
  end.

(** A pillar whose stem and branch are names of the two tables. *)
Definition named (p : Bazi.Pillar) : bool :=
  isName STEMS (Bazi.stem p) && isName BRANCHES (Bazi.branch p).

(** The eight compass directions. *)
Definition eightDirs : list string :=
  ["北"; "东北"; "东"; "东南"; "南"; "西南"; "西"; "西北"]%string.

(** The four directions of each of the two groups of trigrams, as the
    closing sentence of [calcMingZhai] names them. *)
Definition groupDirs (type : string) : list string :=
  if String.eqb type "东四命"
  then ["东"; "东南"; "北"; "南"]%string
  else ["西北"; "西南"; "西"; "东北"]%string.

(** The direction an entry such as [伏位(北)] carries between its
    parentheses (the characters of codes 40 and 41). *)
Fixpoint until_close (s : string) : string :=
  match s with
  | EmptyString => EmptyString
  | String c r =>
      if (Ascii.nat_of_ascii c =? 41)%nat then EmptyString
      else String c (until_close r)
  end.

Fixpoint direction_of (s : string) : string :=
  match s with
  | EmptyString => EmptyString
  | String c r =>
      if (Ascii.nat_of_ascii c =? 40)%nat then until_close r
      else direction_of r
  end.

(** The text of the alert of [calcMingZhai]. *)
Definition birthYearMessage : string := "请输入有效出生年份".

(** The other pair of the key of [NAYIN_60] that holds the pair of
    indices [(i, j)]: the pair after it in the cycle if [i] is even, the
    pair before it if [i] is odd. *)
Definition keyMate (i : Z) : Z := if i mod 2 =? 0 then i + 1 else i - 1.

Definition nayin_ok (i j : Z) : bool :=
  let n := BaziInfo.getNayin (index STEMS i) (index BRANCHES j) in
  if (i - j) mod 2 =? 0
  then negb (String.eqb n "—")
       && String.eqb n (BaziInfo.getNayin (index STEMS (keyMate i))
                                          (index BRANCHES (keyMate j)))
  else String.eqb n "—".

(** The stage [getChangseng] gives each of the twelve branches, for the
    stem of index [i]. *)
Definition stagesOf (i : Z) : list (option string) :=
  map (fun b => BaziInfo.getChangseng (index STEMS i) (Some b)) BRANCHES.

(** The rule of the ten gods.  The element of a stem is half its index;
    the god of a target stem is drawn from how far its element is from
    the day stem's along the cycle of generation (0 the same, 1
    generated by the day stem, 2 controlled by it, 3 controlling it, 4
    generating it) and from whether the two stems have one polarity
    (first name) or not (second name). *)
Definition tenGodRule (i j : Z) : option string :=
  let rel := (j / 2 - i / 2) mod 5 in
  let same := (i - j) mod 2 =? 0 in
  option_map (fun p : string * string => if same then fst p else snd p)
    (index [ ("比肩", "劫财"); ("食神", "伤官"); ("偏财", "正财");
             ("七杀", "正官"); ("偏印", "正印") ]%string rel).

(** The four entries of [SHISHEN_MAP] that depart from the rule: the
    day stems 庚 and 辛 with the targets 壬 and 癸. *)
Definition offRule (i j : Z) : bool :=
  ((i =? 6) || (i =? 7)) && ((j =? 8) || (j =? 9)).

Definition tenGod_ok (i j : Z) : bool :=
  let g := Part3Detail.getTenGod (index STEMS i) (index STEMS j) in
  negb (String.eqb g "—")
  && match tenGodRule i j, tenGodRule i (keyMate j) with
     | Some r, Some r' =>
         if offRule i j then String.eqb g r' && negb (String.eqb g r)
         else String.eqb g r
     | _, _ => false
     end.

(** No row of [SHISHEN_MAP] has an entry under a branch name or under
    the name of [undefined]. *)
Definition row_has_no_branch (row : list (string * string)) : bool :=
  forallb (fun k => match JSObj.get row k with Some _ => false | None => true end)
          ("undefined"%string :: BRANCHES).

(** The result of [getKongWang] by the tens digit of
    [(stemIdx * 12 + branchIdx) % 60]. *)
Definition kongWangByDecade (i j : Z) : list string :=
  let k := ((i * 12 + j) mod 60) / 10 in
  if (k =? 0) || (k =? 4) then ["戌"; "亥"]%string
  else if k =? 2 then ["午"; "未"]%string
  else ["—"; "—"]%string.

Definition strs_eqb (a b : list string) : bool :=
  if list_eq_dec string_dec a b then true else false.

Definition kongWang_ok (i j : Z) : bool :=
  strs_eqb (Part3Detail.getKongWang (index STEMS i) (index BRANCHES j))
           (kongWangByDecade i j).

(** An entry of the given name is in the list of [getPillarShensha]. *)
Definition hasSpirit (n : string) (l : list (string * string)) : bool :=
  existsb (fun e => String.eqb (fst e) n) l.

Definition pillarShensha_ok (i j : Z) : bool :=
  let r := Part3Detail.getPillarShensha (index STEMS i) (index BRANCHES j) in
  negb (hasSpirit "桃花" r)
  && Bool.eqb (hasSpirit "驿马" r) ((j =? 2) || (j =? 5) || (j =? 8) || (j =? 11)).

(** The small-luck pillars from a day stem [s] and an hour branch [h]:
    eight entries, the one of age [k] at the stem [s - k] and the
    branch [h - k]. *)
Definition xiaoyun_entry_ok (s h k : Z) (e : Part3Detail.Xiaoyun) : bool :=
  (Part3Detail.xy_age e =? k)
  && (Part3Detail.xy_stemIdx e =? (s - k) mod 10)
  && (Part3Detail.xy_branchIdx e =? (h - k) mod 12)
  && JSObj.eqU (Part3Detail.xy_stem e) (index STEMS ((s - k) mod 10))
  && JSObj.eqU (Part3Detail.xy_branch e) (index BRANCHES ((h - k) mod 12))
  && Bool.eqb (sexagenary (Part3Detail.xy_stem e) (Part3Detail.xy_branch e))
              ((s - h) mod 2 =? 0).

Definition xiaoyun_ok (s h : Z) : bool :=
  let l := Part3Detail.xiaoyun_from 8 0 s h in
  Nat.eqb (List.length l) 8
  && forallb (fun k => match index l (k - 1) with
                       | Some e => xiaoyun_entry_ok s h k e
                       | None => false
                       end)
             (Zrange 1 8).

(** The direction of the branch of index [b]. *)
Definition taishai_ok (b : Z) : bool :=
  match JSObj.getU Part3Detail.dirs (index BRANCHES b) with
  | Some d => JSObj.truthy d && isName eightDirs (Some d)
  | None => false
  end.

(** What [checkRelationship] does on two branches of indices [i], [j]:
    it is symmetric, silent on a branch and itself, and names a clash
    exactly at the distance 6. *)
Definition relationship_ok (i j : Z) : bool :=
  let r := Part3Detail.checkRelationship (index BRANCHES i) (index BRANCHES j) in
  String.eqb r (Part3Detail.checkRelationship (index BRANCHES j)
                                              (index BRANCHES i))
  && (if i =? j then negb (JSObj.truthy r) else true)
  && Bool.eqb (String.eqb r "冲") (Z.abs (i - j) =? 6).





(** The entries of [calcShishen] for a day stem of index [i]: the god
    of the stem of index [s] is the one [getTenGod] gives. *)
Definition shishen_ok (i s : Z) : bool :=
  match JSObj.getU Part3Detail.SHISHEN_MAP (index STEMS i) with
  | Some row =>
      JSObj.eqU (JSObj.getU row (index STEMS s))
                (Some (Part3Detail.getTenGod (index STEMS i) (index STEMS s)))
  | None => false
  end.

(** The five elements, in the order of the keys of [elemCount]. *)
Definition fiveElements : list string := ["木"; "火"; "土"; "金"; "水"]%string.

(** A pillar whose two elements are names of elements. *)
Definition elements_named (p : Bazi.Pillar) : bool :=
  isName fiveElements (Bazi.stemEle p) && isName fiveElements (Bazi.branchEle p).

(** A tally of numbers under the five keys. *)
Definition tally5 (a b c d e : Z) : list (string * option Z) :=
  [ ("木", Some a); ("火", Some b); ("土", Some c); ("金", Some d);
    ("水", Some e) ]%string.

(** The count a tally holds for an element, if it is a number. *)
Definition countOf (o : list (string * option Z)) (k : string) : option Z :=
  match JSObj.get o k with
  | Some (Some n) => Some n
  | _ => None
  end.

(** The day numbers of a table are days of a month, 1 or more, exactly
    from 1972 on. *)
Definition days_from_one (y : Z) : bool :=
  match SolarTerms.getSolarTerms y with
  | Some tbl =>
      Bool.eqb (forallb (fun e => 1 <=? td_day (snd e)) tbl) (1972 <=? y)
  | None => false
  end.

(** Where the table puts the start of spring: in February on a day
    number up to 1 until 1975, in March from 2089 on. *)
Definition lichun_drift (y : Z) : bool :=
  match SolarTerms.getSolarTerms y with
  | Some tbl =>
      match lookup tbl LiChun with
      | Some l =>
          (td_year l =? y)
          && (if y <=? 1975
              then (td_month l =? 2) && (-17 <=? td_day l) && (td_day l <=? 1)
              else true)
          && (if 2089 <=? y then (td_month l =? 3) && (1 <=? td_day l) else true)
      | None => false
      end
  | None => false
  end.

(** The first term of the next year's table comes after every date of
    the year. *)
Definition next_anchor_after (y : Z) : bool :=
  match SolarTerms.getSolarTerms (y + 1) with
  | Some t =>
      match SolarTerms.scan_first t [XiaoHan; DaHan] with
      | Some (_, td) =>
          SolarTerms.dateNum y 12 31
          <? SolarTerms.dateNum (td_year td) (td_month td) (td_day td)
      | None => false
      end
  | None => false
  end.

(** The comparable number of a timestamp. *)
Definition termNum (td : TermDate) : Z :=
  SolarTerms.dateNum (td_year td) (td_month td) (td_day td).

(** The ages of the luck pillars: the onset age [a] and the multiples
    of ten add up without rounding. *)
Definition luck_age_ok (a k : Z) : bool :=
  PrimFloat.Leibniz.eqb (JS.of_Z a + JS.of_Z (k * 10))%float
                        (JS.of_Z (a + 10 * k))
  && PrimFloat.Leibniz.eqb (JS.of_Z a + JS.of_Z (k * 10) + 9)%float
                           (JS.of_Z (a + 10 * k + 9)).

(** The luck pillar number [k] (from 0), for the onset age [a], the
    direction, and the month pillar of the stem at index [S] and the
    branch at index [B] of the canonical tables: its stem is [k + 1]
    places from the month stem, its branch [k + 1] places from the
    branch two places before the month branch. *)
Definition luck_entry (a : Z) (forward : bool) (S B k : Z) (d : Bazi.DaYun)
    : Prop :=
  let step := if forward then k + 1 else - (k + 1) in
  Bazi.age d = JS.of_Z (a + 10 * k)
  /\ Bazi.ageEnd d = JS.of_Z (a + 10 * k + 9)
  /\ Bazi.dy_stem d = index STEMS ((S + step) mod 10)
  /\ Bazi.dy_branch d = index BRANCHES ((B - 2 + step) mod 12)
  /\ sexagenary (Bazi.dy_stem d) (Bazi.dy_branch d) = true.

(** The month pillar of a chart, the second of its four, has the stem
    at index [S] and the branch at index [B], but the element of the
    branch two places before. *)
Definition month_pillar_at (chart : Bazi.Chart) (S B : Z) : Prop :=
  0 <= S < 10 /\ 0 <= B < 12
  /\ exists p,
       index (Bazi.pillars chart) 1 = Some p
       /\ Bazi.stem p = index STEMS S
       /\ Bazi.branch p = index BRANCHES B
       /\ Bazi.stemEle p = index Bazi.STEM_ELEMENTS S
       /\ Bazi.branchEle p = index Bazi.BRANCH_ELEMENTS ((B - 2) mod 12).

(** The eight luck pillars of a chart. *)
Definition luck_pillars (chart : Bazi.Chart) (S B : Z) : Prop :=
  exists a,
    1 <= a <= 20
    /\ Bazi.info_startAge chart = JS.of_Z a
    /\ List.length (Bazi.daYun chart) = 8%nat
    /\ forall k, 0 <= k < 8 ->
         exists d,
           index (Bazi.daYun chart) k = Some d
           /\ luck_entry a (Bazi.info_daYunForward chart) S B k d.

(** The month indices of the two revisions, for a year stem [ys] and a
    month index [mi]: the stem index, and the branch index, which is
    [(mi + 2) % 12] in [bazi.js] and [mi] in the later revision.  Both
    are in range and of one parity, and the branch named is two places
    after the branch index. *)
Definition month_idx_ok (later : bool) (ys mi : Z) : bool :=
  match index [2; 4; 6; 8; 0; 2; 4; 6; 8; 0] ys with
  | Some base =>
      let ms := JS.rem (base + mi) 10 in
      let mb := if later then mi else JS.rem (mi + 2) 12 in
      (0 <=? ms) && (ms <? 10) && (0 <=? mb) && (mb <? 12)
      && ((ms - mb) mod 2 =? 0)
      && JSObj.eqU (index Bazi.monthBranchNames mb)
                   (index BRANCHES ((mb + 2) mod 12))
      && sexagenary (index STEMS ms) (index Bazi.monthBranchNames mb)
  | None => false
  end.

(** The indices of a luck pillar, as the loop computes them from the
    month indices [ms] and [mb]. *)
Definition luck_idx_ok (forward : bool) (ms mb k : Z) : bool :=
  let offset := if forward then k + 1 else - (k + 1) in
  let dyIdx := JS.rem (ms + offset + 100) 10 in
  let dyBIdx := JS.rem (mb + offset + 120) 12 in
  if (ms - mb) mod 2 =? 0
  then (dyIdx =? (ms + offset) mod 10)
       && (dyBIdx =? ((mb + 2) mod 12 - 2 + offset) mod 12)
       && sexagenary (index STEMS dyIdx) (index BRANCHES dyBIdx)
  else true.

(** The four pillars of a chart are four of the sixty pairs. *)
Definition four_pairs (chart : Bazi.Chart) : Prop :=
  List.length (Bazi.pillars chart) = 4%nat
  /\ Forall (fun p => sexagenary (Bazi.stem p) (Bazi.branch p) = true)
            (Bazi.pillars chart).

(** The Gregorian calendar, with the month lengths of [monthDays]: a
    date of the calendar, and the day after it. *)
Definition monthLength (y m : Z) : Z :=
  match index (SolarTerms.monthDays y) (m - 1) with
  | Some n => n
  | None => 0
  end.

Definition validDate (y m d : Z) : Prop :=
  1 <= m <= 12 /\ 1 <= d <= monthLength y m.

Definition nextDay (y m d : Z) : Z * Z * Z :=
  if d <? monthLength y m then (y, m, d + 1)
  else if m <? 12 then (y, m + 1, 1)
  else (y + 1, 1, 1).

(** The day number of the first day of a month follows that of the last
    day of the month before. *)
Definition month_end_ok (y m : Z) : bool :=
  let '(y', m', d') := nextDay y m (monthLength y m) in
  match Part3.getJulianDay y m (monthLength y m), Part3.getJulianDay y' m' d' with
  | Some a, Some b => (b =? a + 1) && (28 <=? monthLength y m)
                      && (monthLength y m <=? 31)
  | _, _ => false
  end.

(** A year of 365 days, February of 28: the length of a month, the days
    before its first, and the number of a day within the year. *)
Definition dim365 (m : Z) : Z :=
  if m =? 2 then 28
  else if (m =? 4) || (m =? 6) || (m =? 9) || (m =? 11) then 30
  else 31.

Definition daysBefore365 (m : Z) : Z :=
  match index [0; 31; 59; 90; 120; 151; 181; 212; 243; 273; 304; 334] (m - 1) with
  | Some n => n
  | None => 0
  end.

Definition ordinal365 (m d : Z) : Z := daysBefore365 m + d.

(** The days [lunarToSolar] counts from the lunar new year to a lunar
    date: its months of 30 and 29 days before the month, and the days
    before the day. *)
Definition lunarOffset (lunarMonth lunarDay : Z) : Z :=
  Part3.addMonths (Z.to_nat (lunarMonth - 1)) 0 1 0 + (lunarDay - 1).

(** The new year [lunarToSolar] starts from. *)
Definition newYearOf (lunarYear : Z) : Z * Z :=
  match Part3.assoc Part3.lunarNewYear lunarYear with
  | Some ny => ny
  | None => (1, 21)
  end.

(** Every new year of the table is a day of January or February. *)
Definition newYear_ok (e : Z * (Z * Z)) : bool :=
  let '(m, d) := snd e in
  (1 <=? m) && (m <=? 2) && (1 <=? d) && (d <=? dim365 m).
(** * Properties *)

(** Case analysis on the condition of a conditional of the goal. *)
Ltac case_if :=
  match goal with
  | |- context [if ?c then _ else _] => destruct c
  end.

(** ** Bounded quantification by enumeration *)

Lemma Zrange_In (lo : Z) (n : nat) (z : Z) :
  lo <= z < lo + Z.of_nat n -> In z (Zrange lo n).
Proof.
  intros H. unfold Zrange. apply in_map_iff.
  exists (Z.to_nat (z - lo)). split; [lia | apply in_seq; lia].
Qed.

Lemma forallb_Zrange (f : Z -> bool) (lo : Z) (n : nat) :
  forallb f (Zrange lo n) = true ->
  forall z, lo <= z < lo + Z.of_nat n -> f z = true.
Proof.
  intros H z Hz. rewrite forallb_forall in H. apply H, Zrange_In, Hz.
Qed.

Lemma all_in_spec (lo : Z) (n : nat) (f : Z -> bool) :
  all_in lo n f = true -> forall z, lo <= z < lo + Z.of_nat n -> f z = true.
Proof. apply forallb_Zrange. Qed.

(** ** [calcDaYunPrecise] returns whenever the nearest terms are found *)

Lemma calcDaYunPrecise_total (Date_ms : Z -> Z -> Z -> Z -> Z -> Z)
    (year month day hour minute : Z) (gender : string) (yearStemIdx : Z) :
  (exists near, SolarTerms.getNearestSolarTerm year month day = Some near) ->
  exists r,
    Bazi.calcDaYunPrecise Date_ms year month day hour minute gender yearStemIdx
    = Some r.
Proof.
  intros [near Hn]. unfold Bazi.calcDaYunPrecise. rewrite Hn. cbn [obind].
  destruct (SolarTerms.prevDate near), (SolarTerms.nextDate near);
    try (eexists; reflexivity).
  case_if; eexists; reflexivity.
Qed.

(** ** The month carry of [getDaysFromNewYear] *)

Lemma monthDays_entry (y month : Z) :
  1 <= month <= 12 ->
  exists n, index (SolarTerms.monthDays y) (month - 1) = Some n /\ 28 <= n <= 31.
Proof.
  intros H.
  assert (Hk : month = 1 \/ month = 2 \/ month = 3 \/ month = 4 \/ month = 5
               \/ month = 6 \/ month = 7 \/ month = 8 \/ month = 9
               \/ month = 10 \/ month = 11 \/ month = 12) by lia.
  unfold SolarTerms.monthDays.
  repeat (destruct Hk as [Hk|Hk];
          [subst month; destruct (SolarTerms.isLeap y);
           eexists; (split; [reflexivity|lia])|]).
  subst month. eexists; (split; [reflexivity|lia]).
Qed.

(** With fuel for [day] turns the loop leaves through its condition: the
    day it returns is within the month it returns, and that month is
    never past 12. *)
Lemma carry_month_exits (y : Z) (fuel : nat) (month day : Z) :
  1 <= month <= 12 -> day <= Z.of_nat fuel ->
  exists m' d' n,
    SolarTerms.carry_month fuel (SolarTerms.monthDays y) month day = (m', d')
    /\ 1 <= m' <= 12
    /\ index (SolarTerms.monthDays y) (m' - 1) = Some n /\ d' <= n.
Proof.
  revert month day. induction fuel as [|fuel IH]; intros month day Hm Hd.
  - destruct (monthDays_entry y month Hm) as (n & Hn & Hb).
    exists month, day, n. cbn [SolarTerms.carry_month]. repeat split; lia || auto.
  - destruct (monthDays_entry y month Hm) as (n & Hn & Hb).
    cbn [SolarTerms.carry_month]. rewrite Hn.
    destruct (n <? day) eqn:E.
    + apply IH; [destruct (12 <? month + 1) eqn:E'; lia|lia].
    + apply Z.ltb_ge in E. exists month, day, n. repeat split; lia || auto.
Qed.

Lemma base_month (i bm bd bh bmin : Z) :
  index SolarTerms.base i = Some (bm, bd, bh, bmin) -> 1 <= bm <= 12.
Proof.
  unfold index. destruct (i <? 0); [discriminate|]. intros H.
  apply nth_error_In in H. unfold SolarTerms.base in H. simpl in H.
  repeat (destruct H as [H|H]; [injection H as <- _ _ _; lia|]).
  contradiction.
Qed.

(** So the test [month > 12] of [getSolarTerms] never holds: every term
    of every table carries the input year. *)
Lemma getSolarTerms_same_year (year : Z) (tbl : TermTable) :
  SolarTerms.getSolarTerms year = Some tbl ->
  forall t d, In (t, d) tbl -> td_year d = year /\ 1 <= td_month d <= 12.
Proof.
  unfold SolarTerms.getSolarTerms. generalize 0, termNames.
  intros i names. revert i tbl.
  induction names as [|t0 names IH]; intros i tbl H t d Hin.
  - injection H as <-. contradiction.
  - cbn [SolarTerms.fill_terms] in H.
    destruct (SolarTerms.getDaysFromNewYear year i) as [[[[m dd] hh] mi]|] eqn:E;
      [|discriminate].
    cbn [obind] in H.
    destruct (SolarTerms.fill_terms year (i + 1) names) as [rest|] eqn:Er;
      [|discriminate].
    cbn [obind] in H. injection H as <-.
    destruct Hin as [Hin|Hin]; [|exact (IH _ _ Er _ _ Hin)].
    injection Hin as _ <-.
    unfold SolarTerms.getDaysFromNewYear in E.
    destruct (index SolarTerms.base i) as [[[[bm bd] bh] bmin]|] eqn:Eb;
      [|discriminate].
    cbn [obind] in E.
    destruct (index SolarTerms.termOffsets i); [|discriminate].
    cbn [obind] in E.
    destruct (JS.floorZ _) as [day|]; [|discriminate].
    cbn [obind] in E.
    destruct (carry_month_exits year (Z.to_nat day) bm day
                (base_month _ _ _ _ _ Eb) ltac:(lia))
      as (m' & d' & n & Hc & Hm' & _).
    rewrite Hc in E. injection E as <- <- <- <-.
    replace (12 <? m') with false by (symmetry; apply Z.ltb_ge; lia).
    cbn [td_year td_month]. split; [reflexivity|lia].
Qed.

(** The month carry of [lunarToSolar] leaves through one of its two
    exits when it has fuel for [solarDay] turns: the day it returns is a
    day of a month. *)
Lemma carry_solar_exits (fuel : nat) (lunarYear solarMonth solarDay : Z) :
  solarDay <= Z.of_nat fuel ->
  snd (Part3.carry_solar fuel lunarYear solarMonth solarDay) <= 31.
Proof.
  revert lunarYear solarMonth solarDay.
  induction fuel as [|fuel IH]; intros y m d Hd; cbn [Part3.carry_solar].
  - simpl. lia.
  - destruct (28 <? d) eqn:E; [|apply Z.ltb_ge in E; simpl; lia].
    set (dim := if m =? 2 then 28 else _).
    assert (Hdim : 28 <= dim <= 31).
    { unfold dim. destruct (m =? 2); [lia|]. destruct (_ || _); lia. }
    destruct (dim <? d) eqn:E2; [|apply Z.ltb_ge in E2; simpl; lia].
    destruct (12 <? m + 1); apply IH; lia.
Qed.

(** ** Chronological order of a solar-term table *)

Lemma table_disordered_1939_2100 :
  forallb table_disordered (Zrange 1939 162) = true.
Proof. vm_compute. reflexivity. Qed.

(** C1 (the code departs from the claim).  For every year from 1939 to
    2100 [getSolarTerms] returns its 24 terms, but every one of them
    carries the input year, none the adjusted year + 1, and the 24
    timestamps are not in increasing chronological order. *)
Theorem getSolarTerms_out_of_order (year : Z) :
  1939 <= year <= 2100 ->
  exists tbl,
    SolarTerms.getSolarTerms year = Some tbl
    /\ List.length tbl = 24%nat
    /\ (forall t d, In (t, d) tbl -> td_year d = year)
    /\ increasing (map snd tbl) = false.
Proof.
  intros Hy.
  assert (H : table_disordered year = true).
  { apply (forallb_Zrange _ 1939 162 table_disordered_1939_2100). lia. }
  unfold table_disordered in H.
  destruct (SolarTerms.getSolarTerms year) as [tbl|]; [|discriminate].
  apply andb_prop in H as [H Hinc]. apply andb_prop in H as [Hlen Hyr].
  exists tbl. repeat split.
  - now apply Nat.eqb_eq.
  - intros t d Hin. rewrite forallb_forall in Hyr.
    specialize (Hyr (t, d) Hin). simpl in Hyr. lia.
  - now apply negb_true_iff.
Qed.

(** In 2000 the major cold comes out two days after the start of spring,
    and the winter solstice as 12 January of 2000 itself. *)
Lemma getSolarTerms_out_of_order_2000 :
  exists tbl,
    SolarTerms.getSolarTerms 2000 = Some tbl
    /\ List.length tbl = 24%nat
    /\ (forall t d, In (t, d) tbl -> td_year d = 2000)
    /\ increasing (map snd tbl) = false.
Proof. apply getSolarTerms_out_of_order. lia. Defined.

Lemma getSolarTerms_2000_entries :
  exists tbl,
    SolarTerms.getSolarTerms 2000 = Some tbl
    /\ lookup tbl DaHan = Some (mkTermDate 2 9 9 0 2000)
    /\ lookup tbl LiChun = Some (mkTermDate 2 7 3 14 2000)
    /\ lookup tbl DaXue = Some (mkTermDate 12 14 1 10 2000)
    /\ lookup tbl DongZhi = Some (mkTermDate 1 12 0 28 2000).
Proof. eexists. split; [vm_compute; reflexivity|]. repeat split. Qed.

(** ** The idiom [((a % n) + n) % n] is the mathematical remainder *)

Lemma posmod_mod (a n : Z) : 0 < n -> JS.posmod a n = a mod n.
Proof.
  intros Hn. unfold JS.posmod, JS.rem.
  assert (Hb : - n < Z.rem a n < n).
  { pose proof (Z.rem_bound_abs a n ltac:(lia)). lia. }
  rewrite Z.rem_mod_nonneg by lia.
  pose proof (Z.quot_rem' a n) as Hq.
  replace (Z.rem a n + n) with (a + (1 - Z.quot a n) * n) by lia.
  apply Z.mod_add. lia.
Qed.

Lemma posmod_range (a n : Z) : 0 < n -> 0 <= JS.posmod a n < n.
Proof. intros Hn. rewrite posmod_mod by lia. apply Z.mod_pos_bound. lia. Qed.

(** ** The year pillar *)





(** ** The month pillar *)

(** C3 (the code departs from the claim).  In [bazi.js], 8 February 2000
    is on or after the start of spring of 2000 (7 February) and before
    the awakening of insects (10 March), yet the month found is the one
    of the minor cold, branch index 1, not the tiger month, index 2: the
    scan of [getNearestSolarTerm] stops at the major cold, which the
    table puts on 9 February; the later revision finds the same month.
    And 10 May 2000, whose latest sectional term is the clear-and-bright
    of 9 April (month index 2), gets month index 1 from the grain rain,
    against [TERM_MONTH_INDEX]. *)
Theorem month_branch_not_by_latest_jie :
  (exists tbl lichun jingzhe near info,
     SolarTerms.getSolarTerms 2000 = Some tbl
     /\ lookup tbl LiChun = Some lichun
     /\ lookup tbl JingZhe = Some jingzhe
     /\ (td_year lichun, td_month lichun, td_day lichun) = (2000, 2, 7)
     /\ (td_year jingzhe, td_month jingzhe, td_day jingzhe) = (2000, 3, 10)
     /\ SolarTerms.getNearestSolarTerm 2000 2 8 = Some near
     /\ SolarTerms.prevTerm near = Some XiaoHan
     /\ Bazi.getMonthFromSolarTerm 2000 2 8 0 0 = Some info
     /\ Bazi.monthBranchIdx info = 1
     /\ Bazi.monthBranch info = Some "卯"%string
     /\ Part3.getMonthFromSolarTerm 2000 2 8 0 0
        = Some (Bazi.mkMonthInfo (Some "己") (Some "丑") 5 11 "小寒")%string)
  /\
  (exists tbl qingming near info,
     SolarTerms.getSolarTerms 2000 = Some tbl
     /\ lookup tbl QingMing = Some qingming
     /\ (td_year qingming, td_month qingming, td_day qingming) = (2000, 4, 9)
     /\ Bazi.monthIndex_of (Some QingMing) 5 = 2
     /\ SolarTerms.getNearestSolarTerm 2000 5 10 = Some near
     /\ SolarTerms.prevTerm near = Some GuYu
     /\ Bazi.getMonthFromSolarTerm 2000 5 10 0 0 = Some info
     /\ Bazi.monthStemIdx info = 5
     /\ Bazi.monthBranchIdx info = 3).
Proof.
  split.
  - do 5 eexists.
    split; [vm_compute; reflexivity|].
    split; [vm_compute; reflexivity|].
    split; [vm_compute; reflexivity|].
    split; [reflexivity|]. split; [reflexivity|].
    split; [vm_compute; reflexivity|]. split; [reflexivity|].
    split; [vm_compute; reflexivity|]. split; [reflexivity|].
    split; [reflexivity|]. vm_compute; reflexivity.
  - do 4 eexists.
    split; [vm_compute; reflexivity|].
    split; [vm_compute; reflexivity|].
    split; [reflexivity|]. split; [reflexivity|].
    split; [vm_compute; reflexivity|]. split; [reflexivity|].
    split; [vm_compute; reflexivity|]. split; reflexivity.
Qed.

(** What does hold of the month stem in both revisions: the five-tiger
    base of the year stem plus the month index, modulo 10. *)
Lemma month_stem_five_tiger (calcSolarTerm : Z -> Z -> TermDate)
    (yearStemIdx year month day : Z) (h : option Z) (sb : Part3.Jieqi.StemBranch) :
  0 <= yearStemIdx < 10 ->
  Part3.Jieqi.getMonthStemBranch calcSolarTerm yearStemIdx year month day h
  = Some sb ->
  exists base,
    index [2; 4; 6; 8; 0] (yearStemIdx mod 5) = Some base
    /\ Part3.Jieqi.stemIdx sb
       = (base + (Part3.Jieqi.branchIdx sb - 2) mod 12) mod 10.
Proof.
  intros Hs H. unfold Part3.Jieqi.getMonthStemBranch in H.
  destruct (Part3.Jieqi.getMonthBranchIdx _ _ _ _ _) as [b|] eqn:Eb;
    [|discriminate].
  simpl in H. unfold JS.rem in H. rewrite Z.rem_mod_nonneg in H by lia.
  destruct (index [2; 4; 6; 8; 0] (yearStemIdx mod 5)) as [base|] eqn:E;
    [|discriminate].
  simpl in H. injection H as <-. exists base. split; [reflexivity|]. simpl.
  assert (Hb : 0 <= b < 12).
  { unfold Part3.Jieqi.getMonthBranchIdx in Eb.
    destruct (index (Part3.Jieqi.getJieqi calcSolarTerm year) 0);
      [|discriminate].
    simpl in Eb.
    match type of Eb with
    | (if ?c then _ else _) = _ => destruct c
    end.
    - vm_compute in Eb. injection Eb as <-. lia.
    - unfold index in Eb.
      destruct (_ <? 0); [discriminate|].
      apply nth_error_In in Eb. simpl in Eb.
      repeat (destruct Eb as [Eb|Eb]; [lia|]). contradiction. }
  assert (Hbase : 0 <= base < 10).
  { unfold index in E. destruct (_ <? 0); [discriminate|].
    apply nth_error_In in E. simpl in E.
    repeat (destruct E as [E|E]; [lia|]). contradiction. }
  rewrite (Z.rem_mod_nonneg (b - 2 + 12) 12) by lia.
  replace (b - 2 + 12) with (b - 2 + 1 * 12) by lia.
  rewrite Z.mod_add by lia.
  pose proof (Z.mod_pos_bound (b - 2) 12 ltac:(lia)).
  apply Z.rem_mod_nonneg; lia.
Qed.

(** In the astronomical revision the scan compares months without the
    year, so the minor cold of the next January counts as passed by
    every date from February on: with the start of spring after January
    no date is given the rat month, branch 0. *)
Lemma getMonthBranchIdx_never_zi (calcSolarTerm : Z -> Z -> TermDate)
    (year month day : Z) (h : option Z) :
  2 <= td_month (calcSolarTerm year 2) ->
  td_month (calcSolarTerm (year + 1) 0) = 1 ->
  Part3.Jieqi.getMonthBranchIdx calcSolarTerm year month day h <> Some 0.
Proof.
  intros Hl Hx. unfold Part3.Jieqi.getMonthBranchIdx.
  change (index (Part3.Jieqi.getJieqi calcSolarTerm year) 0)
    with (Some (calcSolarTerm year 2)).
  cbn [obind].
  destruct (_ || _) eqn:Eb; [discriminate|].
  apply orb_false_elim in Eb as [Eb _]. apply Z.ltb_ge in Eb.
  change (firstn 12 (Part3.Jieqi.getJieqi calcSolarTerm year))
    with [calcSolarTerm year 2; calcSolarTerm year 4; calcSolarTerm year 6;
          calcSolarTerm year 8; calcSolarTerm year 10; calcSolarTerm year 12;
          calcSolarTerm year 14; calcSolarTerm year 16; calcSolarTerm year 18;
          calcSolarTerm year 20; calcSolarTerm year 22;
          calcSolarTerm (year + 1) 0].
  cbn [Part3.Jieqi.lastPassed].
  replace (td_month (calcSolarTerm (year + 1) 0) <? month) with true
    by (symmetry; apply Z.ltb_lt; lia).
  cbn [orb].
  repeat case_if; discriminate.
Qed.

(** ** The day pillar *)

(** C4 (the code departs from the claim).  For 2000-01-07 [bazi.js]
    floors the Julian date 2451550.5 to 2451550 and gets stem index 9,
    branch index 11, the pair before jiazi; both day-pillar computations
    of the later revision give stem 0, branch 0. *)
Theorem day_pillar_reference_2000_01_07 :
  Bazi.getJulianDay 2000 1 7 = Some 2451550.5%float
  /\ JS.floorZ 2451550.5%float = Some 2451550
  /\ Bazi.dayStemBranch 2000 1 7 = Some (9, 11)
  /\ (forall Date_ms hour gender,
        option_map (fun c => nth_error (Bazi.pillars c) 2)
                   (Bazi.calcBaziPillars Date_ms 2000 1 7 hour gender)
        = Some (Some (Bazi.mkPillar "日柱（日主）" (Some "癸") (Some "亥")
                        (Some "水") (Some "水") (Some "阴"))%string))
  /\ Part3.Jieqi.getDayStemBranch 2000 1 7
     = Some (Part3.Jieqi.mkStemBranch 0 0)
  /\ Part3.getJulianDay 2000 1 7 = Some 2451551
  /\ Part3.dayStemBranch 2000 1 7 = Some (0, 0).
Proof.
  split; [vm_compute; reflexivity|].
  split; [vm_compute; reflexivity|].
  split; [vm_compute; reflexivity|].
  split.
  { intros Date_ms hour gender. unfold Bazi.calcBaziPillars.
    replace (Bazi.getYearFromSolarTerm 2000 1 7)
      with (Some (Bazi.mkYearInfo (Some "己") (Some "卯") 5 3 (Some "兔") 1999)%string)
      by (vm_compute; reflexivity).
    replace (Bazi.getMonthFromSolarTerm 2000 1 7 0 0)
      with (Some (Bazi.mkMonthInfo (Some "戊") (Some "寅") 4 0 "冬至")%string)
      by (vm_compute; reflexivity).
    replace (Bazi.dayStemBranch 2000 1 7) with (Some (9, 11))
      by (vm_compute; reflexivity).
    cbn [obind Bazi.yearStemIdx].
    destruct (calcDaYunPrecise_total Date_ms 2000 1 7 0 0 gender 5)
      as [r ->]; [vm_compute; eexists; reflexivity|].
    reflexivity. }
  split; [vm_compute; reflexivity|].
  split; vm_compute; reflexivity.
Qed.

(** C5.  The day pillar of [bazi.js] and the day pillars of the later
    revision disagree on a date, 2000-01-07, so the embeddings are not
    the same function. *)
Theorem day_pillar_revisions_disagree :
  (exists year month day a b c,
     Bazi.dayStemBranch year month day = Some a
     /\ Part3.Jieqi.getDayStemBranch year month day = Some b
     /\ Part3.dayStemBranch year month day = Some c
     /\ a <> (Part3.Jieqi.stemIdx b, Part3.Jieqi.branchIdx b)
     /\ a <> c)
  /\ Bazi.dayStemBranch <> Part3.dayStemBranch
  /\ Bazi.dayStemBranch
     <> (fun y m d =>
           option_map (fun b => (Part3.Jieqi.stemIdx b, Part3.Jieqi.branchIdx b))
                      (Part3.Jieqi.getDayStemBranch y m d)).
Proof.
  split; [|split].
  - exists 2000, 1, 7, (9, 11), (Part3.Jieqi.mkStemBranch 0 0), (0, 0).
    split; [vm_compute; reflexivity|].
    split; [vm_compute; reflexivity|].
    split; [vm_compute; reflexivity|].
    split; simpl; congruence.
  - intros H. apply (f_equal (fun f => f 2000 1 7)) in H.
    vm_compute in H. discriminate.
  - intros H. apply (f_equal (fun f => f 2000 1 7)) in H.
    vm_compute in H. discriminate.
Qed.


(** ** The annual flying stars *)

(** C8.  The central star is 7 for 2003, 8 for 2004 and 9 for 2024, and
    over the three epochs: 7 from 1984 to 2003, 8 from 2004 to 2023, 9
    from 2024 to 2043. *)
Theorem center_star_epochs :
  centerStar 2003 = Some 7 /\ centerStar 2004 = Some 8
  /\ centerStar 2024 = Some 9
  /\ (forall year, 1984 <= year <= 2003 -> centerStar year = Some 7)
  /\ (forall year, 2004 <= year <= 2023 -> centerStar year = Some 8)
  /\ (forall year, 2024 <= year <= 2043 -> centerStar year = Some 9).
Proof.
  repeat split; try reflexivity; intros year Hy;
    unfold centerStar, Fengshui.calcFlyingStars.
  - replace (2024 <=? year) with false by (symmetry; apply Z.leb_gt; lia).
    replace (2004 <=? year) with false by (symmetry; apply Z.leb_gt; lia).
    reflexivity.
  - replace (2024 <=? year) with false by (symmetry; apply Z.leb_gt; lia).
    replace (2004 <=? year) with true by (symmetry; apply Z.leb_le; lia).
    reflexivity.
  - replace (2024 <=? year) with true by (symmetry; apply Z.leb_le; lia).
    reflexivity.
Qed.

Lemma center_star_epochs_witness :
  centerStar 1990 = Some 7 /\ centerStar 2010 = Some 8
  /\ centerStar 2030 = Some 9.
Proof.
  destruct center_star_epochs as (_ & _ & _ & H7 & H8 & H9).
  split; [apply H7; lia|]. split; [apply H8; lia|apply H9; lia].
Defined.

(** C10 (the code departs from the claim).  For every year the array has
    nine entries and its stars are a permutation of 1..9; but three
    entries sit in a row 3, outside the 3x3 grid, and the cells (1,0),
    (2,0) and (2,2) of the grid carry no star. *)
Theorem flying_stars_miss_three_cells (year : Z) :
  let ps := Fengshui.calcFlyingStars year in
  List.length ps = 9%nat
  /\ Permutation (map Fengshui.star ps) [1; 2; 3; 4; 5; 6; 7; 8; 9]
  /\ cells ps
     = [(1, 1); (2, 1); (3, 0); (3, 1); (3, 2); (0, 2); (0, 1); (0, 0); (1, 2)]
  /\ filter (fun c => negb (existsb (fun c' => (fst c =? fst c') && (snd c =? snd c'))
                                    (cells ps))) grid3
     = [(1, 0); (2, 0); (2, 2)]
  /\ filter (fun c => negb (existsb (fun c' => (fst c =? fst c') && (snd c =? snd c'))
                                    grid3)) (cells ps)
     = [(3, 0); (3, 1); (3, 2)].
Proof.
  unfold Fengshui.calcFlyingStars.
  destruct (2024 <=? year); [|destruct (2004 <=? year)];
    (split; [reflexivity|]); (split; [|repeat split]).
  - apply (Permutation_app_comm [9] [1; 2; 3; 4; 5; 6; 7; 8]).
  - apply (Permutation_app_comm [8; 9] [1; 2; 3; 4; 5; 6; 7]).
  - apply (Permutation_app_comm [7; 8; 9] [1; 2; 3; 4; 5; 6]).
Qed.

(** ** The entry point *)

(** C9, as stated, fails: with the year 2000 and the month 13, outside
    the supported domain, the entry point does not alert; it computes
    and renders a chart.  So it is not true that every request outside
    the domain is turned away. *)
Lemma calcBazi_month_13_rendered :
  (~ inDomain (Some 2000) 13 1 0
   /\ exists chart,
        Bazi.calcBazi Date_fixed (Bazi.mkForm (Some 2000) 13 1 0 "m")
        = Some (Bazi.Render chart))
  /\ ~ (forall Date_ms f,
          ~ inDomain (Bazi.birthYear f) (Bazi.birthMonth f) (Bazi.birthDay f)
                     (Bazi.birthHour f) ->
          exists msg, Bazi.calcBazi Date_ms f = Some (Bazi.Alert msg)).
Proof.
  assert (Hout : ~ inDomain (Some 2000) 13 1 0).
  { intros (_ & Hm & _). lia. }
  split; [split|].
  - exact Hout.
  - eexists. vm_compute. reflexivity.
  - intros H.
    destruct (H Date_fixed (Bazi.mkForm (Some 2000) 13 1 0 "m") Hout)
      as [msg Hmsg].
    vm_compute in Hmsg. discriminate.
Qed.

Lemma yearRejected_badYear (year : option Z) :
  Bazi.yearRejected year = true <-> badYear year.
Proof.
  unfold Bazi.yearRejected, badYear. destruct year as [y|]; split.
  - intros H. right. exists y. split; [reflexivity|].
    apply orb_prop in H as [H|H]; [apply orb_prop in H as [H|H]|]; lia.
  - intros [H|(y' & [= <-] & H)]; [discriminate|].
    apply orb_true_iff. destruct H; [left; apply orb_true_iff; right|right]; lia.
  - intros _. now left.
  - reflexivity.
Qed.

(** C9, amended.  A request whose year is missing or outside 1900..2100
    is turned away with the alert before any computation, and nothing is
    rendered; month, day and hour are not examined: with a year in
    1900..2100 the chart computation is run on them as they are, and
    what it yields is rendered.  In the later revision a lunar date is
    first converted. *)
Theorem calcBazi_validates_year_only
    (Date_ms : Z -> Z -> Z -> Z -> Z -> Z) :
  (forall f,
     badYear (Bazi.birthYear f) ->
     Bazi.calcBazi Date_ms f = Some (Bazi.Alert yearMessage))
  /\ (forall f year,
        Bazi.birthYear f = Some year -> 1900 <= year <= 2100 ->
        Bazi.calcBazi Date_ms f
        = (result <- Bazi.calcBaziPillars Date_ms year (Bazi.birthMonth f)
                       (Bazi.birthDay f) (Bazi.birthHour f)
                       (Bazi.gender_field f) ;;
           Some (Bazi.Render result)))
  /\ (forall f,
        badYear (Part3.birthYear f) ->
        Part3.calcBazi Date_ms f = Some (Bazi.Alert yearMessage))
  /\ (forall f year,
        Part3.birthYear f = Some year -> 1900 <= year <= 2100 ->
        Part3.calcBazi Date_ms f
        = (let '(y, m, d) :=
             if String.eqb (Part3.calendarType f) "lunar"
             then Part3.lunarToSolar year (Part3.birthMonth f)
                                     (Part3.birthDay f)
             else (year, Part3.birthMonth f, Part3.birthDay f) in
           result <- Part3.calcBaziPillars Date_ms y m d (Part3.birthHour f)
                       (Part3.gender_field f) ;;
           Some (Bazi.Render result))).
Proof.
  assert (Hok : forall year, 1900 <= year <= 2100 ->
                             Bazi.yearRejected (Some year) = false).
  { intros year Hy. apply not_true_is_false. intros H.
    apply yearRejected_badYear in H as [H|(y & [= <-] & H)];
      [discriminate|lia]. }
  repeat split.
  - intros f H. apply yearRejected_badYear in H.
    unfold Bazi.calcBazi. now rewrite H.
  - intros f year E Hy. unfold Bazi.calcBazi.
    rewrite E, (Hok year Hy). reflexivity.
  - intros f H. apply yearRejected_badYear in H.
    unfold Part3.calcBazi. now rewrite H.
  - intros f year E Hy. unfold Part3.calcBazi.
    rewrite E, (Hok year Hy). reflexivity.
Qed.

Lemma calcBazi_validates_year_only_witness :
  Bazi.calcBazi Date_fixed (Bazi.mkForm (Some 1899) 5 15 5 "m")
  = Some (Bazi.Alert yearMessage)
  /\ Bazi.calcBazi Date_fixed (Bazi.mkForm (Some 1990) 5 15 5 "m")
     = (result <- Bazi.calcBaziPillars Date_fixed 1990 5 15 5 "m" ;;
        Some (Bazi.Render result))
  /\ Part3.calcBazi Date_fixed (Part3.mkForm "solar" None 5 15 5 "m")
     = Some (Bazi.Alert yearMessage)
  /\ Part3.calcBazi Date_fixed (Part3.mkForm "lunar" (Some 1990) 5 15 5 "m")
     = (result <- Part3.calcBaziPillars Date_fixed 1990 6 8 5 "m" ;;
        Some (Bazi.Render result)).
Proof.
  destruct (calcBazi_validates_year_only Date_fixed) as (H1 & H2 & H3 & H4).
  split; [|split; [|split]].
  - apply H1. right. exists 1899. split; [reflexivity|lia].
  - exact (H2 (Bazi.mkForm (Some 1990) 5 15 5 "m") 1990 eq_refl
              ltac:(lia)).
  - apply H3. now left.
  - pose proof (H4 (Part3.mkForm "lunar" (Some 1990) 5 15 5 "m") 1990
                   eq_refl ltac:(lia)) as H.
    cbn [Part3.calendarType Part3.birthMonth Part3.birthDay Part3.birthHour
         Part3.gender_field] in H.
    replace (Part3.lunarToSolar 1990 5 15) with (1990, 6, 8) in H
      by (vm_compute; reflexivity).
    exact H.
Defined.

(** ** The parity of the four pillars *)

Lemma sexagenary_idx_elim (i j : Z) :
  sexagenary_idx i j = true ->
  0 <= i < 10 /\ 0 <= j < 12 /\ (i - j) mod 2 = 0
  /\ sexagenary (index STEMS i) (index BRANCHES j) = true.
Proof.
  unfold sexagenary_idx. intros H.
  repeat (apply andb_prop in H as [H ?]).
  repeat split; try assumption; lia.
Qed.

Lemma tables_found_1899_2101 : all_in 1899 203 tables_found = true.
Proof. vm_compute. reflexivity. Qed.

Lemma getSolarTerms_total (year : Z) :
  1899 <= year <= 2101 -> exists tbl, SolarTerms.getSolarTerms year = Some tbl.
Proof.
  intros Hy.
  pose proof (all_in_spec _ _ _ tables_found_1899_2101 year ltac:(lia)) as H.
  unfold tables_found in H.
  destruct (SolarTerms.getSolarTerms year) as [tbl|]; [now exists tbl|discriminate].
Qed.

Lemma getNearestSolarTerm_total (year month day : Z) :
  1900 <= year <= 2100 ->
  exists near, SolarTerms.getNearestSolarTerm year month day = Some near.
Proof.
  intros Hy. unfold SolarTerms.getNearestSolarTerm.
  destruct (getSolarTerms_total year ltac:(lia)) as [t0 ->].
  destruct (getSolarTerms_total (year - 1) ltac:(lia)) as [t1 ->].
  destruct (getSolarTerms_total (year + 1) ltac:(lia)) as [t2 ->].
  cbn [obind].
  destruct (SolarTerms.scan_year _ _ _ _) as [prev [next|]];
    cbn [obind]; eexists; reflexivity.
Qed.

Lemma year_pair_ok_60 : all_in 0 60 year_pair_ok = true.
Proof. vm_compute. reflexivity. Qed.

Lemma year_pair_sexagenary (x : Z) :
  sexagenary_idx (JS.posmod x 10) (JS.posmod x 12) = true.
Proof.
  rewrite !posmod_mod by lia.
  rewrite <- (Z.mod_mod_divide x 60 10) by (now exists 6).
  rewrite <- (Z.mod_mod_divide x 60 12) by (now exists 5).
  apply (all_in_spec _ _ _ year_pair_ok_60 (x mod 60)).
  pose proof (Z.mod_pos_bound x 60 ltac:(lia)). lia.
Qed.

Lemma getYearFromSolarTerm_sexagenary (year month day : Z) :
  1900 <= year <= 2100 ->
  exists info,
    Bazi.getYearFromSolarTerm year month day = Some info
    /\ 0 <= Bazi.yearStemIdx info < 10
    /\ sexagenary (Bazi.yearStem info) (Bazi.yearBranch info) = true.
Proof.
  intros Hy. unfold Bazi.getYearFromSolarTerm.
  destruct (getSolarTerms_total year ltac:(lia)) as [tbl ->]. cbn [obind].
  destruct (lookup tbl LiChun) as [l|]; eexists; (split; [reflexivity|]);
    cbn [Bazi.getYearSimplified Bazi.yearStemIdx Bazi.yearStem Bazi.yearBranch];
    (split; [apply posmod_range; lia
            |apply (sexagenary_idx_elim _ _ (year_pair_sexagenary _))]).
Qed.

Lemma monthIndex_of_range (prevTerm : option Term) (month : Z) :
  1 <= month <= 12 -> 0 <= Bazi.monthIndex_of prevTerm month < 12.
Proof.
  intros Hm. destruct prevTerm as [[]|]; cbn [Bazi.monthIndex_of]; try lia.
  pose proof (Z.div_pos (month - 1) 2 ltac:(lia) ltac:(lia)).
  pose proof (Z.div_lt_upper_bound (month - 1) 2 12 ltac:(lia) ltac:(lia)).
  lia.
Qed.



Lemma day_pillars_ok_all :
  all_in 1900 201
    (fun y => all_in 1 12 (fun m => all_in 1 31 (fun d => day_pillars_ok y m d)))
  = true.
Proof. vm_compute. reflexivity. Qed.

Lemma day_pillars_checked (year month day : Z) :
  1900 <= year <= 2100 -> 1 <= month <= 12 -> 1 <= day <= 31 ->
  exists s b sb,
    Bazi.dayStemBranch year month day = Some (s, b)
    /\ Part3.Jieqi.getDayStemBranch year month day = Some sb
    /\ Part3.dayStemBranch year month day
       = Some (Part3.Jieqi.stemIdx sb, Part3.Jieqi.branchIdx sb)
    /\ sexagenary_idx s b = true
    /\ sexagenary_idx (Part3.Jieqi.stemIdx sb) (Part3.Jieqi.branchIdx sb) = true
    /\ Part3.Jieqi.stemIdx sb = (s + 1) mod 10
    /\ Part3.Jieqi.branchIdx sb = (b + 1) mod 12.
Proof.
  intros Hy Hm Hd.
  pose proof (all_in_spec _ _ _
                (all_in_spec _ _ _
                   (all_in_spec _ _ _ day_pillars_ok_all year ltac:(lia))
                   month ltac:(lia)) day ltac:(lia)) as H.
  cbv beta in H. unfold day_pillars_ok in H.
  destruct (Bazi.dayStemBranch year month day) as [[s b]|]; [|discriminate].
  destruct (Part3.dayStemBranch year month day) as [[s' b']|]; [|discriminate].
  destruct (Part3.Jieqi.getDayStemBranch year month day) as [sb|];
    [|discriminate].
  do 5 (apply andb_prop in H as [H ?]).
  exists s, b, sb.
  assert (s' = Part3.Jieqi.stemIdx sb) by lia.
  assert (b' = Part3.Jieqi.branchIdx sb) by lia.
  subst s' b'. repeat split; try assumption; try reflexivity; lia.
Qed.

Lemma dayStemBranch_sexagenary (year month day : Z) :
  1900 <= year <= 2100 -> 1 <= month <= 12 -> 1 <= day <= 31 ->
  exists s b,
    Bazi.dayStemBranch year month day = Some (s, b)
    /\ sexagenary_idx s b = true.
Proof.
  intros Hy Hm Hd.
  destruct (day_pillars_checked year month day Hy Hm Hd)
    as (s & b & sb & H1 & _ & _ & H2 & _).
  now exists s, b.
Qed.

(** On every date of the supported domain [bazi.js] is one day behind
    both computations of the later revision, which agree with each
    other. *)
Lemma bazi_day_pillar_one_behind (year month day : Z) :
  1900 <= year <= 2100 -> 1 <= month <= 12 -> 1 <= day <= 31 ->
  exists s b,
    Bazi.dayStemBranch year month day = Some (s, b)
    /\ Part3.dayStemBranch year month day
       = Some ((s + 1) mod 10, (b + 1) mod 12)
    /\ Part3.Jieqi.getDayStemBranch year month day
       = Some (Part3.Jieqi.mkStemBranch ((s + 1) mod 10) ((b + 1) mod 12)).
Proof.
  intros Hy Hm Hd.
  destruct (day_pillars_checked year month day Hy Hm Hd)
    as (s & b & [s2 b2] & H1 & H2 & H3 & _ & _ & H4 & H5).
  cbn [Part3.Jieqi.stemIdx Part3.Jieqi.branchIdx] in *. subst s2 b2.
  now exists s, b.
Qed.

Lemma hour_ok_all : all_in 0 10 (fun ds => all_in 0 12 (hour_ok ds)) = true.
Proof. vm_compute. reflexivity. Qed.

Lemma hour_pillar_sexagenary (ds h : Z) :
  0 <= ds < 10 -> 0 <= h <= 11 ->
  exists base,
    index [0; 2; 4; 6; 8] (JS.rem ds 5) = Some base
    /\ sexagenary_idx (JS.rem (base + h) 10) h = true.
Proof.
  intros Hs Hh.
  pose proof (all_in_spec _ _ _ (all_in_spec _ _ _ hour_ok_all ds ltac:(lia))
                h ltac:(lia)) as H.
  unfold hour_ok in H.
  destruct (index [0; 2; 4; 6; 8] (JS.rem ds 5)) as [base|]; [|discriminate].
  now exists base.
Qed.


Lemma getMonthBranchIdx_range (calcSolarTerm : Z -> Z -> TermDate)
    (year month day : Z) (h : option Z) :
  exists b,
    Part3.Jieqi.getMonthBranchIdx calcSolarTerm year month day h = Some b
    /\ 0 <= b < 12.
Proof.
  unfold Part3.Jieqi.getMonthBranchIdx.
  change (index (Part3.Jieqi.getJieqi calcSolarTerm year) 0)
    with (Some (calcSolarTerm year 2)).
  cbn [obind].
  case_if.
  - exists 1. split; [reflexivity|lia].
  - set (ts := firstn 12 (Part3.Jieqi.getJieqi calcSolarTerm year)).
    assert (Hl : forall ts i acc, 0 <= i -> 0 <= acc ->
                 0 <= Part3.Jieqi.lastPassed ts i month day h acc
                 < Z.max (acc + 1) (i + Z.of_nat (List.length ts))).
    { clear. induction ts as [|t ts IH]; intros i acc Hi Hacc; simpl.
      - lia.
      - destruct (_ || _).
        + specialize (IH (i + 1) i ltac:(lia) ltac:(lia)). lia.
        + lia. }
    specialize (Hl ts 0 0 ltac:(lia) ltac:(lia)).
    assert (Hlen : List.length ts = 12%nat) by reflexivity.
    rewrite Hlen in Hl.
    set (k := Part3.Jieqi.lastPassed ts 0 month day h 0) in *.
    assert (Hk : k = 0 \/ k = 1 \/ k = 2 \/ k = 3 \/ k = 4 \/ k = 5 \/ k = 6
                 \/ k = 7 \/ k = 8 \/ k = 9 \/ k = 10 \/ k = 11) by lia.
    clearbody k.
    repeat (destruct Hk as [Hk|Hk];
            [subst k; eexists; (split; [reflexivity|lia])|]).
    subst k; eexists; (split; [reflexivity|lia]).
Qed.



(** ** Numbers that are not NaN *)

Lemma shr_1_nonneg (mrs : shr_record) :
  0 <= shr_m mrs -> 0 <= shr_m (shr_1 mrs).
Proof.
  destruct mrs as [m r s]. simpl.
  destruct m as [|[p|p|]|p]; simpl; intros H; lia.
Qed.

Lemma iter_shr_1_nonneg (p : positive) (mrs : shr_record) :
  0 <= shr_m mrs -> 0 <= shr_m (iter_pos shr_1 p mrs).
Proof.
  revert mrs. induction p as [p IH|p IH|]; intros mrs H; simpl.
  - apply IH, IH, shr_1_nonneg, H.
  - apply IH, IH, H.
  - apply shr_1_nonneg, H.
Qed.

Lemma shr_fexp_nonneg (m e : Z) (l : location) :
  0 <= m -> 0 <= shr_m (fst (shr_fexp prec emax m e l)).
Proof.
  intros H. unfold shr_fexp, shr.
  assert (H0 : 0 <= shr_m (shr_record_of_loc m l))
    by (destruct l as [|[]]; exact H).
  destruct (_ - e) as [|p|p]; simpl; try exact H0.
  apply iter_shr_1_nonneg, H0.
Qed.

Lemma round_nearest_even_nonneg (m : Z) (l : location) :
  0 <= m -> 0 <= round_nearest_even m l.
Proof.
  intros H. destruct l as [|[]]; simpl; try lia. destruct (Z.even m); lia.
Qed.

Lemma binary_round_aux_value (sx : bool) (mx ex : Z) (lx : location) :
  0 <= mx -> binary_round_aux prec emax sx mx ex lx <> S754_nan.
Proof.
  intros H. unfold binary_round_aux.
  pose proof (shr_fexp_nonneg mx ex lx H) as H1.
  destruct (shr_fexp prec emax mx ex lx) as [mrs' e']. simpl in H1.
  pose proof
    (shr_fexp_nonneg _ e' loc_Exact
       (round_nearest_even_nonneg _ (loc_of_shr_record mrs') H1)) as H2.
  destruct (shr_fexp prec emax _ e' loc_Exact) as [mrs'' e'']. simpl in H2.
  destruct (shr_m mrs'') as [|m|m]; try discriminate.
  - destruct (e'' <=? emax - prec); discriminate.
  - lia.
Qed.

Lemma binary_normalize_value (m e : Z) (sz : bool) :
  binary_normalize prec emax m e sz <> S754_nan.
Proof.
  unfold binary_normalize, binary_round.
  destruct m as [|p|p]; try discriminate;
    destruct (shl_align _ _ _) as [mz ez];
    apply binary_round_aux_value; lia.
Qed.

Lemma of_Z_value (z : Z) : hasValue (JS.of_Z z).
Proof.
  unfold hasValue, JS.of_Z. destruct z as [|p|p].
  - vm_compute. discriminate.
  - rewrite of_uint63_spec. apply binary_normalize_value.
  - rewrite opp_spec, of_uint63_spec.
    pose proof (binary_normalize_value
                  (Uint63Axioms.to_Z (Uint63.of_Z (Z.pos p))) 0 false) as H.
    destruct (binary_normalize _ _ _ _ _); simpl; congruence.
Qed.

(** Division by, multiplication by and addition of a finite non-zero
    constant keep a number a number. *)
Lemma div_value (x c : float) (sc : bool) (mc : positive) (ec : Z) :
  Prim2SF c = S754_finite sc mc ec -> hasValue x -> hasValue (x / c)%float.
Proof.
  unfold hasValue. intros Hc Hx. rewrite div_spec, Hc.
  destruct (Prim2SF x) as [s|s| |s m e]; try discriminate; [congruence|].
  unfold SF64div, SFdiv, SFdiv_core_binary.
  match goal with
  | |- context [Z.div_eucl ?a ?b] =>
      pose proof (Z.div_pos a b) as Hq; unfold Z.div in Hq;
      destruct (Z.div_eucl a b) as [q r]
  end.
  apply binary_round_aux_value. apply Hq; [|lia].
  destruct (e - ec - _) as [|p|p]; try lia. apply Z.shiftl_nonneg. lia.
Qed.

Lemma mul_value (x c : float) (sc : bool) (mc : positive) (ec : Z) :
  Prim2SF c = S754_finite sc mc ec -> hasValue x -> hasValue (x * c)%float.
Proof.
  unfold hasValue. intros Hc Hx. rewrite mul_spec, Hc.
  destruct (Prim2SF x) as [s|s| |s m e]; try discriminate; [congruence|].
  apply binary_round_aux_value. lia.
Qed.

Lemma add_value (x c : float) (sc : bool) (mc : positive) (ec : Z) :
  Prim2SF c = S754_finite sc mc ec -> hasValue x -> hasValue (x + c)%float.
Proof.
  unfold hasValue. intros Hc Hx. rewrite add_spec, Hc.
  destruct (Prim2SF x) as [s|s| |s m e]; try discriminate; [congruence|].
  apply binary_normalize_value.
Qed.

Lemma Math_round_value (x : float) : hasValue x -> hasValue (JS.Math_round x).
Proof.
  intros H. unfold JS.Math_round.
  destruct (JS.roundZ x); [apply of_Z_value|exact H].
Qed.

(** ** The clamp of the onset age *)

Lemma digits2_pos_bounds (m : positive) :
  2 ^ (Z.pos (digits2_pos m) - 1) <= Z.pos m < 2 ^ Z.pos (digits2_pos m).
Proof.
  induction m as [m IH|m IH|]; simpl digits2_pos.
  - rewrite Pos2Z.inj_succ.
    replace (Z.succ (Z.pos (digits2_pos m)) - 1)
      with (Z.succ (Z.pos (digits2_pos m) - 1)) by lia.
    rewrite !Z.pow_succ_r by lia. lia.
  - rewrite Pos2Z.inj_succ.
    replace (Z.succ (Z.pos (digits2_pos m)) - 1)
      with (Z.succ (Z.pos (digits2_pos m) - 1)) by lia.
    rewrite !Z.pow_succ_r by lia. lia.
  - simpl. lia.
Qed.

Lemma clampAge_range (x : float) :
  hasValue x -> exists a, Bazi.clampAge x = JS.of_Z a /\ 1 <= a <= 20.
Proof.
  intros Hx. unfold Bazi.clampAge.
  destruct (x <? 1)%float eqn:E1.
  { exists 1. split; [vm_compute; reflexivity|lia]. }
  destruct (20 <? x)%float eqn:E2.
  { exists 20. split; [vm_compute; reflexivity|lia]. }
  rewrite ltb_spec in E1, E2.
  pose proof (Prim2SF_valid x) as Hv.
  assert (Hz : PrimFloat.is_zero x = SFeqb (Prim2SF x) (S754_zero false)).
  { unfold PrimFloat.is_zero. now rewrite eqb_spec. }
  unfold JS.Math_floor, JS.floorZ. rewrite Hz. clear Hz.
  change (Prim2SF 1) with (S754_finite false 4503599627370496 (-52)) in E1.
  change (Prim2SF 20) with (S754_finite false 5629499534213120 (-48)) in E2.
  unfold hasValue in Hx.
  destruct (Prim2SF x) as [s|s| |s m e]; try congruence.
  - destruct s; discriminate.
  - destruct s; discriminate.
  - destruct s; [discriminate|].
    unfold SFltb, SFcompare in E1, E2.
    assert (He : -52 <= e <= -48).
    { destruct (Z.compare_spec e (-52)); destruct (Z.compare_spec (-48) e);
        try discriminate; lia. }
    unfold valid_binary, bounded, canonical_mantissa, fexp in Hv.
    apply andb_prop in Hv as [Hc _]. apply Z.eqb_eq in Hc.
    pose proof (digits2_pos_bounds m) as Hd.
    assert (Hdig : Z.pos (digits2_pos m) = 53).
    { unfold FloatOps.prec, SpecFloat.emin, FloatOps.emax in Hc. lia. }
    rewrite Hdig in Hd. change (2 ^ (53 - 1)) with 4503599627370496 in Hd.
    change (2 ^ 53) with 9007199254740992 in Hd.
    assert (Hm48 : e = -48 -> Z.pos m <= 5629499534213120).
    { intros ->. rewrite Z.compare_refl in E2.
      change (Pos.compare_cont Eq 5629499534213120 m)
        with (5629499534213120 ?= m)%positive in E2.
      destruct (5629499534213120 ?= m)%positive eqn:Ec.
      - apply Pos.compare_eq_iff in Ec. subst m. apply Z.le_refl.
      - discriminate E2.
      - apply Pos.compare_gt_iff in Ec. apply Z.lt_le_incl. exact Ec. }
    exists (Z.shiftl (Z.pos m) e). split; [reflexivity|].
    assert (Hk : e = -52 \/ e = -51 \/ e = -50 \/ e = -49 \/ e = -48) by lia.
    destruct Hk as [-> | [-> | [-> | [-> | ->]]]];
      rewrite Z.shiftl_div_pow2 by lia; simpl Z.opp;
      try specialize (Hm48 eq_refl).
    + change (2 ^ 52) with 4503599627370496.
      pose proof (Z.div_le_lower_bound (Z.pos m) 4503599627370496 1).
      pose proof (Z.div_lt_upper_bound (Z.pos m) 4503599627370496 2). lia.
    + change (2 ^ 51) with 2251799813685248.
      pose proof (Z.div_le_lower_bound (Z.pos m) 2251799813685248 2).
      pose proof (Z.div_lt_upper_bound (Z.pos m) 2251799813685248 4). lia.
    + change (2 ^ 50) with 1125899906842624.
      pose proof (Z.div_le_lower_bound (Z.pos m) 1125899906842624 4).
      pose proof (Z.div_lt_upper_bound (Z.pos m) 1125899906842624 8). lia.
    + change (2 ^ 49) with 562949953421312.
      pose proof (Z.div_le_lower_bound (Z.pos m) 562949953421312 8).
      pose proof (Z.div_lt_upper_bound (Z.pos m) 562949953421312 16). lia.
    + change (2 ^ 48) with 281474976710656.
      pose proof (Z.div_le_lower_bound (Z.pos m) 281474976710656 16).
      pose proof (Z.div_lt_upper_bound (Z.pos m) 281474976710656 21). lia.
Qed.

Lemma div_const_value (x c : float) :
  finiteNZ c = true -> hasValue x -> hasValue (x / c)%float.
Proof.
  unfold finiteNZ. destruct (Prim2SF c) as [| | |sc mc ec] eqn:Ec;
    try discriminate. intros _. exact (div_value x c sc mc ec Ec).
Qed.

Lemma mul_const_value (x c : float) :
  finiteNZ c = true -> hasValue x -> hasValue (x * c)%float.
Proof.
  unfold finiteNZ. destruct (Prim2SF c) as [| | |sc mc ec] eqn:Ec;
    try discriminate. intros _. exact (mul_value x c sc mc ec Ec).
Qed.

Lemma add_const_value (x c : float) :
  finiteNZ c = true -> hasValue x -> hasValue (x + c)%float.
Proof.
  unfold finiteNZ. destruct (Prim2SF c) as [| | |sc mc ec] eqn:Ec;
    try discriminate. intros _. exact (add_value x c sc mc ec Ec).
Qed.

(** The day count between two time values, as [calcDaYunPrecise]
    corrects it, and the age computed from it. *)
Lemma days_value (n : Z) :
  let d := (JS.of_Z n / Bazi.msPerDay)%float in
  hasValue (if (d <? 0)%float then (d + 365)%float else d).
Proof.
  intros d.
  assert (Hd : hasValue d).
  { apply div_const_value; [vm_compute; reflexivity|apply of_Z_value]. }
  destruct (d <? 0)%float; [|exact Hd].
  apply add_const_value; [vm_compute; reflexivity|exact Hd].
Qed.

Lemma age_value (d : float) :
  hasValue d -> hasValue (JS.Math_round (d / 3 * 10) / 10)%float.
Proof.
  intros Hd.
  apply div_const_value; [vm_compute; reflexivity|].
  apply Math_round_value.
  apply mul_const_value; [vm_compute; reflexivity|].
  apply div_const_value; [vm_compute; reflexivity|exact Hd].
Qed.

(** ** The neighbouring terms of a date are found *)

Lemma anchors_ok_1900_2100 :
  all_in 1900 201 (fun y => prev_anchor_ok y && next_anchor_ok y) = true.
Proof. vm_compute. reflexivity. Qed.

Lemma scan_year_keeps_prev (tbl : TermTable) (dn : Z) (ts : list Term)
    (prev : option (Term * TermDate)) :
  prev <> None -> fst (SolarTerms.scan_year tbl dn ts prev) <> None.
Proof.
  revert prev. induction ts as [|t ts IH]; intros prev Hp; simpl.
  - exact Hp.
  - destruct (lookup tbl t) as [td|]; [|now apply IH].
    destruct (_ <=? dn); [apply IH; discriminate|exact Hp].
Qed.

Lemma nearest_dates_found (year month day : Z) :
  1900 <= year <= 2100 -> 1 <= month -> 1 <= day ->
  exists near pd nd,
    SolarTerms.getNearestSolarTerm year month day = Some near
    /\ SolarTerms.prevDate near = Some pd
    /\ SolarTerms.nextDate near = Some nd.
Proof.
  intros Hy Hm Hd.
  pose proof (all_in_spec _ _ _ anchors_ok_1900_2100 year ltac:(lia)) as H.
  cbv beta in H. apply andb_prop in H as [Hp Hn].
  unfold prev_anchor_ok in Hp. unfold next_anchor_ok in Hn.
  unfold SolarTerms.getNearestSolarTerm.
  destruct (getSolarTerms_total year ltac:(lia)) as [t0 ->].
  destruct (SolarTerms.getSolarTerms (year - 1)) as [t1|]; [|discriminate].
  destruct (SolarTerms.getSolarTerms (year + 1)) as [t2|]; [|discriminate].
  cbn [obind].
  assert (Hprev : SolarTerms.scan_last t1 year
                    (SolarTerms.dateNum year month day) [DaXue; DongZhi] None
                  <> None).
  { cbn [SolarTerms.scan_last].
    destruct (lookup t1 DaXue) as [td|]; [|discriminate].
    destruct (lookup t1 DongZhi) as [td2|]; [|discriminate].
    apply Z.leb_le in Hp.
    set (n1 := SolarTerms.dateNum
                 (SolarTerms.orElse (td_year td) (year - 1)) _ _) in *.
    assert (E : (n1 <=? SolarTerms.dateNum year month day) = true).
    { apply Z.leb_le. unfold SolarTerms.dateNum in *. lia. }
    rewrite E. cbv iota. clear E.
    case_if; discriminate. }
  pose proof (scan_year_keeps_prev t0 (SolarTerms.dateNum year month day)
                termNames _ Hprev) as Hprev'.
  destruct (SolarTerms.scan_year _ _ _ _) as [prev next]. simpl in Hprev'.
  destruct prev as [[pt pd]|]; [|congruence].
  destruct next as [[nt nd]|]; cbn [obind].
  - eexists; exists pd, nd. repeat split.
  - destruct (SolarTerms.scan_first t2 [XiaoHan; DaHan]) as [[nt nd]|];
      [|discriminate].
    eexists; exists pd, nd. repeat split.
Qed.




(** * Further properties *)

(** ** Permutations of concrete lists *)

(** Proves [Permutation l r] for two closed lists by finding the head of
    [l] in [r], again and again. *)
Ltac perm_closed :=
  repeat
    (cbn [rev app];
     match goal with
     | |- Permutation [] [] => apply perm_nil
     | |- @Permutation ?A (?a :: _) ?r =>
         let rec go pre post :=
           match post with
           | a :: ?post' =>
               apply (Permutation_cons_app (rev pre) post' a)
           | ?b :: ?post' => go (b :: pre) post'
           end in
         go (@nil A) r
     end).

(** ** The life trigram ([src/js/fengshui-calc.js]) *)

Lemma rem10_digit (year : Z) :
  0 <= year ->
  JS.rem year 10 = 0 \/ JS.rem year 10 = 1 \/ JS.rem year 10 = 2
  \/ JS.rem year 10 = 3 \/ JS.rem year 10 = 4 \/ JS.rem year 10 = 5
  \/ JS.rem year 10 = 6 \/ JS.rem year 10 = 7 \/ JS.rem year 10 = 8
  \/ JS.rem year 10 = 9.
Proof.
  intros H. unfold JS.rem.
  pose proof (Z.rem_bound_pos year 10 H ltac:(lia)). lia.
Qed.

(** X1.  For a year that is not negative and any gender, [calcMingGua]
    returns a trigram number from 1 to 8, never 9, so the entry of
    [guaInfo] is found without the fallback; it returns two lucky and
    two unlucky directions, which together are the four directions of
    the trigram's own group. *)
Theorem calcMingGua_one_to_eight (year : Z) (gender : string) :
  0 <= year ->
  exists mg info,
    MingZhai.calcMingGua year gender = Some mg
    /\ 1 <= MingZhai.guaNum mg <= 8
    /\ JSObj.getZ (MingZhai.guaInfo gender) (MingZhai.guaNum mg) = Some info
    /\ MingZhai.name mg = MingZhai.gi_name info
    /\ MingZhai.type mg = MingZhai.gi_type info
    /\ List.length (MingZhai.luckyDirs mg) = 2%nat
    /\ List.length (MingZhai.unluckyDirs mg) = 2%nat
    /\ Permutation (MingZhai.luckyDirs mg ++ MingZhai.unluckyDirs mg)
                   (groupDirs (MingZhai.type mg)).
Proof.
  intros Hy. unfold MingZhai.calcMingGua, MingZhai.guaInfo.
  pose proof (rem10_digit year Hy) as Hd.
  destruct (String.eqb gender "m");
    repeat (destruct Hd as [Hd|Hd];
            [rewrite Hd; vm_compute; do 2 eexists;
             (split; [reflexivity|]); (split; [split; discriminate|]);
             (split; [reflexivity|]); do 4 (split; [reflexivity|]);
             perm_closed|]);
    (rewrite Hd; vm_compute; do 2 eexists;
     (split; [reflexivity|]); (split; [split; discriminate|]);
     (split; [reflexivity|]); do 4 (split; [reflexivity|]);
     perm_closed).
Qed.

Lemma calcMingGua_one_to_eight_witness :
  exists mg info,
    MingZhai.calcMingGua 1990 "f" = Some mg
    /\ 1 <= MingZhai.guaNum mg <= 8
    /\ JSObj.getZ (MingZhai.guaInfo "f") (MingZhai.guaNum mg) = Some info
    /\ MingZhai.name mg = MingZhai.gi_name info
    /\ MingZhai.type mg = MingZhai.gi_type info
    /\ List.length (MingZhai.luckyDirs mg) = 2%nat
    /\ List.length (MingZhai.unluckyDirs mg) = 2%nat
    /\ Permutation (MingZhai.luckyDirs mg ++ MingZhai.unluckyDirs mg)
                   (groupDirs (MingZhai.type mg)).
Proof. apply (calcMingGua_one_to_eight 1990 "f"). lia. Defined.

(** X2.  [calcMingZhai] alerts on a birth year that is NaN, 0 or
    outside 1900..2100.  On any other year it shows the trigram of
    [calcMingGua] with that trigram's own row of [calcPositions]: the
    four lucky and the four unlucky positions under their eight names,
    each with a description, on eight different compass directions, the
    first of them the first direction of the trigram. *)
Theorem calcMingZhai_eight_directions (gender : string) :
  (forall year, badYear year ->
     MingZhai.calcMingZhai year gender = Some (MingZhai.Alert birthYearMessage))
  /\ (forall year, 1900 <= year <= 2100 ->
      exists mg ps advice,
        MingZhai.calcMingGua year gender = Some mg
        /\ JSObj.getZ MingZhai.positions (MingZhai.guaNum mg) = Some ps
        /\ MingZhai.calcMingZhai (Some year) gender
           = Some (MingZhai.Render mg
                     (MingZhai.items (MingZhai.lucky ps) (MingZhai.luckyDetail ps))
                     (MingZhai.items (MingZhai.unlucky ps)
                                     (MingZhai.unluckyDetail ps))
                     advice)
        /\ map fst (MingZhai.items (MingZhai.lucky ps) (MingZhai.luckyDetail ps))
           = ["伏位"; "天医"; "生气"; "延年"]%string
        /\ map fst (MingZhai.items (MingZhai.unlucky ps)
                                   (MingZhai.unluckyDetail ps))
           = ["五鬼"; "六煞"; "祸害"; "绝命"]%string
        /\ forallb (fun it => JSObj.truthy (snd it))
             (MingZhai.items (MingZhai.lucky ps) (MingZhai.luckyDetail ps)
              ++ MingZhai.items (MingZhai.unlucky ps)
                                (MingZhai.unluckyDetail ps)) = true
        /\ Permutation
             (map direction_of (MingZhai.lucky ps ++ MingZhai.unlucky ps))
             eightDirs
        /\ hd_error (map direction_of (MingZhai.lucky ps))
           = hd_error (MingZhai.luckyDirs mg)).
Proof.
  split.
  - intros year [->|(y & -> & Hy)]; [reflexivity|].
    unfold MingZhai.calcMingZhai.
    destruct Hy as [Hy|Hy].
    + replace (y <? 1900) with true by (symmetry; apply Z.ltb_lt; lia).
      now rewrite orb_true_r.
    + replace (2100 <? y) with true by (symmetry; apply Z.ltb_lt; lia).
      now rewrite orb_true_r.
  - intros year Hy.
    unfold MingZhai.calcMingZhai.
    replace (year =? 0) with false by (symmetry; apply Z.eqb_neq; lia).
    replace (year <? 1900) with false by (symmetry; apply Z.ltb_ge; lia).
    replace (2100 <? year) with false by (symmetry; apply Z.ltb_ge; lia).
    cbn [orb].
    unfold MingZhai.calcMingGua, MingZhai.guaInfo.
    pose proof (rem10_digit year ltac:(lia)) as Hd.
    destruct (String.eqb gender "m");
      repeat (destruct Hd as [Hd|Hd];
              [rewrite Hd; do 3 eexists;
               do 6 (split; [vm_compute; reflexivity|]);
               (split; [vm_compute; perm_closed|vm_compute; reflexivity])|]);
      (rewrite Hd; do 3 eexists;
       do 6 (split; [vm_compute; reflexivity|]);
       (split; [vm_compute; perm_closed|vm_compute; reflexivity])).
Qed.

Lemma calcMingZhai_eight_directions_witness :
  MingZhai.calcMingZhai (Some 1899) "m" = Some (MingZhai.Alert birthYearMessage)
  /\ exists r l u a,
       MingZhai.calcMingZhai (Some 1984) "m" = Some (MingZhai.Render r l u a).
Proof.
  destruct (calcMingZhai_eight_directions "m") as [Ha Hr]. split.
  - apply Ha. right. exists 1899. split; [reflexivity|lia].
  - destruct (Hr 1984 ltac:(lia)) as (mg & ps & advice & _ & _ & H & _).
    do 4 eexists. exact H.
Defined.

(** X3.  The palace [getStarPositionForYear] returns, the one of the
    star 5, is 乾 from 2024 on, 兑 from 2004 to 2023 and 艮 before; its
    fallback 中宫 is never returned, for any year. *)
Theorem getStarPositionForYear_epochs (year : Z) :
  MingZhai.getStarPositionForYear year
  = (if 2024 <=? year then "乾"%string
     else if 2004 <=? year then "兑"%string else "艮"%string)
  /\ MingZhai.getStarPositionForYear year <> "中宫"%string.
Proof.
  unfold MingZhai.getStarPositionForYear, Fengshui.calcFlyingStars.
  destruct (2024 <=? year); [|destruct (2004 <=? year)];
    (split; [reflexivity|vm_compute; discriminate]).
Qed.

(** X4.  Whatever the year shown and the year of the clock,
    [renderFlyingStars] writes six cells, those of the rows 0 to 2 that
    hold a star, and marks exactly one of them as current: the cell of
    the top row whose palace [getStarPositionForYear] names for the
    year of the clock. *)
Theorem renderFlyingStars_marks_one_cell (year currentYear : Z) :
  let cs := MingZhai.renderFlyingStars year currentYear in
  map (fun c => Fengshui.position (fst c)) cs
  = ["艮"; "兑"; "乾"; "中宫"; "离"; "坎"]%string
  /\ exists c,
       filter snd cs = [c]
       /\ Fengshui.row (fst c) = 0
       /\ Fengshui.position (fst c)
          = MingZhai.getStarPositionForYear currentYear.
Proof.
  unfold MingZhai.renderFlyingStars, MingZhai.getStarPositionForYear,
    Fengshui.calcFlyingStars.
  destruct (2024 <=? year); [|destruct (2004 <=? year)];
    (destruct (2024 <=? currentYear); [|destruct (2004 <=? currentYear)]);
    vm_compute; (split; [reflexivity|]); eexists;
    (split; [reflexivity|]); split; reflexivity.
Qed.

(** ** Names of the tables *)

Lemma indexOf_from_nth (l : list string) (s : string) (i k : Z) :
  indexOf_from l s i = Some k ->
  i <= k < i + Z.of_nat (List.length l)
  /\ nth_error l (Z.to_nat (k - i)) = Some s.
Proof.
  revert i. induction l as [|x l IH]; intros i H; [discriminate|].
  cbn [indexOf_from] in H. destruct (String.eqb x s) eqn:E.
  - injection H as <-. apply String.eqb_eq in E. subst x.
    rewrite Z.sub_diag. cbn [List.length]. split; [lia|reflexivity].
  - destruct (IH _ H) as [Hk Hn]. cbn [List.length]. split; [lia|].
    replace (Z.to_nat (k - i)) with (S (Z.to_nat (k - (i + 1)))) by lia.
    exact Hn.
Qed.

(** A name of a table is the entry at one of its indices. *)
Lemma isName_index (tbl : list string) (v : option string) :
  isName tbl v = true ->
  exists k, 0 <= k < Z.of_nat (List.length tbl) /\ v = index tbl k.
Proof.
  unfold isName. destruct v as [s|]; [|discriminate].
  unfold indexOf. destruct (indexOf_from tbl s 0) as [k|] eqn:E; [|discriminate].
  intros _. destruct (indexOf_from_nth _ _ _ _ E) as [Hk Hn].
  exists k. split; [lia|]. unfold index.
  replace (k <? 0) with false by (symmetry; apply Z.ltb_ge; lia).
  rewrite Z.sub_0_r in Hn. now rewrite Hn.
Qed.

Lemma get_In {V} (o : list (string * V)) (k : string) (v : V) :
  JSObj.get o k = Some v -> In v (map snd o).
Proof.
  induction o as [|[k' v'] o IH]; [discriminate|].
  cbn [JSObj.get]. destruct (String.eqb k' k).
  - intros [= <-]. now left.
  - intros H. right. exact (IH H).
Qed.

(** ** Na-yin *)

Lemma nayin_ok_all : all_in 0 10 (fun i => all_in 0 12 (nayin_ok i)) = true.
Proof. vm_compute. reflexivity. Qed.

(** X5.  [getNayin] finds a name exactly for the sixty pairs of the
    cycle: for a stem and a branch of the tables at indices of one
    parity it returns a name, the same for the two pairs of one key of
    [NAYIN_60]; at indices of different parity it returns the
    placeholder. *)
Theorem getNayin_sixty_pairs (i j : Z) :
  0 <= i < 10 -> 0 <= j < 12 ->
  let n := BaziInfo.getNayin (index STEMS i) (index BRANCHES j) in
  ((i - j) mod 2 = 0 ->
   n <> "—"%string
   /\ n = BaziInfo.getNayin (index STEMS (keyMate i))
                            (index BRANCHES (keyMate j)))
  /\ ((i - j) mod 2 <> 0 -> n = "—"%string).
Proof.
  intros Hi Hj n.
  pose proof (all_in_spec _ _ _ (all_in_spec _ _ _ nayin_ok_all i ltac:(lia))
                j ltac:(lia)) as H.
  unfold nayin_ok in H. fold n in H.
  destruct ((i - j) mod 2 =? 0) eqn:E.
  - apply Z.eqb_eq in E. apply andb_prop in H as [H1 H2].
    apply String.eqb_eq in H2.
    split; [|intros; contradiction]. intros _. split; [|exact H2].
    intros Hn. rewrite Hn in H1. discriminate.
  - apply Z.eqb_neq in E. apply String.eqb_eq in H.
    split; [intros; contradiction|]. intros _. exact H.
Qed.

Lemma getNayin_sixty_pairs_witness :
  BaziInfo.getNayin (index STEMS 0) (index BRANCHES 0) <> "—"%string
  /\ BaziInfo.getNayin (index STEMS 0) (index BRANCHES 1) = "—"%string.
Proof.
  split.
  - apply (getNayin_sixty_pairs 0 0); [lia|lia|reflexivity].
  - apply (getNayin_sixty_pairs 0 1); [lia|lia|]. vm_compute. discriminate.
Defined.

(** ** Spirits *)

Lemma push_if_names (table : list (string * string)) (key : option string)
    (branches : list (option string)) (e : BaziInfo.Spirit)
    (result : list BaziInfo.Spirit) (n : string) :
  In n (map BaziInfo.sp_name (BaziInfo.push_if table key branches e result)) ->
  In n (map BaziInfo.sp_name result)
  \/ (n = BaziInfo.sp_name e
      /\ exists x, JSObj.getU table key = Some x
                   /\ JSObj.includes branches (Some x) = true).
Proof.
  unfold BaziInfo.push_if.
  destruct (JSObj.getU table key) as [x|]; [|now left].
  destruct (JSObj.truthy x); cbn [andb]; [|now left].
  destruct (JSObj.includes branches (Some x)) eqn:E; [|now left].
  rewrite map_app, in_app_iff. intros [H|[H|[]]]; [now left|].
  right. split; [now symmetry|]. now exists x.
Qed.

Lemma pushes_names (f : list BaziInfo.Spirit -> string -> list BaziInfo.Spirit)
    (e : BaziInfo.Spirit) (l : list string)
    (result : list BaziInfo.Spirit) (n : string) :
  (forall r b, f r b = r \/ f r b = r ++ [e]) ->
  In n (map BaziInfo.sp_name (fold_left f l result)) ->
  In n (map BaziInfo.sp_name result) \/ n = BaziInfo.sp_name e.
Proof.
  intros Hf. revert result. induction l as [|b l IH]; intros result H;
    [now left|].
  cbn [fold_left] in H. apply IH in H. destruct H as [H|H]; [|now right].
  destruct (Hf result b) as [E|E]; rewrite E in H; [now left|].
  rewrite map_app, in_app_iff in H. destruct H as [H|[H|[]]]; [now left|].
  now right.
Qed.

(** X6.  [calcShensha] never reports the canopy star 华盖星 for a chart
    whose year branch is 寅 or 卯: the table [HUAGAI] of its body has
    ten keys and these two branches are not among them. *)
Theorem calcShensha_no_canopy_for_yin_mao
    (pillars : list Bazi.Pillar) (p0 : Bazi.Pillar)
    (r : list BaziInfo.Spirit) :
  forallb named pillars = true ->
  nth_error pillars 0 = Some p0 ->
  Bazi.branch p0 = Some "寅"%string \/ Bazi.branch p0 = Some "卯"%string ->
  BaziInfo.calcShensha pillars = Some r ->
  ~ In "华盖星"%string (map BaziInfo.sp_name r).
Proof.
  intros _ H0 Hb H. unfold BaziInfo.calcShensha in H. rewrite H0 in H.
  cbn [obind] in H.
  destruct (nth_error pillars 1) as [p1|]; [|discriminate].
  destruct (nth_error pillars 2) as [p2|]; [|discriminate].
  destruct (nth_error pillars 3) as [p3|]; [|discriminate].
  cbn [obind] in H. injection H as <-. intros Hin.
  apply push_if_names in Hin. destruct Hin as [Hin|[Hn _]]; [|discriminate].
  apply push_if_names in Hin. destruct Hin as [Hin|[_ (x & Hx & _)]].
  - apply push_if_names in Hin. destruct Hin as [Hin|[Hn _]]; [|discriminate].
    apply push_if_names in Hin. destruct Hin as [Hin|[Hn _]]; [|discriminate].
    apply push_if_names in Hin. destruct Hin as [Hin|[Hn _]]; [|discriminate].
    destruct (JSObj.getU BaziInfo.TIANYI (Bazi.stem p2)) as [tianyi|];
      [|contradiction].
    eapply pushes_names in Hin.
    2: { intros r b. cbv beta. case_if; [right|left]; reflexivity. }
    destruct Hin as [[]|Hn]. discriminate.
  - destruct Hb as [Hb|Hb]; rewrite Hb in Hx; discriminate.
Qed.

Lemma calcShensha_no_canopy_for_yin_mao_witness :
  let p := (Bazi.mkPillar "年柱" (Some "甲") (Some "寅") (Some "木")
                          (Some "木") (Some "阳"))%string in
  let q := (Bazi.mkPillar "日柱" (Some "戊") (Some "申") (Some "土")
                          (Some "金") (Some "阳"))%string in
  exists r, BaziInfo.calcShensha [p; q; q; q] = Some r
            /\ ~ In "华盖星"%string (map BaziInfo.sp_name r).
Proof.
  intros p q. eexists. split; [reflexivity|].
  apply (calcShensha_no_canopy_for_yin_mao [p; q; q; q] p);
    [reflexivity|reflexivity|left; reflexivity|reflexivity].
Defined.

(** ** The twelve stages of [getChangseng] *)

(** X7.  For each of the ten stems [getChangseng] maps the twelve
    branches one-to-one onto the twelve stages; with a stem of the table
    and an undefined branch it returns the placeholder. *)
Theorem getChangseng_twelve_stages (i : Z) :
  0 <= i < 10 ->
  Permutation (stagesOf i) (map Some BaziInfo.CHANGSHENG_ORDER)
  /\ BaziInfo.getChangseng (index STEMS i) None = Some "—"%string.
Proof.
  intros Hi.
  assert (Hk : i = 0 \/ i = 1 \/ i = 2 \/ i = 3 \/ i = 4 \/ i = 5 \/ i = 6
               \/ i = 7 \/ i = 8 \/ i = 9) by lia.
  repeat (destruct Hk as [Hk|Hk];
          [subst i; split; [|reflexivity]; vm_compute; perm_closed|]).
  subst i; split; [|reflexivity]; vm_compute; perm_closed.
Qed.

Lemma getChangseng_twelve_stages_witness :
  Permutation (stagesOf 3) (map Some BaziInfo.CHANGSHENG_ORDER)
  /\ BaziInfo.getChangseng (index STEMS 3) None = Some "—"%string.
Proof. apply (getChangseng_twelve_stages 3). lia. Defined.

(** ** The ten gods *)

Lemma tenGod_ok_all : all_in 0 10 (fun i => all_in 0 10 (tenGod_ok i)) = true.
Proof. vm_compute. reflexivity. Qed.

(** X8.  [SHISHEN_MAP] follows the rule its comment states, but for four
    entries.  For a day stem and a target stem of the table [getTenGod]
    never returns the placeholder, and it returns the god that the
    relation of the two elements and the two polarities give (the same
    polarity the first name, different polarities the second), except
    for the day stems 庚 and 辛 with the targets 壬 and 癸: there the
    table has the two gods 食神 and 伤官 the other way round. *)
Theorem getTenGod_rule_but_four (i j : Z) :
  0 <= i < 10 -> 0 <= j < 10 ->
  let g := Part3Detail.getTenGod (index STEMS i) (index STEMS j) in
  g <> "—"%string
  /\ (offRule i j = false -> tenGodRule i j = Some g)
  /\ (offRule i j = true ->
      tenGodRule i (keyMate j) = Some g /\ tenGodRule i j <> Some g).
Proof.
  intros Hi Hj g.
  pose proof (all_in_spec _ _ _ (all_in_spec _ _ _ tenGod_ok_all i ltac:(lia))
                j ltac:(lia)) as H.
  unfold tenGod_ok in H. fold g in H.
  apply andb_prop in H as [H0 H].
  split; [intros E; rewrite E in H0; discriminate|].
  destruct (tenGodRule i j) as [r|]; [|discriminate].
  destruct (tenGodRule i (keyMate j)) as [r'|]; [|discriminate].
  destruct (offRule i j).
  - split; [discriminate|]. intros _.
    apply andb_prop in H as [H1 H2]. apply String.eqb_eq in H1.
    split; [now rewrite H1|]. intros [= E]. rewrite E, String.eqb_refl in H2.
    discriminate.
  - split; [|discriminate]. intros _. apply String.eqb_eq in H. now rewrite H.
Qed.

Lemma getTenGod_rule_but_four_witness :
  tenGodRule 0 6
  = Some (Part3Detail.getTenGod (index STEMS 0) (index STEMS 6))
  /\ tenGodRule 6 8
     <> Some (Part3Detail.getTenGod (index STEMS 6) (index STEMS 8)).
Proof.
  split.
  - apply (getTenGod_rule_but_four 0 6); [lia|lia|reflexivity].
  - apply (getTenGod_rule_but_four 6 8); [lia|lia|reflexivity].
Defined.

Lemma rows_have_no_branch :
  forallb row_has_no_branch (map snd Part3Detail.SHISHEN_MAP) = true.
Proof. vm_compute. reflexivity. Qed.

(** X9.  Asked for the god of a branch, as [renderBazi] asks for the
    branch of each luck pillar (line 1512), [getTenGod] answers with
    the placeholder: whatever the day stem, and whatever the index the
    branch is read at. *)
Theorem getTenGod_of_branch_is_placeholder (dayStem : option string) (j : Z) :
  Part3Detail.getTenGod dayStem (index BRANCHES j) = "—"%string.
Proof.
  unfold Part3Detail.getTenGod, JSObj.getU.
  destruct (JSObj.get Part3Detail.SHISHEN_MAP (JSObj.toString dayStem))
    as [row|] eqn:E; [|reflexivity].
  apply get_In in E.
  pose proof (proj1 (forallb_forall _ _) rows_have_no_branch row E) as Hrow.
  unfold row_has_no_branch in Hrow. rewrite forallb_forall in Hrow.
  assert (Hk : In (JSObj.toString (index BRANCHES j))
                  ("undefined"%string :: BRANCHES)).
  { unfold index. destruct (j <? 0); [now left|].
    destruct (nth_error BRANCHES (Z.to_nat j)) as [b|] eqn:Eb; [|now left].
    right. exact (nth_error_In _ _ Eb). }
  specialize (Hrow _ Hk).
  destruct (JSObj.get row _); [discriminate|reflexivity].
Qed.

(** ** Void branches *)

Lemma kongWang_ok_all :
  all_in 0 10 (fun i => all_in 0 12 (kongWang_ok i)) = true.
Proof. vm_compute. reflexivity. Qed.

(** X10.  For a stem and a branch of the tables [getKongWang] returns
    one of three answers, chosen by the tens digit of
    [(stemIdx * 12 + branchIdx) % 60]: 戌亥 for 0 and 4, 午未 for 2, and
    the placeholder pair for 1, 3 and 5; the other four pairs of void
    branches of [KONGWANG_MAP] are never returned. *)
Theorem getKongWang_three_answers (i j : Z) :
  0 <= i < 10 -> 0 <= j < 12 ->
  Part3Detail.getKongWang (index STEMS i) (index BRANCHES j)
  = kongWangByDecade i j.
Proof.
  intros Hi Hj.
  pose proof (all_in_spec _ _ _ (all_in_spec _ _ _ kongWang_ok_all i ltac:(lia))
                j ltac:(lia)) as H.
  unfold kongWang_ok, strs_eqb in H.
  destruct (list_eq_dec string_dec _ _) as [E|]; [exact E|discriminate].
Qed.

Lemma getKongWang_three_answers_witness :
  Part3Detail.getKongWang (index STEMS 1) (index BRANCHES 1)
  = ["—"; "—"]%string.
Proof. apply (getKongWang_three_answers 1 1); lia. Defined.

(** ** Spirits of one pillar *)

Lemma pillarShensha_ok_all :
  all_in 0 10 (fun i => all_in 0 12 (pillarShensha_ok i)) = true.
Proof. vm_compute. reflexivity. Qed.

(** X11.  For a pillar whose stem and branch are names of the tables,
    [getPillarShensha] never reports the peach blossom 桃花, and it
    reports the post horse 驿马 exactly when the branch is 寅, 巳, 申
    or 亥, whatever the stem. *)
Theorem getPillarShensha_peach_blossom_never (i j : Z) :
  0 <= i < 10 -> 0 <= j < 12 ->
  let r := Part3Detail.getPillarShensha (index STEMS i) (index BRANCHES j) in
  hasSpirit "桃花" r = false
  /\ (hasSpirit "驿马" r = true <-> j = 2 \/ j = 5 \/ j = 8 \/ j = 11).
Proof.
  intros Hi Hj r.
  pose proof (all_in_spec _ _ _
                (all_in_spec _ _ _ pillarShensha_ok_all i ltac:(lia))
                j ltac:(lia)) as H.
  unfold pillarShensha_ok in H. fold r in H.
  apply andb_prop in H as [H1 H2]. apply negb_true_iff in H1.
  apply Bool.eqb_prop in H2. rewrite H2. split; [exact H1|].
  rewrite !orb_true_iff, !Z.eqb_eq. tauto.
Qed.

Lemma getPillarShensha_peach_blossom_never_witness :
  let r := Part3Detail.getPillarShensha (index STEMS 0) (index BRANCHES 3) in
  hasSpirit "桃花" r = false
  /\ (hasSpirit "驿马" r = true <-> 3 = 2 \/ 3 = 5 \/ 3 = 8 \/ 3 = 11).
Proof. apply (getPillarShensha_peach_blossom_never 0 3); lia. Defined.

(** ** The year's direction and the relations of two branches *)

Lemma taishai_ok_all : all_in 0 12 taishai_ok = true.
Proof. vm_compute. reflexivity. Qed.

(** X12.  For every integer year, negative ones included,
    [getTaishai] returns one of the eight compass directions, never the
    empty string of its fallback, and the same direction twelve years
    later. *)
Theorem getTaishai_always_a_direction (year : Z) :
  In (Part3Detail.getTaishai year) eightDirs
  /\ Part3Detail.getTaishai (year + 12) = Part3Detail.getTaishai year.
Proof.
  unfold Part3Detail.getTaishai. rewrite !posmod_mod by lia.
  replace (year + 12 - 4) with (year - 4 + 1 * 12) by lia.
  rewrite Z.mod_add by lia. split; [|reflexivity].
  pose proof (Z.mod_pos_bound (year - 4) 12 ltac:(lia)) as Hb.
  pose proof (all_in_spec _ _ _ taishai_ok_all _ Hb) as H.
  unfold taishai_ok in H.
  destruct (JSObj.getU Part3Detail.dirs _) as [d|]; [|discriminate].
  apply andb_prop in H as [H1 H2]. rewrite H1.
  destruct (isName_index _ _ H2) as (k & Hk & E).
  unfold index in E. destruct (k <? 0); [discriminate|].
  symmetry in E. exact (nth_error_In _ _ E).
Qed.

Lemma relationship_ok_all :
  all_in 0 12 (fun i => all_in 0 12 (relationship_ok i)) = true.
Proof. vm_compute. reflexivity. Qed.

(** X13.  On two branches of the table [checkRelationship] is
    symmetric, finds nothing between a branch and itself, and answers
    冲 exactly when the two indices are 6 apart; with an undefined
    branch it returns the empty string. *)
Theorem checkRelationship_symmetric (i j : Z) :
  0 <= i < 12 -> 0 <= j < 12 ->
  let r := Part3Detail.checkRelationship (index BRANCHES i)
                                         (index BRANCHES j) in
  r = Part3Detail.checkRelationship (index BRANCHES j) (index BRANCHES i)
  /\ (i = j -> r = EmptyString)
  /\ (r = "冲"%string <-> Z.abs (i - j) = 6)
  /\ Part3Detail.checkRelationship None (index BRANCHES j) = EmptyString
  /\ Part3Detail.checkRelationship (index BRANCHES i) None = EmptyString.
Proof.
  intros Hi Hj r.
  pose proof (all_in_spec _ _ _
                (all_in_spec _ _ _ relationship_ok_all i ltac:(lia))
                j ltac:(lia)) as H.
  unfold relationship_ok in H. fold r in H.
  apply andb_prop in H as [H H3].
  apply andb_prop in H as [H1 H2].
  apply String.eqb_eq in H1. split; [exact H1|]. split.
  { intros E. apply Z.eqb_eq in E. rewrite E in H2.
    destruct r; [reflexivity|discriminate]. }
  split.
  { apply Bool.eqb_prop in H3.
    rewrite <- String.eqb_eq, <- Z.eqb_eq. now rewrite H3. }
  split; [reflexivity|].
  unfold Part3Detail.checkRelationship. cbn [JSObj.truthyU negb].
  now rewrite orb_true_r.
Qed.

Lemma checkRelationship_symmetric_witness :
  Part3Detail.checkRelationship (index BRANCHES 0) (index BRANCHES 6)
  = "冲"%string.
Proof.
  apply (checkRelationship_symmetric 0 6); [lia|lia|reflexivity].
Defined.

(** ** The small luck *)

Lemma eqU_eq (a b : option string) : JSObj.eqU a b = true -> a = b.
Proof.
  destruct a, b; cbn [JSObj.eqU]; try discriminate; [|reflexivity].
  intros H. apply String.eqb_eq in H. now subst.
Qed.

Lemma xiaoyun_ok_all : all_in 0 10 (fun s => all_in 0 12 (xiaoyun_ok s)) = true.
Proof. vm_compute. reflexivity. Qed.

(** X14.  On a date of the supported domain [calcXiaoyun] returns eight
    pillars for the ages 1 to 8.  The pillar of age [k] has the stem
    [k] places before the stem of the day, and the branch [k] places
    before the branch of the hour; so its stem and branch form one of
    the sixty pairs exactly when the day stem and the hour branch have
    one parity. *)
Theorem calcXiaoyun_counts_back (year month day h k : Z) :
  1900 <= year <= 2100 -> 1 <= month <= 12 -> 1 <= day <= 31 ->
  0 <= h <= 11 -> 1 <= k <= 8 ->
  exists sb l e,
    Part3.Jieqi.getDayStemBranch year month day = Some sb
    /\ Part3Detail.calcXiaoyun year month day h = Some l
    /\ List.length l = 8%nat
    /\ index l (k - 1) = Some e
    /\ Part3Detail.xy_age e = k
    /\ Part3Detail.xy_stemIdx e = (Part3.Jieqi.stemIdx sb - k) mod 10
    /\ Part3Detail.xy_branchIdx e = (h - k) mod 12
    /\ Part3Detail.xy_stem e = index STEMS (Part3Detail.xy_stemIdx e)
    /\ Part3Detail.xy_branch e = index BRANCHES (Part3Detail.xy_branchIdx e)
    /\ (sexagenary (Part3Detail.xy_stem e) (Part3Detail.xy_branch e) = true
        <-> (Part3.Jieqi.stemIdx sb - h) mod 2 = 0).
Proof.
  intros Hy Hm Hd Hh Hk.
  destruct (day_pillars_checked year month day Hy Hm Hd)
    as (s0 & b0 & sb & _ & Hsb & _ & _ & Hrange & _).
  apply sexagenary_idx_elim in Hrange. destruct Hrange as (Hs & _).
  pose proof (all_in_spec _ _ _
                (all_in_spec _ _ _ xiaoyun_ok_all (Part3.Jieqi.stemIdx sb)
                   ltac:(lia)) h ltac:(lia)) as H.
  unfold xiaoyun_ok in H. apply andb_prop in H as [Hl H].
  apply Nat.eqb_eq in Hl.
  pose proof (forallb_Zrange _ _ _ H k ltac:(lia)) as He. cbv beta in He.
  unfold Part3Detail.calcXiaoyun. rewrite Hsb. cbn [obind].
  destruct (index _ (k - 1)) as [e|] eqn:Ee; [|discriminate].
  exists sb, (Part3Detail.xiaoyun_from 8 0 (Part3.Jieqi.stemIdx sb) h), e.
  unfold xiaoyun_entry_ok in He.
  apply andb_prop in He as [He H6]. apply andb_prop in He as [He H5].
  apply andb_prop in He as [He H4]. apply andb_prop in He as [He H3].
  apply andb_prop in He as [H1 H2].
  apply Z.eqb_eq in H1, H2, H3. apply eqU_eq in H4, H5.
  apply Bool.eqb_prop in H6.
  repeat (split; [first [reflexivity | assumption | congruence]|]).
  rewrite H6. apply Z.eqb_eq.
Qed.

Lemma calcXiaoyun_counts_back_witness :
  exists l e,
    Part3Detail.calcXiaoyun 2000 1 7 1 = Some l
    /\ index l 0 = Some e
    /\ Part3Detail.xy_stemIdx e = 9 /\ Part3Detail.xy_branchIdx e = 0.
Proof.
  destruct (calcXiaoyun_counts_back 2000 1 7 1 1)
    as (sb & l & e & Hsb & Hl & _ & He & _ & Hs & Hb & _);
    [lia|lia|lia|lia|lia|].
  exists l, e. split; [exact Hl|]. split; [exact He|].
  injection Hsb as <-. split; [exact Hs|exact Hb].
Defined.

(** ** The detailed chart *)


Lemma named_indices (p : Bazi.Pillar) :
  named p = true ->
  exists s b, 0 <= s < 10 /\ 0 <= b < 12
              /\ Bazi.stem p = index STEMS s
              /\ Bazi.branch p = index BRANCHES b.
Proof.
  unfold named. intros H. apply andb_prop in H as [Hs Hb].
  destruct (isName_index _ _ Hs) as (s & Hs1 & Hs2).
  destruct (isName_index _ _ Hb) as (b & Hb1 & Hb2).
  exists s, b. cbn [List.length STEMS BRANCHES] in *.
  repeat split; try assumption; lia.
Qed.



Lemma shishen_ok_all : all_in 0 10 (fun i => all_in 0 10 (shishen_ok i)) = true.
Proof. vm_compute. reflexivity. Qed.

(** X16.  For four pillars whose stems are names of the table
    [calcShishen] returns three entries, those of the year, the month
    and the hour pillar in this order, the day pillar being left out;
    the god of each is the one [getTenGod] gives its stem against the
    day stem. *)
Theorem calcShishen_skips_the_day (p0 p1 p2 p3 : Bazi.Pillar) :
  forallb named [p0; p1; p2; p3] = true ->
  let god p := Some (Part3Detail.getTenGod (Bazi.stem p2) (Bazi.stem p)) in
  Part3Detail.calcShishen [p0; p1; p2; p3]
  = Some [ Part3Detail.mkShishen (Some "年柱"%string) (Bazi.stem p0)
             (Bazi.branch p0) (god p0) (Bazi.stemEle p0);
           Part3Detail.mkShishen (Some "月柱"%string) (Bazi.stem p1)
             (Bazi.branch p1) (god p1) (Bazi.stemEle p1);
           Part3Detail.mkShishen (Some "时柱"%string) (Bazi.stem p3)
             (Bazi.branch p3) (god p3) (Bazi.stemEle p3) ].
Proof.
  intros Hn god. rewrite forallb_forall in Hn.
  destruct (named_indices p2 (Hn p2 ltac:(cbn; tauto)))
    as (i & _ & Hi & _ & Ei & _).
  assert (Hg : forall p, In p [p0; p1; p2; p3] ->
           exists row,
             JSObj.getU Part3Detail.SHISHEN_MAP (Bazi.stem p2) = Some row
             /\ JSObj.getU row (Bazi.stem p) = god p).
  { intros p Hp. destruct (named_indices p (Hn p Hp)) as (s & _ & Hs & _ & Es & _).
    pose proof (all_in_spec _ _ _
                  (all_in_spec _ _ _ shishen_ok_all i ltac:(lia)) s ltac:(lia))
      as H.
    unfold shishen_ok in H. unfold god. rewrite Ei, Es.
    destruct (JSObj.getU Part3Detail.SHISHEN_MAP (index STEMS i)) as [row|];
      [|discriminate].
    exists row. split; [reflexivity|]. exact (eqU_eq _ _ H). }
  destruct (Hg p0 ltac:(cbn; tauto)) as (row & Hrow & H0).
  destruct (Hg p1 ltac:(cbn; tauto)) as (row1 & Hrow1 & H1).
  destruct (Hg p3 ltac:(cbn; tauto)) as (row3 & Hrow3 & H3).
  rewrite Hrow in Hrow1, Hrow3. injection Hrow1 as <-. injection Hrow3 as <-.
  unfold Part3Detail.calcShishen. cbn [nth_error obind].
  cbn [Part3Detail.calcShishen_from Z.eqb Z.add Pos.eqb Pos.add Pos.succ].
  rewrite Hrow. cbn [obind]. rewrite H0, H1, H3. reflexivity.
Qed.

Lemma calcShishen_skips_the_day_witness :
  let p := (Bazi.mkPillar "年柱" (Some "甲") (Some "寅") (Some "木")
                          (Some "木") (Some "阳"))%string in
  option_map (map Part3Detail.ss_position) (Part3Detail.calcShishen [p; p; p; p])
  = Some [Some "年柱"; Some "月柱"; Some "时柱"]%string.
Proof.
  intros p. rewrite (calcShishen_skips_the_day p p p p); reflexivity.
Defined.

(** ** The element tally *)

Lemma bump_tally5 (a b c d e : Z) (k : option string) :
  isName fiveElements k = true ->
  exists a' b' c' d' e',
    BaziInfo.bump (tally5 a b c d e) (JSObj.toString k) = tally5 a' b' c' d' e'
    /\ a <= a' /\ b <= b' /\ c <= c' /\ d <= d' /\ e <= e'
    /\ a' + b' + c' + d' + e' = a + b + c + d + e + 1.
Proof.
  intros H. destruct (isName_index _ _ H) as (i & Hi & ->).
  cbn [List.length fiveElements] in Hi.
  assert (Hk : i = 0 \/ i = 1 \/ i = 2 \/ i = 3 \/ i = 4) by lia.
  destruct Hk as [->|[->|[->|[->| ->]]]].
  - exists (Z.succ a), b, c, d, e. split; [reflexivity|lia].
  - exists a, (Z.succ b), c, d, e. split; [reflexivity|lia].
  - exists a, b, (Z.succ c), d, e. split; [reflexivity|lia].
  - exists a, b, c, (Z.succ d), e. split; [reflexivity|lia].
  - exists a, b, c, d, (Z.succ e). split; [reflexivity|lia].
Qed.

Lemma elemCount_from (pillars : list Bazi.Pillar) (a b c d e : Z) :
  forallb elements_named pillars = true ->
  exists a' b' c' d' e',
    fold_left
      (fun o p => BaziInfo.bump (BaziInfo.bump o (JSObj.toString (Bazi.stemEle p)))
                                (JSObj.toString (Bazi.branchEle p)))
      pillars (tally5 a b c d e)
    = tally5 a' b' c' d' e'
    /\ a <= a' /\ b <= b' /\ c <= c' /\ d <= d' /\ e <= e'
    /\ a' + b' + c' + d' + e'
       = a + b + c + d + e + 2 * Z.of_nat (List.length pillars).
Proof.
  revert a b c d e. induction pillars as [|p ps IH]; intros a b c d e H.
  - exists a, b, c, d, e. split; [reflexivity|cbn [List.length]; lia].
  - cbn [forallb] in H. apply andb_prop in H as [Hp Hps].
    unfold elements_named in Hp. apply andb_prop in Hp as [Hs Hb].
    destruct (bump_tally5 a b c d e _ Hs)
      as (a1 & b1 & c1 & d1 & e1 & E1 & ? & ? & ? & ? & ? & ?).
    destruct (bump_tally5 a1 b1 c1 d1 e1 _ Hb)
      as (a2 & b2 & c2 & d2 & e2 & E2 & ? & ? & ? & ? & ? & ?).
    destruct (IH a2 b2 c2 d2 e2 Hps)
      as (a3 & b3 & c3 & d3 & e3 & E3 & ? & ? & ? & ? & ? & ?).
    exists a3, b3, c3, d3, e3. cbn [fold_left]. rewrite E1, E2, E3.
    split; [reflexivity|]. cbn [List.length]. lia.
Qed.

(** The first entry of the stable sort is an entry that the comparator
    puts before every other, or level with it. *)
Lemma sort_by_head (cmp : Z -> Z -> Z) (R : Z -> Z -> Prop)
    (l : list (string * Z)) :
  (forall x y, cmp x y <= 0 <-> R x y) ->
  (forall x y, R x y \/ R y x) ->
  (forall x y z, R x y -> R y z -> R x z) ->
  l <> [] ->
  exists h t,
    BaziInfo.sort_by cmp l = h :: t
    /\ In h l /\ forall y, In y l -> R (snd h) (snd y).
Proof.
  intros Hcmp Htot Htrans. induction l as [|x l IH]; [congruence|]. intros _.
  cbn [BaziInfo.sort_by fold_right]. fold (BaziInfo.sort_by cmp l).
  destruct l as [|x' l'].
  - exists x, []. split; [reflexivity|]. split; [now left|].
    intros y [<-|[]]. destruct (Htot (snd x) (snd x)); assumption.
  - destruct (IH ltac:(discriminate)) as (h & t & E & Hin & Hmax).
    rewrite E. cbn [BaziInfo.insert_by].
    destruct (cmp (snd x) (snd h) <=? 0) eqn:Ec.
    + apply Z.leb_le, Hcmp in Ec.
      exists x, (h :: t). split; [reflexivity|]. split; [now left|].
      intros y [<-|Hy].
      * destruct (Htot (snd x) (snd x)); assumption.
      * exact (Htrans _ _ _ Ec (Hmax y Hy)).
    + apply Z.leb_gt in Ec.
      assert (Hhx : R (snd h) (snd x)).
      { destruct (Htot (snd h) (snd x)) as [H|H]; [exact H|].
        apply Hcmp in H. lia. }
      eexists h, _. split; [reflexivity|]. split; [now right|].
      intros y [<-|Hy]; [exact Hhx|exact (Hmax y Hy)].
Qed.

(** X17.  For four pillars whose elements are names of the five
    elements, the tally [elemCount] of [calcBaziPillars] keeps its five
    keys and its counts add up to 8; [maxEle] and [minEle] are an
    element of the highest and one of the lowest count, and since 8 is
    not a multiple of 5 these two counts, and so the two elements,
    always differ. *)
Theorem elemCount_strongest_is_not_weakest (pillars : list Bazi.Pillar) :
  List.length pillars = 4%nat ->
  forallb elements_named pillars = true ->
  exists a b c d e hi lo nhi nlo,
    BaziInfo.elemCount pillars = tally5 a b c d e
    /\ a + b + c + d + e = 8
    /\ BaziInfo.maxEle (BaziInfo.elemCount pillars) = Some hi
    /\ BaziInfo.minEle (BaziInfo.elemCount pillars) = Some lo
    /\ countOf (BaziInfo.elemCount pillars) hi = Some nhi
    /\ countOf (BaziInfo.elemCount pillars) lo = Some nlo
    /\ (forall n, In n [a; b; c; d; e] -> nlo <= n <= nhi)
    /\ nlo < nhi
    /\ hi <> lo.
Proof.
  intros Hlen Hn.
  destruct (elemCount_from pillars 0 0 0 0 0 Hn)
    as (a & b & c & d & e & E & Ha & Hb & Hc & Hd & He & Hsum).
  rewrite Hlen in Hsum.
  exists a, b, c, d, e.
  unfold BaziInfo.elemCount.
  fold (tally5 0 0 0 0 0). rewrite E.
  set (es := [("木", a); ("火", b); ("土", c); ("金", d); ("水", e)]%string).
  assert (Hc5 : BaziInfo.counts (tally5 a b c d e) = Some es) by reflexivity.
  destruct (sort_by_head (fun x y => y - x) (fun x y => y <= x) es)
    as ([hi nhi] & t & Ehi & Hhi & Hmax);
    [intros; lia|intros; lia|intros; lia|discriminate|].
  destruct (sort_by_head (fun x y => x - y) (fun x y => x <= y) es)
    as ([lo nlo] & t' & Elo & Hlo & Hmin);
    [intros; lia|intros; lia|intros; lia|discriminate|].
  exists hi, lo, nhi, nlo.
  split; [reflexivity|]. split; [lia|].
  unfold BaziInfo.maxEle, BaziInfo.minEle. rewrite Hc5. cbn [obind].
  rewrite Ehi, Elo. split; [reflexivity|]. split; [reflexivity|].
  assert (Hall : forall n, In n [a; b; c; d; e] -> nlo <= n <= nhi).
  { intros n Hin.
    assert (Hk : exists k, In (k, n) es).
    { unfold es. cbn [In] in Hin |- *.
      destruct Hin as [<-|[<-|[<-|[<-|[<-|[]]]]]]; eexists; eauto 6. }
    destruct Hk as [k Hk].
    pose proof (Hmax _ Hk). pose proof (Hmin _ Hk). cbn [snd] in *. lia. }
  assert (Hlt : nlo < nhi).
  { pose proof (Hall a ltac:(cbn; tauto)). pose proof (Hall b ltac:(cbn; tauto)).
    pose proof (Hall c ltac:(cbn; tauto)). pose proof (Hall d ltac:(cbn; tauto)).
    pose proof (Hall e ltac:(cbn; tauto)). lia. }
  unfold es in Hhi, Hlo. cbn [In] in Hhi, Hlo.
  destruct Hhi as [Hhi|[Hhi|[Hhi|[Hhi|[Hhi|[]]]]]];
    injection Hhi as <- <-;
    destruct Hlo as [Hlo|[Hlo|[Hlo|[Hlo|[Hlo|[]]]]]];
    injection Hlo as <- <-;
    (split; [reflexivity|]); (split; [reflexivity|]);
    (split; [exact Hall|]); (split; [exact Hlt|]);
    first [discriminate | lia].
Qed.

Lemma elemCount_strongest_is_not_weakest_witness :
  let p := (Bazi.mkPillar "年柱" (Some "甲") (Some "寅") (Some "木")
                          (Some "火") (Some "阳"))%string in
  exists hi lo,
    BaziInfo.maxEle (BaziInfo.elemCount [p; p; p; p]) = Some hi
    /\ BaziInfo.minEle (BaziInfo.elemCount [p; p; p; p]) = Some lo
    /\ hi <> lo.
Proof.
  intros p.
  destruct (elemCount_strongest_is_not_weakest [p; p; p; p])
    as (a & b & c & d & e & hi & lo & nhi & nlo & _ & _ & Hhi & Hlo & _ & _
        & _ & _ & Hne); [reflexivity|reflexivity|].
  exists hi, lo. split; [exact Hhi|]. split; [exact Hlo|exact Hne].
Defined.

(** ** The entries of a solar-term table *)

Lemma fill_terms_entries (year : Z) (names : list Term) (i : Z)
    (tbl : TermTable) :
  SolarTerms.fill_terms year i names = Some tbl ->
  map fst tbl = names
  /\ forall t d, In (t, d) tbl ->
       td_year d = year /\ 1 <= td_month d <= 12
       /\ exists n, index (SolarTerms.monthDays year) (td_month d - 1) = Some n
                    /\ td_day d <= n.
Proof.
  revert i tbl. induction names as [|t0 names IH]; intros i tbl H.
  - injection H as <-. split; [reflexivity|]. intros t d [].
  - cbn [SolarTerms.fill_terms] in H.
    destruct (SolarTerms.getDaysFromNewYear year i) as [[[[m dd] hh] mi]|] eqn:E;
      [|discriminate].
    cbn [obind] in H.
    destruct (SolarTerms.fill_terms year (i + 1) names) as [rest|] eqn:Er;
      [|discriminate].
    cbn [obind] in H. injection H as <-.
    destruct (IH _ _ Er) as [Hk Hrest].
    split; [cbn [map fst]; now rewrite Hk|].
    intros t d [Hin|Hin]; [|exact (Hrest _ _ Hin)].
    injection Hin as _ <-.
    unfold SolarTerms.getDaysFromNewYear in E.
    destruct (index SolarTerms.base i) as [[[[bm bd] bh] bmin]|] eqn:Eb;
      [|discriminate].
    cbn [obind] in E.
    destruct (index SolarTerms.termOffsets i); [|discriminate].
    cbn [obind] in E.
    destruct (JS.floorZ _) as [day|]; [|discriminate].
    cbn [obind] in E.
    destruct (carry_month_exits year (Z.to_nat day) bm day
                (base_month _ _ _ _ _ Eb) ltac:(lia))
      as (m' & d' & n & Hc & Hm' & Hn & Hd').
    rewrite Hc in E. injection E as <- <- <- <-.
    replace (12 <? m') with false by (symmetry; apply Z.ltb_ge; lia).
    cbn [td_year td_month td_day]. split; [reflexivity|]. split; [lia|].
    now exists n.
Qed.

(** X18.  Whenever [getSolarTerms] returns a table, the table has the
    24 terms as its keys, in the order of [termNames]; every entry
    carries the input year, a month from 1 to 12 and a day number that
    is not past the end of that month. *)
Theorem getSolarTerms_entries_shape (year : Z) (tbl : TermTable) :
  SolarTerms.getSolarTerms year = Some tbl ->
  map fst tbl = termNames
  /\ forall t d, In (t, d) tbl ->
       td_year d = year /\ 1 <= td_month d <= 12
       /\ exists n, index (SolarTerms.monthDays year) (td_month d - 1) = Some n
                    /\ td_day d <= n.
Proof. apply fill_terms_entries. Qed.

Lemma getSolarTerms_entries_shape_witness :
  exists tbl,
    SolarTerms.getSolarTerms 2024 = Some tbl /\ map fst tbl = termNames.
Proof.
  eexists. split; [reflexivity|].
  apply (getSolarTerms_entries_shape 2024). reflexivity.
Defined.

Lemma days_from_one_1900_2100 : all_in 1900 201 days_from_one = true.
Proof. vm_compute. reflexivity. Qed.

(** X19.  The day numbers [getSolarTerms] stores are days of a month
    only from 1972 on: for a year from 1972 to 2100 every entry has a
    day number of 1 or more, and for every year from 1900 to 1971 the
    table holds a day number below 1. *)
Theorem getSolarTerms_days_from_1972 (year : Z) :
  1900 <= year <= 2100 ->
  exists tbl,
    SolarTerms.getSolarTerms year = Some tbl
    /\ ((forall t d, In (t, d) tbl -> 1 <= td_day d) <-> 1972 <= year).
Proof.
  intros Hy.
  pose proof (all_in_spec _ _ _ days_from_one_1900_2100 year ltac:(lia)) as H.
  unfold days_from_one in H.
  destruct (SolarTerms.getSolarTerms year) as [tbl|]; [|discriminate].
  exists tbl. split; [reflexivity|].
  apply Bool.eqb_prop in H. rewrite <- Z.leb_le, <- H, forallb_forall.
  split.
  - intros Hall [t d] Hin. apply Z.leb_le. exact (Hall t d Hin).
  - intros Hall t d Hin. apply Z.leb_le. exact (Hall (t, d) Hin).
Qed.

Lemma getSolarTerms_days_from_1972_witness :
  exists tbl t d,
    SolarTerms.getSolarTerms 1950 = Some tbl
    /\ In (t, d) tbl /\ td_day d < 1.
Proof.
  destruct (getSolarTerms_days_from_1972 1950 ltac:(lia)) as (tbl & E & _).
  exists tbl. vm_compute in E. injection E as <-.
  do 2 eexists. split; [reflexivity|]. split; [left; reflexivity|].
  vm_compute. reflexivity.
Defined.

(** ** The day on which the year pillar changes *)

Lemma lichun_drift_1900_2100 : all_in 1900 201 lichun_drift = true.
Proof. vm_compute. reflexivity. Qed.

(** X20.  The start of spring that [getYearFromSolarTerm] compares with
    drifts with the year.  For a birth year from 1900 to 1975 it is not
    after 1 February, so the year pillar is the previous year's exactly
    for the births of January; for a birth year from 2089 to 2100 it is
    in March, so every birth of January and February has the previous
    year's pillar. *)
Theorem year_pillar_boundary_drifts (year month day : Z) :
  1900 <= year <= 2100 -> 1 <= month <= 12 -> 1 <= day <= 31 ->
  exists info,
    Bazi.getYearFromSolarTerm year month day = Some info
    /\ (year <= 1975 ->
        Bazi.actualYear info = if month =? 1 then year - 1 else year)
    /\ (2089 <= year -> month <= 2 -> Bazi.actualYear info = year - 1).
Proof.
  intros Hy Hm Hd.
  pose proof (all_in_spec _ _ _ lichun_drift_1900_2100 year ltac:(lia)) as H.
  unfold lichun_drift in H. unfold Bazi.getYearFromSolarTerm.
  destruct (SolarTerms.getSolarTerms year) as [tbl|]; [|discriminate].
  cbn [obind].
  destruct (lookup tbl LiChun) as [l|]; [|discriminate].
  apply andb_prop in H as [H H2]. apply andb_prop in H as [H0 H1].
  apply Z.eqb_eq in H0.
  eexists. split; [reflexivity|]. cbn [Bazi.actualYear].
  unfold SolarTerms.dateNum. rewrite H0. split.
  - intros Hearly.
    replace (year <=? 1975) with true in H1 by (symmetry; apply Z.leb_le; lia).
    apply andb_prop in H1 as [H1 Hhi]. apply andb_prop in H1 as [Hmo Hlo].
    apply Z.eqb_eq in Hmo. apply Z.leb_le in Hlo, Hhi. rewrite Hmo.
    destruct (month =? 1) eqn:E1.
    + apply Z.eqb_eq in E1.
      replace (_ <? _) with true by (symmetry; apply Z.ltb_lt; lia).
      reflexivity.
    + apply Z.eqb_neq in E1.
      replace (_ <? _) with false by (symmetry; apply Z.ltb_ge; lia).
      reflexivity.
  - intros Hlate Hfeb.
    replace (2089 <=? year) with true in H2 by (symmetry; apply Z.leb_le; lia).
    apply andb_prop in H2 as [Hmo Hlo].
    apply Z.eqb_eq in Hmo. apply Z.leb_le in Hlo. rewrite Hmo.
    replace (_ <? _) with true by (symmetry; apply Z.ltb_lt; lia).
    reflexivity.
Qed.

Lemma year_pillar_boundary_drifts_witness :
  exists info,
    Bazi.getYearFromSolarTerm 1950 2 1 = Some info
    /\ Bazi.actualYear info = 1950.
Proof.
  destruct (year_pillar_boundary_drifts 1950 2 1) as (info & E & H & _);
    [lia|lia|lia|].
  exists info. split; [exact E|]. apply H. lia.
Defined.

(** ** The two terms around a date *)

Lemma next_anchor_after_1900_2100 : all_in 1900 201 next_anchor_after = true.
Proof. vm_compute. reflexivity. Qed.

Lemma scan_last_before (tbl : TermTable) (year dn : Z) (ts : list Term)
    (prev : option (Term * TermDate)) :
  (forall t d, In (t, d) tbl -> td_year d <> 0) ->
  (forall p, prev = Some p -> termNum (snd p) <= dn) ->
  forall p, SolarTerms.scan_last tbl year dn ts prev = Some p ->
            termNum (snd p) <= dn.
Proof.
  intros Hyr. revert prev. induction ts as [|t ts IH]; intros prev Hp p H.
  - exact (Hp p H).
  - cbn [SolarTerms.scan_last] in H.
    destruct (lookup tbl t) as [td|] eqn:El; [|exact (IH _ Hp _ H)].
    refine (IH _ _ _ H). intros q Hq.
    destruct (_ <=? dn) eqn:E; [|exact (Hp q Hq)].
    injection Hq as <-. apply Z.leb_le in E. cbn [snd]. unfold termNum.
    assert (Hin : exists k, In (k, td) tbl).
    { clear - El. induction tbl as [|[k v] tbl IHt]; [discriminate|].
      cbn [lookup] in El. destruct (Term_eqb k t).
      - injection El as ->. exists k. now left.
      - destruct (IHt El) as [k' Hk']. exists k'. now right. }
    destruct Hin as [k Hk]. specialize (Hyr _ _ Hk).
    unfold SolarTerms.orElse in E.
    destruct (td_year td =? 0) eqn:E0; [apply Z.eqb_eq in E0; contradiction|].
    exact E.
Qed.

Lemma scan_year_brackets (tbl : TermTable) (dn : Z) (ts : list Term)
    (prev : option (Term * TermDate)) :
  (forall p, prev = Some p -> termNum (snd p) <= dn) ->
  (forall p, fst (SolarTerms.scan_year tbl dn ts prev) = Some p ->
             termNum (snd p) <= dn)
  /\ (forall n, snd (SolarTerms.scan_year tbl dn ts prev) = Some n ->
                dn < termNum (snd n)).
Proof.
  revert prev. induction ts as [|t ts IH]; intros prev Hp.
  - cbn [SolarTerms.scan_year fst snd]. split; [exact Hp|discriminate].
  - cbn [SolarTerms.scan_year].
    destruct (lookup tbl t) as [td|]; [|exact (IH _ Hp)].
    fold (termNum td).
    destruct (termNum td <=? dn) eqn:E.
    + apply IH. intros p [= <-]. apply Z.leb_le in E. exact E.
    + cbn [fst snd]. split; [exact Hp|].
      intros n [= <-]. apply Z.leb_gt in E. exact E.
Qed.

(** X21.  For a date of the supported domain [getNearestSolarTerm]
    returns a previous and a next term that bracket the date in the
    comparable numbers it computes: the previous term is not after the
    date and the next term is after it. *)
Theorem getNearestSolarTerm_brackets (year month day : Z) :
  1900 <= year <= 2100 -> 1 <= month <= 12 -> 1 <= day <= 31 ->
  exists near pd nd,
    SolarTerms.getNearestSolarTerm year month day = Some near
    /\ SolarTerms.prevDate near = Some pd
    /\ SolarTerms.nextDate near = Some nd
    /\ termNum pd <= SolarTerms.dateNum year month day < termNum nd.
Proof.
  intros Hy Hm Hd.
  pose proof (all_in_spec _ _ _ anchors_ok_1900_2100 year ltac:(lia)) as H.
  cbv beta in H. apply andb_prop in H as [Hpa _].
  unfold prev_anchor_ok in Hpa.
  pose proof (all_in_spec _ _ _ next_anchor_after_1900_2100 year ltac:(lia))
    as Hna.
  unfold next_anchor_after in Hna.
  unfold SolarTerms.getNearestSolarTerm.
  destruct (getSolarTerms_total year ltac:(lia)) as [t0 ->].
  destruct (SolarTerms.getSolarTerms (year - 1)) as [t1|] eqn:E1;
    [|discriminate].
  destruct (SolarTerms.getSolarTerms (year + 1)) as [t2|]; [|discriminate].
  cbn [obind].
  set (dn := SolarTerms.dateNum year month day).
  assert (Hprev : SolarTerms.scan_last t1 year dn [DaXue; DongZhi] None
                  <> None).
  { cbn [SolarTerms.scan_last].
    destruct (lookup t1 DaXue) as [td|]; [|discriminate].
    destruct (lookup t1 DongZhi) as [td2|]; [|discriminate].
    apply Z.leb_le in Hpa.
    set (n1 := SolarTerms.dateNum
                 (SolarTerms.orElse (td_year td) (year - 1)) _ _) in *.
    assert (E : (n1 <=? dn) = true).
    { apply Z.leb_le. unfold dn, SolarTerms.dateNum in *. lia. }
    rewrite E. cbv iota. clear E.
    case_if; discriminate. }
  assert (Hprev0 : forall p,
            SolarTerms.scan_last t1 year dn [DaXue; DongZhi] None = Some p ->
            termNum (snd p) <= dn).
  { apply scan_last_before; [|discriminate].
    intros t d Hin.
    destruct (getSolarTerms_same_year _ _ E1 t d Hin) as [-> _]. lia. }
  pose proof (scan_year_keeps_prev t0 dn termNames _ Hprev) as Hkeep.
  destruct (scan_year_brackets t0 dn termNames _ Hprev0) as [Hp Hn].
  destruct (SolarTerms.scan_year t0 dn termNames _) as [prev next].
  cbn [fst snd] in Hkeep, Hp, Hn.
  destruct prev as [[pt pd]|]; [|congruence].
  specialize (Hp _ eq_refl). cbn [snd] in Hp.
  destruct next as [[nt nd]|]; cbn [obind].
  - specialize (Hn _ eq_refl). cbn [snd] in Hn.
    eexists; exists pd, nd. repeat split; assumption.
  - cbn [SolarTerms.scan_first] in Hna |- *.
    destruct (lookup t2 XiaoHan) as [nd|];
      [|destruct (lookup t2 DaHan) as [nd|]; [|discriminate]];
      (eexists; exists pd, nd; repeat split; [exact Hp|]);
      apply Z.ltb_lt in Hna; unfold termNum, dn, SolarTerms.dateNum in *; lia.
Qed.

Lemma getNearestSolarTerm_brackets_witness :
  exists near pd nd,
    SolarTerms.getNearestSolarTerm 2000 2 8 = Some near
    /\ SolarTerms.prevDate near = Some pd
    /\ SolarTerms.nextDate near = Some nd
    /\ termNum pd <= SolarTerms.dateNum 2000 2 8 < termNum nd.
Proof. apply (getNearestSolarTerm_brackets 2000 2 8); lia. Defined.

(** ** The charts of the two revisions *)

Lemma getSolarTerms_1898 :
  exists tbl, SolarTerms.getSolarTerms 1898 = Some tbl.
Proof. eexists. vm_compute. reflexivity. Qed.

Lemma getNearestSolarTerm_total_1899 (year month day : Z) :
  1899 <= year <= 2100 ->
  exists near, SolarTerms.getNearestSolarTerm year month day = Some near.
Proof.
  intros Hy. unfold SolarTerms.getNearestSolarTerm.
  destruct (getSolarTerms_total year ltac:(lia)) as [t0 ->].
  assert (H1 : exists t1, SolarTerms.getSolarTerms (year - 1) = Some t1).
  { destruct (Z.eq_dec year 1899) as [->|].
    - exact getSolarTerms_1898.
    - apply getSolarTerms_total. lia. }
  destruct H1 as [t1 ->].
  destruct (getSolarTerms_total (year + 1) ltac:(lia)) as [t2 ->].
  cbn [obind].
  destruct (SolarTerms.scan_year _ _ _ _) as [prev [next|]];
    cbn [obind]; eexists; reflexivity.
Qed.

(** The onset age is an integer from 1 to 20. *)
Lemma calcDaYunPrecise_age (Date_ms : Z -> Z -> Z -> Z -> Z -> Z)
    (year month day hour minute : Z) (gender : string) (yearStemIdx : Z) :
  1900 <= year <= 2100 -> 1 <= month <= 12 -> 1 <= day <= 31 ->
  exists r age,
    Bazi.calcDaYunPrecise Date_ms year month day hour minute gender yearStemIdx
    = Some r
    /\ Bazi.startAge r = JS.of_Z age /\ 1 <= age <= 20.
Proof.
  intros Hy Hm Hd.
  destruct (nearest_dates_found year month day Hy ltac:(lia) ltac:(lia))
    as (near & pd & nd & Hn & Hpd & Hnd).
  unfold Bazi.calcDaYunPrecise. rewrite Hn. cbn [obind]. rewrite Hpd, Hnd.
  set (toNext := Date_ms _ _ _ _ _ - Date_ms year _ _ _ _).
  set (fromPrev := Date_ms year _ _ _ _ - Date_ms _ _ _ _ _).
  pose proof (days_value toNext) as HtoNext.
  pose proof (days_value fromPrev) as HfromPrev.
  cbv zeta in HtoNext, HfromPrev.
  set (daysToNext :=
         if (JS.of_Z toNext / _ <? 0)%float then _ else _) in *.
  set (daysFromPrev :=
         if (JS.of_Z fromPrev / _ <? 0)%float then _ else _) in *.
  destruct (_ || _).
  - destruct (clampAge_range _ (age_value daysToNext HtoNext))
      as (age & Hage & Hr).
    eexists; exists age. split; [reflexivity|].
    cbn [Bazi.startAge]. split; [assumption|lia].
  - destruct (clampAge_range _ (age_value daysFromPrev HfromPrev))
      as (age & Hage & Hr).
    eexists; exists age. split; [reflexivity|].
    cbn [Bazi.startAge]. split; [assumption|lia].
Qed.

Lemma month_idx_ok_all (later : bool) :
  all_in 0 10 (fun ys => all_in 0 12 (month_idx_ok later ys)) = true.
Proof. destruct later; vm_compute; reflexivity. Qed.

Lemma luck_idx_ok_all (forward : bool) :
  all_in 0 10
    (fun ms => all_in 0 12
       (fun mb => all_in 0 8 (luck_idx_ok forward ms mb))) = true.
Proof. destruct forward; vm_compute; reflexivity. Qed.

Lemma luck_age_ok_all :
  all_in 1 20 (fun a => all_in 0 8 (luck_age_ok a)) = true.
Proof. vm_compute. reflexivity. Qed.

Lemma Zrange_cons (lo : Z) (n : nat) :
  Zrange lo (S n) = lo :: Zrange (lo + 1) n.
Proof.
  unfold Zrange. cbn [seq map]. rewrite Z.add_0_r. f_equal.
  rewrite <- seq_shift, map_map. apply map_ext. intros k. lia.
Qed.

(** The entry [k] of the loop of the luck pillars. *)
Lemma daYun_from_entry (n : nat) (i : Z) (startAge : float) (forward : bool)
    (ms mb k : Z) :
  i <= k < i + Z.of_nat n ->
  nth_error (Bazi.daYun_from n i startAge forward ms mb) (Z.to_nat (k - i))
  = Some (let offset := if forward then k + 1 else - (k + 1) in
          let dyIdx := JS.rem (ms + offset + 100) 10 in
          let dyBIdx := JS.rem (mb + offset + 120) 12 in
          Bazi.mkDaYun (startAge + JS.of_Z (k * 10))%float
            (startAge + JS.of_Z (k * 10) + 9)%float
            (index STEMS dyIdx) (index BRANCHES dyBIdx)
            (index Bazi.STEM_ELEMENTS dyIdx)
            (index Bazi.BRANCH_ELEMENTS dyBIdx)).
Proof.
  revert i. induction n as [|n IH]; intros i Hk; [lia|].
  cbn [Bazi.daYun_from].
  destruct (Z.eq_dec k i) as [->|Hne].
  - rewrite Z.sub_diag. reflexivity.
  - replace (Z.to_nat (k - i)) with (S (Z.to_nat (k - (i + 1)))) by lia.
    cbn [nth_error]. apply IH. lia.
Qed.

Lemma daYun_from_length (n : nat) (i : Z) (startAge : float) (forward : bool)
    (ms mb : Z) :
  List.length (Bazi.daYun_from n i startAge forward ms mb) = n.
Proof.
  revert i. induction n as [|n IH]; intros i; [reflexivity|].
  cbn [Bazi.daYun_from List.length]. now rewrite IH.
Qed.

(** The luck pillars drawn from month indices of one parity. *)
Lemma daYun_from_luck (a : Z) (forward : bool) (ms mb k : Z) :
  1 <= a <= 20 -> 0 <= ms < 10 -> 0 <= mb < 12 -> (ms - mb) mod 2 = 0 ->
  0 <= k < 8 ->
  exists d,
    index (Bazi.daYun_from 8 0 (JS.of_Z a) forward ms mb) k = Some d
    /\ luck_entry a forward ms ((mb + 2) mod 12) k d.
Proof.
  intros Ha Hms Hmb Hpar Hk.
  pose proof (daYun_from_entry 8 0 (JS.of_Z a) forward ms mb k ltac:(lia)) as E.
  rewrite Z.sub_0_r in E. unfold index.
  replace (k <? 0) with false by (symmetry; apply Z.ltb_ge; lia).
  rewrite E. eexists. split; [reflexivity|].
  pose proof (all_in_spec _ _ _
                (all_in_spec _ _ _ luck_age_ok_all a ltac:(lia)) k ltac:(lia))
    as Hage.
  unfold luck_age_ok in Hage. apply andb_prop in Hage as [Hage1 Hage2].
  apply FloatAxioms.Leibniz.eqb_spec in Hage1, Hage2.
  pose proof (all_in_spec _ _ _
                (all_in_spec _ _ _
                   (all_in_spec _ _ _ (luck_idx_ok_all forward) ms ltac:(lia))
                   mb ltac:(lia)) k ltac:(lia)) as Hidx.
  unfold luck_idx_ok in Hidx.
  replace ((ms - mb) mod 2 =? 0) with true in Hidx
    by (symmetry; apply Z.eqb_eq; exact Hpar).
  apply andb_prop in Hidx as [Hidx H3]. apply andb_prop in Hidx as [H1 H2].
  apply Z.eqb_eq in H1, H2.
  unfold luck_entry.
  cbn [Bazi.age Bazi.ageEnd Bazi.dy_stem Bazi.dy_branch].
  rewrite <- H1, <- H2.
  repeat split; assumption.
Qed.

Lemma back_two (mb : Z) : 0 <= mb < 12 -> ((mb + 2) mod 12 - 2) mod 12 = mb.
Proof.
  intros H.
  assert (Hk : mb = 0 \/ mb = 1 \/ mb = 2 \/ mb = 3 \/ mb = 4 \/ mb = 5
               \/ mb = 6 \/ mb = 7 \/ mb = 8 \/ mb = 9 \/ mb = 10 \/ mb = 11)
    by lia.
  repeat (destruct Hk as [->|Hk]; [reflexivity|]). now subst.
Qed.

(** What the two chart computations have in common, once the year
    pillar, the month indices, the day pillar and the onset age are
    known. *)
Lemma chart_facts (yi : Bazi.YearInfo) (monthStem monthBranch : option string)
    (ms mb s b hour hbase a : Z) (r : Bazi.DaYunCalc) (label : string) :
  sexagenary (Bazi.yearStem yi) (Bazi.yearBranch yi) = true ->
  0 <= ms < 10 -> 0 <= mb < 12 -> (ms - mb) mod 2 = 0 ->
  monthStem = index STEMS ms ->
  monthBranch = index BRANCHES ((mb + 2) mod 12) ->
  sexagenary monthStem monthBranch = true ->
  sexagenary (index STEMS s) (index BRANCHES b) = true ->
  sexagenary (index STEMS (JS.rem (hbase + hour) 10)) (index BRANCHES hour)
  = true ->
  Bazi.startAge r = JS.of_Z a -> 1 <= a <= 20 ->
  let hs := JS.rem (hbase + hour) 10 in
  let chart :=
    Bazi.mkChart
      [ Bazi.mkPillar "年柱" (Bazi.yearStem yi) (Bazi.yearBranch yi)
          (index Bazi.STEM_ELEMENTS (Bazi.yearStemIdx yi))
          (index Bazi.BRANCH_ELEMENTS (Bazi.yearBranchIdx yi))
          (index Bazi.STEM_YIN_YANG (Bazi.yearStemIdx yi));
        Bazi.mkPillar "月柱" monthStem monthBranch
          (index Bazi.STEM_ELEMENTS ms) (index Bazi.BRANCH_ELEMENTS mb)
          (index Bazi.STEM_YIN_YANG ms);
        Bazi.mkPillar label (index STEMS s) (index BRANCHES b)
          (index Bazi.STEM_ELEMENTS s) (index Bazi.BRANCH_ELEMENTS b)
          (index Bazi.STEM_YIN_YANG s);
        Bazi.mkPillar "时柱" (index STEMS hs) (index BRANCHES hour)
          (index Bazi.STEM_ELEMENTS hs) (index Bazi.BRANCH_ELEMENTS hour)
          (index Bazi.STEM_YIN_YANG hs) ]
      (Bazi.daYun_from 8 0 (Bazi.startAge r)
         (String.eqb (Bazi.direction r) "顺行") ms mb)
      (Bazi.zodiac yi) (Bazi.startAge r)
      (String.eqb (Bazi.direction r) "顺行") r in
  four_pairs chart
  /\ month_pillar_at chart ms ((mb + 2) mod 12)
  /\ luck_pillars chart ms ((mb + 2) mod 12).
Proof.
  intros Hyp Hms Hmb Hpar Es Eb Hmp Hdp Hhp Hsa Ha hs chart.
  split; [|split].
  - split; [reflexivity|].
    unfold chart. cbn [Bazi.pillars].
    repeat constructor; cbn [Bazi.stem Bazi.branch]; assumption.
  - split; [exact Hms|].
    split; [apply Z.mod_pos_bound; lia|].
    eexists. split; [reflexivity|].
    cbn [Bazi.stem Bazi.branch Bazi.stemEle Bazi.branchEle].
    rewrite back_two by exact Hmb. repeat split; assumption.
  - exists a. split; [exact Ha|].
    unfold chart. cbn [Bazi.info_startAge Bazi.daYun Bazi.info_daYunForward].
    split; [exact Hsa|]. split; [apply daYun_from_length|].
    intros k Hk. rewrite Hsa.
    exact (daYun_from_luck a _ ms mb k Ha Hms Hmb Hpar Hk).
Qed.

Lemma bazi_chart (Date_ms : Z -> Z -> Z -> Z -> Z -> Z)
    (year month day hour : Z) (gender : string) :
  1900 <= year <= 2100 -> 1 <= month <= 12 -> 1 <= day <= 31 ->
  0 <= hour <= 11 ->
  exists chart S B,
    Bazi.calcBaziPillars Date_ms year month day hour gender = Some chart
    /\ four_pairs chart /\ month_pillar_at chart S B /\ luck_pillars chart S B.
Proof.
  intros Hy Hm Hd Hh. unfold Bazi.calcBaziPillars.
  destruct (getYearFromSolarTerm_sexagenary year month day Hy)
    as (yi & -> & Hys & Hyp).
  cbn [obind]. unfold Bazi.getMonthFromSolarTerm.
  destruct (getNearestSolarTerm_total year month day Hy) as [near ->].
  cbn [obind].
  pose proof (monthIndex_of_range (SolarTerms.prevTerm near) month Hm) as Hi.
  pose proof (posmod_range (year - 4) 10 ltac:(lia)) as Hs.
  pose proof (all_in_spec _ _ _
                (all_in_spec _ _ _ (month_idx_ok_all false) _ Hs) _ Hi) as Hmo.
  unfold month_idx_ok in Hmo.
  destruct (index _ (JS.posmod (year - 4) 10)) as [base|]; [|discriminate].
  cbn [obind Bazi.monthStemIdx Bazi.monthBranchIdx Bazi.monthStem
       Bazi.monthBranch].
  set (mi := Bazi.monthIndex_of _ _) in *.
  set (ms := JS.rem (base + mi) 10) in *.
  set (mb := JS.rem (mi + 2) 12) in *.
  apply andb_prop in Hmo as [Hmo Hmp]. apply andb_prop in Hmo as [Hmo Hname].
  apply andb_prop in Hmo as [Hmo Hpar]. apply andb_prop in Hmo as [Hmo Hb2].
  apply andb_prop in Hmo as [Hmo Hb1]. apply andb_prop in Hmo as [Hs1 Hs2].
  apply eqU_eq in Hname. apply Z.eqb_eq in Hpar.
  destruct (dayStemBranch_sexagenary year month day Hy Hm Hd)
    as (s & b & -> & Hdp).
  apply sexagenary_idx_elim in Hdp as (Hsr & Hbr & _ & Hdp).
  destruct (hour_pillar_sexagenary s hour Hsr Hh) as (hbase & Hbase & Hhp).
  apply sexagenary_idx_elim in Hhp as (_ & _ & _ & Hhp).
  cbn [obind]. rewrite Hbase. cbn [obind].
  destruct (calcDaYunPrecise_age Date_ms year month day 0 0 gender
              (Bazi.yearStemIdx yi) Hy Hm Hd) as (r & a & -> & Hsa & Ha).
  cbn [obind]. eexists. exists ms, ((mb + 2) mod 12).
  split; [reflexivity|].
  apply (chart_facts yi _ _ ms mb s b hour hbase a r); try assumption;
    try reflexivity; lia.
Qed.

Lemma part3_chart (Date_ms : Z -> Z -> Z -> Z -> Z -> Z)
    (year month day hour : Z) (gender : string) :
  1900 <= year <= 2100 -> 1 <= month <= 12 -> 1 <= day <= 31 ->
  0 <= hour <= 11 ->
  exists chart S B,
    Part3.calcBaziPillars Date_ms year month day hour gender = Some chart
    /\ four_pairs chart /\ month_pillar_at chart S B /\ luck_pillars chart S B.
Proof.
  intros Hy Hm Hd Hh. unfold Part3.calcBaziPillars.
  destruct (getYearFromSolarTerm_sexagenary year month day Hy)
    as (yi & Eyi & Hys & Hyp).
  assert (Hay : 1899 <= Bazi.actualYear yi <= 2100).
  { unfold Bazi.getYearFromSolarTerm in Eyi.
    destruct (SolarTerms.getSolarTerms year) as [tbl|]; [|discriminate].
    cbn [obind] in Eyi.
    destruct (lookup tbl LiChun) as [l|]; injection Eyi as <-;
      cbn [Bazi.getYearSimplified Bazi.actualYear]; [|lia].
    case_if; lia. }
  rewrite Eyi. cbn [obind]. unfold Part3.getMonthFromSolarTerm.
  destruct (getNearestSolarTerm_total_1899 (Bazi.actualYear yi) month day Hay)
    as [near ->].
  cbn [obind].
  pose proof (monthIndex_of_range (SolarTerms.prevTerm near) month Hm) as Hi.
  pose proof (posmod_range (Bazi.actualYear yi - 4) 10 ltac:(lia)) as Hs.
  pose proof (all_in_spec _ _ _
                (all_in_spec _ _ _ (month_idx_ok_all true) _ Hs) _ Hi) as Hmo.
  unfold month_idx_ok in Hmo.
  destruct (index _ (JS.posmod (Bazi.actualYear yi - 4) 10)) as [base|];
    [|discriminate].
  cbn [obind Bazi.monthStemIdx Bazi.monthBranchIdx Bazi.monthStem
       Bazi.monthBranch].
  set (mi := Bazi.monthIndex_of _ _) in *.
  set (ms := JS.rem (base + mi) 10) in *.
  apply andb_prop in Hmo as [Hmo Hmp]. apply andb_prop in Hmo as [Hmo Hname].
  apply andb_prop in Hmo as [Hmo Hpar]. apply andb_prop in Hmo as [Hmo Hb2].
  apply andb_prop in Hmo as [Hmo Hb1]. apply andb_prop in Hmo as [Hs1 Hs2].
  apply eqU_eq in Hname. apply Z.eqb_eq in Hpar.
  destruct (day_pillars_checked year month day Hy Hm Hd)
    as (_ & _ & sb & _ & _ & -> & _ & Hdp & _).
  apply sexagenary_idx_elim in Hdp as (Hsr & Hbr & _ & Hdp).
  destruct (hour_pillar_sexagenary _ hour Hsr Hh) as (hbase & Hbase & Hhp).
  apply sexagenary_idx_elim in Hhp as (_ & _ & _ & Hhp).
  cbn [obind]. rewrite Hbase. cbn [obind].
  destruct (calcDaYunPrecise_age Date_ms year month day 0 0 gender
              (Bazi.yearStemIdx yi) Hy Hm Hd) as (r & a & -> & Hsa & Ha).
  cbn [obind]. eexists. exists ms, ((mi + 2) mod 12).
  split; [reflexivity|].
  apply (chart_facts yi _ _ ms mi _ _ hour hbase a r); try assumption;
    try reflexivity; lia.
Qed.

(** X22.  In the chart of [bazi.js] the month pillar and the luck
    pillars do not agree on the month branch.  For a birth of the
    supported domain the month pillar carries the element of the branch
    two places before the branch it names; and there are eight luck
    pillars, ten years each from an onset age between 1 and 20, each
    one of the sixty pairs, whose stems step from the month stem but
    whose branches step from the branch two places before the month
    branch named. *)
Theorem bazi_luck_pillars_two_branches_back
    (Date_ms : Z -> Z -> Z -> Z -> Z -> Z)
    (year month day hour : Z) (gender : string) :
  1900 <= year <= 2100 -> 1 <= month <= 12 -> 1 <= day <= 31 ->
  0 <= hour <= 11 ->
  exists chart S B,
    Bazi.calcBaziPillars Date_ms year month day hour gender = Some chart
    /\ month_pillar_at chart S B /\ luck_pillars chart S B.
Proof.
  intros Hy Hm Hd Hh.
  destruct (bazi_chart Date_ms year month day hour gender Hy Hm Hd Hh)
    as (chart & S & B & E & _ & H1 & H2).
  now exists chart, S, B.
Qed.

Lemma bazi_luck_pillars_two_branches_back_witness :
  exists chart S B,
    Bazi.calcBaziPillars Date_fixed 1990 5 15 5 "m" = Some chart
    /\ month_pillar_at chart S B /\ luck_pillars chart S B.
Proof.
  apply (bazi_luck_pillars_two_branches_back Date_fixed 1990 5 15 5 "m"); lia.
Defined.

(** X23.  The chart computation in effect in [part_003] (line 1183)
    returns, for a birth of the supported domain, four pillars that are
    four of the sixty pairs. *)
Theorem part3_four_pillars_sexagenary
    (Date_ms : Z -> Z -> Z -> Z -> Z -> Z)
    (year month day hour : Z) (gender : string) :
  1900 <= year <= 2100 -> 1 <= month <= 12 -> 1 <= day <= 31 ->
  0 <= hour <= 11 ->
  exists chart,
    Part3.calcBaziPillars Date_ms year month day hour gender = Some chart
    /\ four_pairs chart.
Proof.
  intros Hy Hm Hd Hh.
  destruct (part3_chart Date_ms year month day hour gender Hy Hm Hd Hh)
    as (chart & S & B & E & H & _).
  now exists chart.
Qed.

Lemma part3_four_pillars_sexagenary_witness :
  exists chart,
    Part3.calcBaziPillars Date_fixed 1990 5 15 5 "m" = Some chart
    /\ four_pairs chart.
Proof.
  apply (part3_four_pillars_sexagenary Date_fixed 1990 5 15 5 "m"); lia.
Defined.

(** X24.  The chart in effect in [part_003] has the same disagreement
    as that of [bazi.js]: the month pillar carries the element of the
    branch two places before the branch it names, and the branches of
    the eight luck pillars step from that earlier branch, while their
    stems step from the month stem; each luck pillar is one of the
    sixty pairs and spans ten years from an onset age between 1 and
    20. *)
Theorem part3_luck_pillars_two_branches_back
    (Date_ms : Z -> Z -> Z -> Z -> Z -> Z)
    (year month day hour : Z) (gender : string) :
  1900 <= year <= 2100 -> 1 <= month <= 12 -> 1 <= day <= 31 ->
  0 <= hour <= 11 ->
  exists chart S B,
    Part3.calcBaziPillars Date_ms year month day hour gender = Some chart
    /\ month_pillar_at chart S B /\ luck_pillars chart S B.
Proof.
  intros Hy Hm Hd Hh.
  destruct (part3_chart Date_ms year month day hour gender Hy Hm Hd Hh)
    as (chart & S & B & E & _ & H1 & H2).
  now exists chart, S, B.
Qed.

Lemma part3_luck_pillars_two_branches_back_witness :
  exists chart S B,
    Part3.calcBaziPillars Date_fixed 1990 5 15 5 "m" = Some chart
    /\ month_pillar_at chart S B /\ luck_pillars chart S B.
Proof.
  apply (part3_luck_pillars_two_branches_back Date_fixed 1990 5 15 5 "m"); lia.
Defined.

(** ** The day pillar from one day to the next *)

Lemma getJulianDay_linear (y m d d' j : Z) :
  Part3.getJulianDay y m d = Some j ->
  Part3.getJulianDay y m d' = Some (j + (d' - d)).
Proof.
  unfold Part3.getJulianDay.
  destruct (JS.floorZ _) as [a|]; [|discriminate]. cbn [obind].
  destruct (JS.floorZ _) as [q1|]; [|discriminate]. cbn [obind].
  destruct (JS.floorZ _) as [q2|]; [|discriminate]. cbn [obind].
  destruct (JS.floorZ _) as [q3|]; [|discriminate]. cbn [obind].
  destruct (JS.floorZ _) as [q4|]; [|discriminate]. cbn [obind].
  intros H. f_equal.
  assert (E : forall u v : Z, Some u = Some v -> u = v)
    by (intros u v [=]; assumption).
  apply E in H. lia.
Qed.

Lemma month_end_ok_all :
  all_in 1900 201 (fun y => all_in 1 12 (month_end_ok y)) = true.
Proof. vm_compute. reflexivity. Qed.

Lemma getJulianDay_next (y m d : Z) :
  1900 <= y <= 2100 -> validDate y m d ->
  exists j,
    Part3.getJulianDay y m d = Some j
    /\ (let '(y', m', d') := nextDay y m d in Part3.getJulianDay y' m' d')
       = Some (j + 1).
Proof.
  intros Hy [Hm Hd].
  pose proof (all_in_spec _ _ _
                (all_in_spec _ _ _ month_end_ok_all y ltac:(lia)) m ltac:(lia))
    as H.
  unfold month_end_ok in H.
  destruct (nextDay y m (monthLength y m)) as [[y' m'] d'] eqn:En.
  destruct (Part3.getJulianDay y m (monthLength y m)) as [a|] eqn:Ea;
    [|discriminate].
  destruct (Part3.getJulianDay y' m' d') as [b|] eqn:Eb; [|discriminate].
  apply andb_prop in H as [H _]. apply andb_prop in H as [H _].
  apply Z.eqb_eq in H. subst b.
  exists (a + (d - monthLength y m)).
  split; [exact (getJulianDay_linear _ _ _ _ _ Ea)|].
  unfold nextDay in *.
  replace (monthLength y m <? monthLength y m) with false in En
    by (symmetry; apply Z.ltb_irrefl).
  destruct (d <? monthLength y m) eqn:E.
  - rewrite (getJulianDay_linear _ _ _ (d + 1) _ Ea). f_equal. lia.
  - apply Z.ltb_ge in E. assert (d = monthLength y m) by lia. subst d.
    rewrite En, Eb. f_equal. lia.
Qed.

Lemma posmod_succ (x n : Z) :
  0 < n -> JS.posmod (x + 1) n = (JS.posmod x n + 1) mod n.
Proof.
  intros Hn. rewrite !posmod_mod by exact Hn.
  rewrite Zplus_mod_idemp_l. reflexivity.
Qed.

Lemma part3_day_pillar_next (y m d : Z) :
  1900 <= y <= 2100 -> validDate y m d ->
  exists s b,
    Part3.dayStemBranch y m d = Some (s, b)
    /\ (let '(y', m', d') := nextDay y m d in Part3.dayStemBranch y' m' d')
       = Some ((s + 1) mod 10, (b + 1) mod 12).
Proof.
  intros Hy Hv.
  destruct (getJulianDay_next y m d Hy Hv) as (j & Ej & En).
  unfold Part3.dayStemBranch. rewrite Ej. cbn [obind].
  do 2 eexists. split; [reflexivity|].
  destruct (nextDay y m d) as [[y' m'] d']. rewrite En. cbn [obind].
  replace (j + 1 + 49) with (j + 49 + 1) by lia.
  now rewrite !posmod_succ by lia.
Qed.

(** X25.  The day pillar of the chart in effect in [part_003] steps
    through the sixty pairs day by day: for every date of the Gregorian
    calendar from 1900 to 2100 the pillar of the day after, the first of
    the next month or year included, is one stem and one branch
    further. *)
Theorem day_pillar_steps_daily (y m d : Z) :
  1900 <= y <= 2100 -> validDate y m d ->
  exists s b,
    Part3.dayStemBranch y m d = Some (s, b)
    /\ (let '(y', m', d') := nextDay y m d in Part3.dayStemBranch y' m' d')
       = Some ((s + 1) mod 10, (b + 1) mod 12).
Proof. apply part3_day_pillar_next. Qed.

Lemma day_pillar_steps_daily_witness :
  Part3.dayStemBranch 2000 2 29 = Some (3, 5)
  /\ Part3.dayStemBranch 2000 3 1 = Some (4, 6).
Proof.
  destruct (day_pillar_steps_daily 2000 2 29) as (s & b & E & En);
    [lia|split; [lia|vm_compute monthLength; lia]|].
  vm_compute in E. injection E as <- <-.
  split; [reflexivity|exact En].
Defined.

(** X26.  [bazi.js] shows for every date the day pillar that the later
    revision shows for the day before: for a date of the Gregorian
    calendar from 1900 to 2099, the day pillar of [bazi.js] on the day
    after is the day pillar of [part_003] on the date itself. *)
Theorem bazi_day_pillar_is_the_day_before (y m d : Z) :
  1900 <= y <= 2099 -> validDate y m d ->
  exists s b,
    Part3.dayStemBranch y m d = Some (s, b)
    /\ (let '(y', m', d') := nextDay y m d in Bazi.dayStemBranch y' m' d')
       = Some (s, b).
Proof.
  intros Hy Hv.
  destruct (part3_day_pillar_next y m d ltac:(lia) Hv) as (s & b & E & En).
  exists s, b. split; [exact E|].
  assert (Hr : 0 <= s < 10 /\ 0 <= b < 12).
  { unfold Part3.dayStemBranch in E.
    destruct (Part3.getJulianDay y m d); [|discriminate].
    cbn [obind] in E. injection E as <- <-.
    split; apply posmod_range; lia. }
  assert (Hnext : let '(y', m', d') := nextDay y m d in
                  1900 <= y' <= 2100 /\ 1 <= m' <= 12 /\ 1 <= d' <= 31).
  { destruct Hv as [Hm Hd]. unfold nextDay.
    destruct (monthDays_entry y m Hm) as (n & En' & Hn).
    unfold monthLength in *. rewrite En' in *.
    destruct (d <? n) eqn:E1; [apply Z.ltb_lt in E1; lia|].
    destruct (m <? 12) eqn:E2; [apply Z.ltb_lt in E2; lia|lia]. }
  destruct (nextDay y m d) as [[y' m'] d'].
  destruct Hnext as (Hy' & Hm' & Hd').
  destruct (bazi_day_pillar_one_behind y' m' d' Hy' Hm' Hd')
    as (s' & b' & Eb & Ep & _).
  rewrite Eb. rewrite Ep in En. injection En as Hs Hb.
  destruct (dayStemBranch_sexagenary y' m' d' Hy' Hm' Hd')
    as (s2 & b2 & Eb2 & Hrange).
  rewrite Eb in Eb2. injection Eb2 as <- <-.
  apply sexagenary_idx_elim in Hrange. destruct Hrange as (Hs' & Hb' & _).
  f_equal. f_equal.
  - assert (Hk : s' = s \/ s' <> s) by lia. destruct Hk as [Hk|Hk]; [exact Hk|].
    exfalso.
    destruct (Z.eq_dec s' 9) as [->|]; destruct (Z.eq_dec s 9) as [->|];
      try lia;
      [change ((9 + 1) mod 10) with 0 in Hs; rewrite Z.mod_small in Hs by lia; lia
      |change ((9 + 1) mod 10) with 0 in Hs; rewrite Z.mod_small in Hs by lia; lia
      |rewrite !Z.mod_small in Hs by lia; lia].
  - assert (Hk : b' = b \/ b' <> b) by lia. destruct Hk as [Hk|Hk]; [exact Hk|].
    exfalso.
    destruct (Z.eq_dec b' 11) as [->|]; destruct (Z.eq_dec b 11) as [->|];
      try lia;
      [change ((11 + 1) mod 12) with 0 in Hb; rewrite Z.mod_small in Hb by lia; lia
      |change ((11 + 1) mod 12) with 0 in Hb; rewrite Z.mod_small in Hb by lia; lia
      |rewrite !Z.mod_small in Hb by lia; lia].
Qed.

Lemma bazi_day_pillar_is_the_day_before_witness :
  Part3.dayStemBranch 2000 1 7 = Some (0, 0)
  /\ Bazi.dayStemBranch 2000 1 8 = Some (0, 0).
Proof.
  destruct (bazi_day_pillar_is_the_day_before 2000 1 7) as (s & b & E & En);
    [lia|split; [lia|vm_compute monthLength; lia]|].
  vm_compute in E. injection E as <- <-.
  split; [reflexivity|exact En].
Defined.

(** ** The conversion of lunar dates *)

Lemma month_cases (m : Z) :
  1 <= m <= 12 ->
  m = 1 \/ m = 2 \/ m = 3 \/ m = 4 \/ m = 5 \/ m = 6 \/ m = 7 \/ m = 8
  \/ m = 9 \/ m = 10 \/ m = 11 \/ m = 12.
Proof. lia. Qed.

(** The month carry keeps the day of the year, counted in years of 365
    days, and leaves a day of its month. *)
Lemma carry_solar_ordinal (fuel : nat) (y m d : Z) :
  1 <= m <= 12 -> 1 <= d <= Z.of_nat fuel ->
  let '(y', m', d') := Part3.carry_solar fuel y m d in
  1 <= m' <= 12 /\ 1 <= d' <= dim365 m'
  /\ 365 * y' + ordinal365 m' d' = 365 * y + ordinal365 m d.
Proof.
  revert y m d. induction fuel as [|fuel IH]; intros y m d Hm Hd; [lia|].
  cbn [Part3.carry_solar].
  fold (dim365 m).
  assert (Hdim : 28 <= dim365 m <= 31).
  { unfold dim365. destruct (m =? 2); [lia|]. destruct (_ || _); lia. }
  destruct (28 <? d) eqn:E28.
  - destruct (dim365 m <? d) eqn:Edim.
    + apply Z.ltb_lt in Edim.
      destruct (12 <? m + 1) eqn:E12.
      * apply Z.ltb_lt in E12. assert (m = 12) by lia. subst m.
        specialize (IH (y + 1) 1 (d - dim365 12) ltac:(lia) ltac:(lia)).
        destruct (Part3.carry_solar fuel (y + 1) 1 (d - dim365 12))
          as [[y' m'] d'].
        destruct IH as (H1 & H2 & H3). split; [exact H1|]. split; [exact H2|].
        rewrite H3. unfold ordinal365. vm_compute dim365.
        change (daysBefore365 1) with 0. change (daysBefore365 12) with 334.
        lia.
      * apply Z.ltb_ge in E12.
        specialize (IH y (m + 1) (d - dim365 m) ltac:(lia) ltac:(lia)).
        destruct (Part3.carry_solar fuel y (m + 1) (d - dim365 m))
          as [[y' m'] d'].
        destruct IH as (H1 & H2 & H3). split; [exact H1|]. split; [exact H2|].
        rewrite H3. unfold ordinal365.
        assert (Hs : daysBefore365 (m + 1) = daysBefore365 m + dim365 m).
        { destruct (month_cases m Hm)
            as [->|[->|[->|[->|[->|[->|[->|[->|[->|[->|[->| ->]]]]]]]]]]];
            try reflexivity. lia. }
        lia.
    + apply Z.ltb_ge in Edim. repeat split; lia.
  - apply Z.ltb_ge in E28. repeat split; lia.
Qed.

Lemma addMonths_year (n : nat) (y y' i d : Z) :
  Part3.addMonths n y i d = Part3.addMonths n y' i d.
Proof.
  revert i d. induction n as [|n IH]; intros i d; cbn [Part3.addMonths];
    [reflexivity|].
  rewrite IH. reflexivity.
Qed.

Lemma addMonths_plus (n : nat) (y i d : Z) :
  Part3.addMonths n y i d = d + Part3.addMonths n y i 0.
Proof.
  revert i d. induction n as [|n IH]; intros i d; cbn [Part3.addMonths]; [lia|].
  rewrite ?Z.add_0_l.
  rewrite (IH (i + 1) (d + _)), (IH (i + 1) (Part3.getMonthDays y i)). lia.
Qed.

Lemma addMonths_from (n : nat) (y y' i d : Z) :
  Part3.addMonths n y i d = d + Part3.addMonths n y' i 0.
Proof. rewrite addMonths_plus, (addMonths_year n y y'). reflexivity. Qed.

Lemma lunarOffset_range (lunarMonth lunarDay : Z) :
  1 <= lunarMonth <= 12 -> 1 <= lunarDay <= 30 ->
  0 <= lunarOffset lunarMonth lunarDay <= 354.
Proof.
  intros Hm Hd. unfold lunarOffset.
  destruct (month_cases lunarMonth Hm)
    as [->|[->|[->|[->|[->|[->|[->|[->|[->|[->|[->| ->]]]]]]]]]]];
    vm_compute Part3.addMonths; lia.
Qed.

Lemma newYear_ok_all : forallb newYear_ok Part3.lunarNewYear = true.
Proof. vm_compute. reflexivity. Qed.

Lemma newYearOf_range (lunarYear : Z) :
  let '(m, d) := newYearOf lunarYear in 1 <= m <= 2 /\ 1 <= d <= dim365 m.
Proof.
  unfold newYearOf.
  destruct (Part3.assoc Part3.lunarNewYear lunarYear) as [[m d]|] eqn:E.
  - assert (Hin : In (lunarYear, (m, d)) Part3.lunarNewYear).
    { revert E. generalize Part3.lunarNewYear.
      induction l as [|[k v] l IH]; [discriminate|].
      cbn [Part3.assoc]. destruct (k =? lunarYear) eqn:Ek.
      - intros [= ->]. apply Z.eqb_eq in Ek. subst k. now left.
      - intros H. right. exact (IH H). }
    pose proof (proj1 (forallb_forall _ _) newYear_ok_all _ Hin) as H.
    unfold newYear_ok in H. cbn [snd] in H.
    do 3 (apply andb_prop in H as [H ?]). lia.
  - vm_compute. repeat split; discriminate.
Qed.

(** X27.  [lunarToSolar] counts in years of 365 days.  For a lunar month
    from 1 to 12 and a lunar day from 1 to 30, whatever the year, it
    returns a month from 1 to 12 and a day of that month, February
    having 28 days, so never 29 February; the date is the new year of
    its table (21 January for a year the table lacks) moved on by the
    months of 30 and 29 days and the days before the lunar date, and
    its year is the lunar year or the next. *)
Theorem lunarToSolar_counts_365 (lunarYear lunarMonth lunarDay : Z) :
  1 <= lunarMonth <= 12 -> 1 <= lunarDay <= 30 ->
  let '(y, m, d) := Part3.lunarToSolar lunarYear lunarMonth lunarDay in
  let '(m0, d0) := newYearOf lunarYear in
  1 <= m <= 12 /\ 1 <= d <= dim365 m
  /\ (y = lunarYear \/ y = lunarYear + 1)
  /\ 365 * (y - lunarYear) + ordinal365 m d
     = ordinal365 m0 d0 + lunarOffset lunarMonth lunarDay.
Proof.
  intros Hm Hd. unfold Part3.lunarToSolar.
  pose proof (newYearOf_range lunarYear) as Hny.
  unfold newYearOf in *.
  destruct (match Part3.assoc Part3.lunarNewYear lunarYear with
            | Some ny => ny
            | None => (1, 21)
            end) as [m0 d0].
  destruct Hny as [Hm0 Hd0].
  pose proof (lunarOffset_range lunarMonth lunarDay Hm Hd) as Hoff.
  unfold lunarOffset in *.
  rewrite (addMonths_from _ lunarYear 0 1 d0).
  set (months := Part3.addMonths _ 0 1 0) in *.
  assert (Hdim0 : dim365 m0 <= 31).
  { unfold dim365. destruct (m0 =? 2); [lia|]. destruct (_ || _); lia. }
  pose proof (carry_solar_ordinal
                (Z.to_nat (d0 + months + (lunarDay - 1))) lunarYear m0
                (d0 + months + (lunarDay - 1)) ltac:(lia) ltac:(lia)) as H.
  destruct (Part3.carry_solar _ lunarYear m0 _) as [[y m] d].
  destruct H as (H1 & H2 & H3).
  assert (Ho : 1 <= ordinal365 m d <= 365).
  { unfold ordinal365.
    destruct (month_cases m H1)
      as [->|[->|[->|[->|[->|[->|[->|[->|[->|[->|[->| ->]]]]]]]]]]];
      vm_compute dim365 in H2; vm_compute daysBefore365; lia. }
  assert (Ho0 : 1 <= ordinal365 m0 d0 <= 62).
  { unfold ordinal365. assert (Hk : m0 = 1 \/ m0 = 2) by lia.
    destruct Hk as [->| ->]; vm_compute daysBefore365;
      vm_compute dim365 in Hd0; lia. }
  unfold ordinal365 in *.
  split; [exact H1|]. split; [exact H2|]. split; lia.
Qed.

Lemma lunarToSolar_counts_365_witness :
  Part3.lunarToSolar 2014 12 30 = (2015, 1, 20)
  /\ 365 * (2015 - 2014) + ordinal365 1 20
     = ordinal365 1 31 + lunarOffset 12 30.
Proof.
  pose proof (lunarToSolar_counts_365 2014 12 30 ltac:(lia) ltac:(lia)) as H.
  vm_compute in H. split; [reflexivity|]. apply H.
Defined.

(** ** The month branch of the astronomical revision *)

(** X28.  In the astronomical revision of [part_003] no date is given
    the rat month.  Whatever its solver returns, if the start of spring
    of the year is not in January and the minor cold of the next year is
    in January, [getMonthBranchIdx] returns a branch index from 1 to 11,
    never 0: its scan compares months without the year, so the minor
    cold of the next January counts as passed from February on. *)
Theorem jieqi_month_never_the_rat (calcSolarTerm : Z -> Z -> TermDate)
    (year month day : Z) (h : option Z) :
  2 <= td_month (calcSolarTerm year 2) ->
  td_month (calcSolarTerm (year + 1) 0) = 1 ->
  exists b,
    Part3.Jieqi.getMonthBranchIdx calcSolarTerm year month day h = Some b
    /\ 1 <= b <= 11.
Proof.
  intros Hl Hx.
  destruct (getMonthBranchIdx_range calcSolarTerm year month day h)
    as (b & E & Hb).
  exists b. split; [exact E|].
  pose proof (getMonthBranchIdx_never_zi calcSolarTerm year month day h Hl Hx)
    as Hz.
  rewrite E in Hz. assert (b <> 0) by congruence. lia.
Qed.

Lemma jieqi_month_never_the_rat_witness :
  exists b,
    Part3.Jieqi.getMonthBranchIdx
      (fun y i => mkTermDate (1 + i / 2) 5 12 0 y) 2000 12 20 None = Some b
    /\ 1 <= b <= 11.
Proof.
  apply (jieqi_month_never_the_rat
           (fun y i => mkTermDate (1 + i / 2) 5 12 0 y) 2000 12 20 None).
  - simpl. lia.
  - reflexivity.
Defined.
